(** * codebase2xml: the archiver core, embedded and verified

    A shallow embedding of [src/codebase2xml/core.py]: the type classifier
    ([FileTypeDetector.detect_type]), the ignore filter ([_should_ignore],
    [_match_pattern]), the content sanitizer ([_clean_xml_content]), the
    metadata extractor ([_extract_metadata]), the structure builder
    ([_build_structure_tree]) and the assembler ([archive_codebase]).

    Conventions of the embedding.
    - A Python [str] that is a name, a path, a pattern, a tag or an attribute
      value is a [string]; a character of it stands for the code point of the
      same number (0 to 255).  File content, on which the sanitizer works by
      code point, is a [list Z] of code points.
    - The file system is a tree of [Node]s.  Every node records the outcome
      of each call the archiver makes on it ([stat], the 1KB probe, the full
      read), so that a failing call is an explicit value of the tree, and the
      tree is the same for the three walks of one run.
    - What Python's library decides and the repository does not (the MIME
      database, the clock, the working directory) is a field of [Host].
    - [archive_codebase] stops at the element tree it builds; turning that
      tree into the bytes of the output file is the work of [ElementTree] and
      [minidom] and is outside the embedding. *)

From Stdlib Require Import ZArith NArith Ascii String List Bool Lia.
From Stdlib Require Import Sorting.Sorted Sorting.Permutation.
From Stdlib Require Import Numbers.DecimalString.
From stdpp Require Import base option list gmap strings.

Local Open Scope Z_scope.
Local Set Warnings "-register-all".

(** ** Python strings *)

Module Py.

(** [name[i:]] on a string. *)
Fixpoint drop (i : nat) (s : string) : string :=
  match i, s with
  | O, _ => s
  | S _, EmptyString => EmptyString
  | S i', String _ s' => drop i' s'
  end.

(** [s.rfind(c)] for a single character [c]; [None] is Python's [-1]. *)
Fixpoint rfind (c : ascii) (s : string) : option nat :=
  match s with
  | EmptyString => None
  | String a s' =>
      match rfind c s' with
      | Some i => Some (S i)
      | None => if Ascii.eqb a c then Some O else None
      end
  end.

(** [c.lower()] on the code points below 256: the ASCII capitals and the
    Latin-1 capitals U+00C0..U+00DE without the multiplication sign. *)
Definition lower_char (c : ascii) : ascii :=
  let n := N_of_ascii c in
  if ((65 <=? n) && (n <=? 90))%N then ascii_of_N (n + 32)
  else if ((192 <=? n) && (n <=? 222) && negb (n =? 215))%N
       then ascii_of_N (n + 32)
  else c.

Fixpoint lower (s : string) : string :=
  match s with
  | EmptyString => EmptyString
  | String c s' => String (lower_char c) (lower s')
  end.

(** [p in s]: [p] occurs in [s] as a contiguous run. *)
Fixpoint contains (p s : string) : bool :=
  String.prefix p s ||
  match s with
  | EmptyString => false
  | String _ s' => contains p s'
  end.

(** [c in s] for a single character. *)
Fixpoint has_char (c : ascii) (s : string) : bool :=
  match s with
  | EmptyString => false
  | String a s' => Ascii.eqb a c || has_char c s'
  end.

(** [s.replace(c, new)] where the replaced string is the one character
    [c]: every occurrence, left to right. *)
Fixpoint replace (c : ascii) (new : string) (s : string) : string :=
  match s with
  | EmptyString => EmptyString
  | String a s' =>
      if Ascii.eqb a c then new +:+ replace c new s'
      else String a (replace c new s')
  end.

(** [sep.join(parts)]. *)
Definition join (sep : string) (parts : list string) : string :=
  String.concat sep parts.

(** The digits of [oct(n)] after its [0o] prefix, most significant first.
    [fuel] bounds the number of digits. *)
Fixpoint oct_digits (fuel : nat) (n : N) (acc : string) : string :=
  let d := String (ascii_of_N (48 + n mod 8)) acc in
  match fuel with
  | O => d
  | S fuel' => if (n <? 8)%N then d else oct_digits fuel' (n / 8) d
  end.

Definition oct (n : N) : string :=
  "0o" +:+ oct_digits (N.to_nat (N.size n)) n "".

(** [s[-3:]]. *)
Definition last3 (s : string) : string :=
  drop (String.length s - 3) s.

(** The code points of a string. *)
Definition codepoints (s : string) : list Z :=
  map (fun c => Z.of_N (N_of_ascii c)) (list_ascii_of_string s).

(** [c.isspace()] by code point. *)
Definition isspace (c : Z) : bool :=
  ((9 <=? c) && (c <=? 13)) || ((28 <=? c) && (c <=? 32))
  || (c =? 133) || (c =? 160) || (c =? 5760)
  || ((8192 <=? c) && (c <=? 8202))
  || (c =? 8232) || (c =? 8233) || (c =? 8239) || (c =? 8287)
  || (c =? 12288).

Fixpoint lstrip (t : list Z) : list Z :=
  match t with
  | c :: t' => if isspace c then lstrip t' else t
  | [] => []
  end.

(** [t.strip()]: the white space at both ends is removed. *)
Definition strip (t : list Z) : list Z :=
  rev (lstrip (rev (lstrip t))).

(** Truth value of a [str]: it is not empty. *)
Definition truthy (t : list Z) : bool :=
  match t with [] => false | _ :: _ => true end.

Definition nonempty (s : string) : bool :=
  match s with EmptyString => false | String _ _ => true end.

(** [str(n)] for an [int]. *)
Definition str (n : Z) : string :=
  NilEmpty.string_of_int (Z.to_int n).

(** The line boundaries of [str.splitlines]. *)
Definition is_linebreak (c : Z) : bool :=
  ((10 <=? c) && (c <=? 13)) || ((28 <=? c) && (c <=? 30))
  || (c =? 133) || (c =? 8232) || (c =? 8233).

(** [len(t.splitlines())]: one line per boundary ([\r\n] is one boundary)
    and one more for a last line without its boundary.  [open] is true
    while the current line has a character. *)
Fixpoint count_splitlines (open : bool) (t : list Z) : N :=
  match t with
  | [] => if open then 1%N else 0%N
  | c :: t' =>
      if is_linebreak c then
        match c, t' with
        | 13, 10 :: t'' => (1 + count_splitlines false t'')%N
        | _, _ => (1 + count_splitlines false t')%N
        end
      else count_splitlines true t'
  end.

End Py.

(** ** Paths

    A [pathlib.PurePosixPath]: its anchor (nothing, [/] or [//]) and its
    segments. *)

Inductive Anchor := Relative | Rooted | DoubleSlash.

Record Path := PosixPath { path_anchor : Anchor; path_parts : list string }.

Definition anchor_str (a : Anchor) : string :=
  match a with Relative => "" | Rooted => "/" | DoubleSlash => "//" end.

(** [str(path)]. *)
Definition path_str (p : Path) : string :=
  match path_parts p, path_anchor p with
  | [], Relative => "."
  | parts, a => anchor_str a +:+ Py.join "/" parts
  end.

(** [path.name]: the final segment, empty when there is none. *)
Definition path_name (p : Path) : string :=
  List.last (path_parts p) "".

(** [path.suffix]: from the last dot of the name, unless that dot starts or
    ends the name. *)
Definition path_suffix (p : Path) : string :=
  let name := path_name p in
  match Py.rfind "." name with
  | Some i =>
      if (0 <? i)%nat && (i <? String.length name - 1)%nat
      then Py.drop i name else ""
  | None => ""
  end.

(** [path / name]. *)
Definition path_child (p : Path) (name : string) : Path :=
  PosixPath (path_anchor p) (path_parts p ++ [name]).

Global Instance Anchor_eq_dec : EqDecision Anchor.
Proof. solve_decision. Defined.

Global Instance Path_eq_dec : EqDecision Path.
Proof. solve_decision. Defined.

(** ** The host

    [guess_type] is [mimetypes.guess_type(s)[0]], [now_isoformat] is
    [datetime.now().isoformat()], [absolute] is [str(path.absolute())]. *)

Record Host := {
  guess_type : string -> option string;
  now_isoformat : string;
  absolute : Path -> string
}.

(** ** Type classifier *)

Module FileTypeDetector.

Definition table := gmap string string.

Definition PROGRAMMING_EXTENSIONS : table := list_to_map [
  (".py", "python"); (".js", "javascript"); (".ts", "typescript");
  (".java", "java"); (".cpp", "cpp"); (".c", "c"); (".h", "header");
  (".hpp", "header"); (".cs", "csharp"); (".php", "php"); (".rb", "ruby");
  (".go", "go"); (".rs", "rust"); (".swift", "swift"); (".kt", "kotlin");
  (".scala", "scala"); (".r", "r"); (".m", "matlab"); (".sh", "shell");
  (".bash", "shell"); (".zsh", "shell"); (".fish", "shell");
  (".ps1", "powershell"); (".sql", "sql"); (".pl", "perl"); (".lua", "lua");
  (".dart", "dart"); (".elm", "elm"); (".ex", "elixir"); (".exs", "elixir");
  (".clj", "clojure"); (".hs", "haskell"); (".ml", "ocaml");
  (".fs", "fsharp"); (".vb", "vbasic") ].

Definition CONFIG_EXTENSIONS : table := list_to_map [
  (".json", "json"); (".yaml", "yaml"); (".yml", "yaml"); (".toml", "toml");
  (".ini", "ini"); (".cfg", "config"); (".conf", "config");
  (".properties", "properties"); (".env", "environment");
  (".dockerignore", "docker"); (".gitignore", "git");
  (".gitattributes", "git"); (".editorconfig", "editor") ].

Definition DOCUMENTATION_EXTENSIONS : table := list_to_map [
  (".md", "markdown"); (".rst", "restructuredtext"); (".txt", "text");
  (".doc", "word"); (".docx", "word"); (".pdf", "pdf"); (".rtf", "rtf");
  (".tex", "latex"); (".org", "org-mode"); (".wiki", "wiki") ].

Definition WEB_EXTENSIONS : table := list_to_map [
  (".html", "html"); (".htm", "html"); (".xml", "xml"); (".xhtml", "xhtml");
  (".css", "css"); (".scss", "scss"); (".sass", "sass"); (".less", "less");
  (".vue", "vue"); (".jsx", "jsx"); (".tsx", "tsx"); (".svelte", "svelte") ].

Definition DATA_EXTENSIONS : table := list_to_map [
  (".csv", "csv"); (".tsv", "tsv"); (".xlsx", "excel"); (".xls", "excel");
  (".ods", "spreadsheet"); (".sqlite", "sqlite"); (".db", "database");
  (".parquet", "parquet"); (".arrow", "arrow"); (".avro", "avro") ].

Definition MEDIA_EXTENSIONS : table := list_to_map [
  (".png", "image"); (".jpg", "image"); (".jpeg", "image"); (".gif", "image");
  (".svg", "vector"); (".ico", "icon"); (".bmp", "image"); (".tiff", "image");
  (".mp4", "video"); (".avi", "video"); (".mov", "video"); (".wmv", "video");
  (".mp3", "audio"); (".wav", "audio"); (".flac", "audio"); (".ogg", "audio") ].

Definition SPECIAL_FILES : table := list_to_map [
  ("README", "documentation"); ("LICENSE", "license");
  ("CHANGELOG", "documentation"); ("CONTRIBUTING", "documentation");
  ("INSTALL", "documentation"); ("MANIFEST", "manifest");
  ("Makefile", "build"); ("makefile", "build"); ("CMakeLists.txt", "build");
  ("Dockerfile", "docker"); ("docker-compose.yml", "docker");
  ("docker-compose.yaml", "docker"); ("requirements.txt", "dependencies");
  ("package.json", "dependencies"); ("setup.py", "setup");
  ("setup.cfg", "setup"); ("pyproject.toml", "setup");
  ("Cargo.toml", "dependencies"); ("pom.xml", "dependencies");
  ("build.gradle", "build"); ("package-lock.json", "lockfile");
  ("yarn.lock", "lockfile"); ("Pipfile.lock", "lockfile") ].

(** The extension tables in the order [detect_type] consults them. *)
Definition EXTENSION_TABLES : list table :=
  [ PROGRAMMING_EXTENSIONS; CONFIG_EXTENSIONS; DOCUMENTATION_EXTENSIONS;
    WEB_EXTENSIONS; DATA_EXTENSIONS; MEDIA_EXTENSIONS ].

(** The [if suffix in T: return T[suffix] elif ...] chain. *)
Fixpoint by_extension (ts : list table) (suffix : string) : option string :=
  match ts with
  | [] => None
  | t :: ts' =>
      match t !! suffix with
      | Some tag => Some tag
      | None => by_extension ts' suffix
      end
  end.

(** The MIME fallback: [None] when no branch returns. *)
Definition by_mime (mime_type : option string) : option string :=
  match mime_type with
  | Some m =>
      if Py.nonempty m then
        if String.prefix "text/" m then Some "text"
        else if String.prefix "image/" m then Some "image"
        else if String.prefix "audio/" m then Some "audio"
        else if String.prefix "video/" m then Some "video"
        else if String.prefix "application/" m then Some "binary"
        else None
      else None
  | None => None
  end.

Definition detect_type (h : Host) (file_path : Path) : string :=
  let filename := path_name file_path in
  let suffix := Py.lower (path_suffix file_path) in
  match SPECIAL_FILES !! filename with
  | Some tag => tag
  | None =>
      match by_extension EXTENSION_TABLES suffix with
      | Some tag => tag
      | None =>
          match by_mime (guess_type h (path_str file_path)) with
          | Some tag => tag
          | None =>
              if Py.nonempty suffix
              then "unknown" +:+ suffix
              else "unknown"
          end
      end
  end.

End FileTypeDetector.

(** ** Exceptions

    [archive_codebase] raises for a missing root and for a root that is not a
    directory.  [OSErrorRaised] is an [OSError], or one of its subclasses
    such as [PermissionError], that no handler of the archiver catches, with
    the text [str(e)].  [ReNotModelled] is not an exception of Python: it
    marks a call of [re.match] on a regular expression outside the fragment
    that module [Re] gives a meaning to. *)

Inductive exn :=
| FileNotFoundError (msg : string)
| NotADirectoryError (msg : string)
| OSErrorRaised (msg : string)
| ReNotModelled (regex : string).

Inductive result (A : Type) :=
| Return (a : A)
| Raise (e : exn).
Arguments Return {A} a.
Arguments Raise {A} e.

Global Instance result_bind : MBind result := fun A B k m =>
  match m with
  | Return a => k a
  | Raise e => Raise e
  end.

(** [for x in xs: acc = body(acc, x)], stopping at the first exception. *)
Fixpoint for_each {A S} (body : S -> A -> result S) (xs : list A) (acc : S)
  : result S :=
  match xs with
  | [] => Return acc
  | x :: xs' => acc' ← body acc x; for_each body xs' acc'
  end.

(** ** Regular expressions

    The part of Python's [re] that [_match_pattern] reaches when the glob has
    no character special to [re] other than the dot: a pattern [^ ... $] whose
    body is a sequence of literal characters, dots and starred ones of these.
    A dot matches any character but the newline; [$] matches at the end and
    before a newline that ends the string. *)

Module Re.

Inductive atom := Lit (c : ascii) | Dot.
Inductive item := One (a : atom) | Star (a : atom).

Definition special (c : ascii) : bool :=
  Py.has_char c ".^$*+?{}[]\|()".

Definition parse_atom (c : ascii) : option atom :=
  if Ascii.eqb c "." then Some Dot
  else if special c then None
  else Some (Lit c).

(** The body of the pattern up to the closing [$]. *)
Fixpoint parse_body (s : string) : option (list item) :=
  match s with
  | EmptyString => None
  | String c s' =>
      if Ascii.eqb c "$" then
        match s' with EmptyString => Some [] | _ => None end
      else
        match parse_atom c with
        | None => None
        | Some a =>
            match s' with
            | String d s'' =>
                if Ascii.eqb d "*" then
                  match parse_body s'' with
                  | Some r => Some (Star a :: r)
                  | None => None
                  end
                else
                  match parse_body s' with
                  | Some r => Some (One a :: r)
                  | None => None
                  end
            | EmptyString => None
            end
        end
  end.

Definition compile (regex : string) : option (list item) :=
  match regex with
  | String c body => if Ascii.eqb c "^" then parse_body body else None
  | EmptyString => None
  end.

Definition accepts (a : atom) (c : ascii) : bool :=
  match a with
  | Lit d => Ascii.eqb d c
  | Dot => negb (Ascii.eqb c "010")
  end.

(** Where [$] matches. *)
Definition at_end (s : string) : bool :=
  match s with
  | EmptyString => true
  | String c EmptyString => Ascii.eqb c "010"
  | _ => false
  end.

(** Some way of matching the items consumes [s] up to where [$] matches. *)
Fixpoint run (r : list item) (s : string) {struct r} : bool :=
  match r with
  | [] => at_end s
  | One a :: r' =>
      match s with
      | String c s' => accepts a c && run r' s'
      | EmptyString => false
      end
  | Star a :: r' =>
      (fix star (s : string) : bool :=
         run r' s ||
         match s with
         | String c s' => accepts a c && star s'
         | EmptyString => false
         end) s
  end.

(** [re.match(regex, s) is not None]. *)
Definition match_ (regex s : string) : result bool :=
  match compile regex with
  | Some r => Return (run r s)
  | None => Raise (ReNotModelled regex)
  end.

End Re.

(** ** The archiver *)

Record CodebaseArchiver := {
  ignore_patterns : list string;
  max_file_size : Z;
  include_binary : bool
}.

Definition DEFAULT_IGNORE_PATTERNS : list string :=
  [ "*.pyc"; "__pycache__"; ".git"; ".svn"; ".hg";
    "node_modules"; ".DS_Store"; "*.log"; "*.tmp";
    ".venv"; "venv"; ".env"; ".idea"; ".vscode" ].

Definition DEFAULT_MAX_FILE_SIZE : Z := 10 * 1024 * 1024.

(** [__init__]: [None] is the omitted argument; [x or default] takes the
    default for every falsy [x]. *)
Definition __init__ (patterns : option (list string)) (max_size : Z)
    (binary : bool) : CodebaseArchiver :=
  {| ignore_patterns :=
       match patterns with
       | None | Some [] => DEFAULT_IGNORE_PATTERNS
       | Some (p :: ps) => p :: ps
       end;
     max_file_size := max_size;
     include_binary := binary |}.

(** [_match_pattern]. *)
Definition _match_pattern (name pattern : string) : result bool :=
  if Py.has_char "*" pattern then
    let regex_pattern := Py.replace "?" "." (Py.replace "*" ".*" pattern) in
    Re.match_ ("^" +:+ regex_pattern +:+ "$") name
  else Return (String.eqb name pattern).

(** The loop of [_should_ignore]. *)
Fixpoint should_ignore_loop (patterns : list string) (path_s name : string)
  : result bool :=
  match patterns with
  | [] => Return false
  | pattern :: rest =>
      if Py.contains pattern path_s then Return true
      else
        hit ← _match_pattern name pattern;
        if hit : bool then Return true
        else should_ignore_loop rest path_s name
  end.

Definition _should_ignore (self : CodebaseArchiver) (path : Path) : result bool :=
  should_ignore_loop (ignore_patterns self) (path_str path) (path_name path).

(** [_count_lines]. *)
Definition _count_lines (content : list Z) : Z :=
  if Py.truthy content then Z.of_N (Py.count_splitlines false content) else 0.

(** [_clean_xml_content]. *)
Definition xml_legal (code : Z) : bool :=
  (code =? 0x09) || (code =? 0x0A) || (code =? 0x0D)
  || ((0x20 <=? code) && (code <=? 0xD7FF))
  || ((0xE000 <=? code) && (code <=? 0xFFFD))
  || ((0x10000 <=? code) && (code <=? 0x10FFFF)).

Definition REPLACEMENT_CHARACTER : Z := 0xFFFD.

Definition _clean_xml_content (content : list Z) : list Z :=
  if negb (Py.truthy content) then content
  else map (fun code => if xml_legal code then code else REPLACEMENT_CHARACTER)
           content.

(** ** The file system

    [stat_result] keeps what [_get_file_stats] reads out of [path.stat()]:
    the size, the mode, and the two time stamps, the latter already in the
    form [datetime.fromtimestamp(t).isoformat()] gives them. *)

Record stat_result := {
  st_size : Z;
  st_mode : N;
  st_mtime_iso : string;
  st_ctime_iso : string
}.

(** The outcome of a call into the operating system: its value, or the
    [OSError] it raises, kept as the text [str(e)]. *)
Inductive os_result (A : Type) :=
| Ok (a : A)
| OSError (msg : string).
Arguments Ok {A} a.
Arguments OSError {A} msg.

(** The calls the archiver makes on a regular file: [path.stat()], the probe
    of [_is_text_file] ([open] and [read(1024)] with the lenient decoder), and
    the full [open] and [read()] of the files pass, whose value is the decoded
    text. *)
Record FileData := {
  f_stat : os_result stat_result;
  f_probe : os_result unit;
  f_read : os_result (list Z)
}.

(** An entry of the tree under its name.  [File]: [is_file()] returns
    [True].  [Dir]: [is_dir()] returns [True] and the entries are listed in
    the order [scandir] and [iterdir] give them.  [LockedDir]: [is_dir()]
    returns [True] and listing raises [PermissionError].  [Special]: both
    return [False] (a socket, a dangling link) and listing raises.  The
    constructor of an entry is what the two tests have returned on it.  What
    a later [path.stat()] on a regular file gives is a datum of its own
    ([f_stat]), so that a file can be seen as a file and still fail to be
    stat-ed, as when it is removed between the two calls, which is the case
    the handlers of the source are written for.  A run in which [is_file()]
    or [is_dir()] itself raises, as it does on a tree that does not change
    when [stat] fails on a file, is the subject of [static_extract_metadata]
    below.  Links are not part of the tree.  In a file system the entries of
    one directory have distinct names. *)
Inductive Node :=
| File (name : string) (data : FileData)
| Dir (name : string) (entries : list Node)
| LockedDir (name : string)
| Special (name : string).

Definition node_name (n : Node) : string :=
  match n with
  | File name _ | Dir name _ | LockedDir name | Special name => name
  end.

Definition is_file (n : Node) : bool :=
  match n with File _ _ => true | _ => false end.

Definition is_dir (n : Node) : bool :=
  match n with Dir _ _ | LockedDir _ => true | _ => false end.

(** [path.rglob('*')] on the directory [n] at [path]: the entries of [n],
    then the same for each sub-directory in turn (CPython 3.8 to 3.12: the
    recursive selector visits the directories in pre-order and the wildcard
    selector yields the entries of each; with distinct names in a directory
    no path comes twice).  A directory that cannot be listed yields nothing.
    The name recorded in the root node plays no role: the root is known by
    [path]. *)
Fixpoint rglob (path : Path) (n : Node) : list (Path * Node) :=
  match n with
  | Dir _ entries =>
      map (fun c => (path_child path (node_name c), c)) entries
      ++ flat_map (fun c => rglob (path_child path (node_name c)) c) entries
  | _ => []
  end.

(** ** Elements

    An [xml.etree.ElementTree.Element]: tag, attributes in insertion order,
    text, children. *)

Inductive Element :=
| Elem (tag : string) (attrib : list (string * string))
       (text : option (list Z)) (children : list Element).

Definition elem_tag (e : Element) : string :=
  match e with Elem tag _ _ _ => tag end.
Definition elem_attrib (e : Element) : list (string * string) :=
  match e with Elem _ attrib _ _ => attrib end.
Definition elem_text (e : Element) : option (list Z) :=
  match e with Elem _ _ text _ => text end.
Definition elem_children (e : Element) : list Element :=
  match e with Elem _ _ _ children => children end.

(** [elem.get(key)]. *)
Fixpoint get_attr (key : string) (attrib : list (string * string))
  : option string :=
  match attrib with
  | [] => None
  | (k, v) :: rest => if String.eqb k key then Some v else get_attr key rest
  end.

(** [elem.set(key, value)] on the attribute dictionary. *)
Fixpoint set_attr (key value : string) (attrib : list (string * string))
  : list (string * string) :=
  match attrib with
  | [] => [(key, value)]
  | (k, v) :: rest =>
      if String.eqb k key then (k, value) :: rest
      else (k, v) :: set_attr key value rest
  end.

Definition set_ (key value : string) (e : Element) : Element :=
  match e with
  | Elem tag attrib text children =>
      Elem tag (set_attr key value attrib) text children
  end.

(** [ET.SubElement(parent, ...)] and [parent.append(child)]. *)
Definition append (child : Element) (parent : Element) : Element :=
  match parent with
  | Elem tag attrib text children => Elem tag attrib text (children ++ [child])
  end.

(** An element with only a tag and a text. *)
Definition text_elem (tag : string) (s : string) : Element :=
  Elem tag [] (Some (Py.codepoints s)) [].

(** The children of [e] with the given tag. *)
Definition findall (tag : string) (e : Element) : list Element :=
  List.filter (fun c => String.eqb (elem_tag c) tag) (elem_children e).

(** ** Sorting

    [sorted(xs, key=key)]: the stable sort by [key], written as the
    insertion of each element, from the last to the first, before the first
    element with a strictly greater key. *)

Section Sorted.
Context {A K : Type} (key : A -> K) (lt : K -> K -> bool).

Fixpoint insert_sorted (x : A) (ys : list A) : list A :=
  match ys with
  | [] => [x]
  | y :: ys' =>
      if lt (key y) (key x) then y :: insert_sorted x ys'
      else x :: ys
  end.

Definition sorted (xs : list A) : list A :=
  foldr insert_sorted [] xs.
End Sorted.

(** [<] on the tuples [(bool, str)]. *)
Definition key_lt (a b : bool * string) : bool :=
  match a.1, b.1 with
  | false, true => true
  | true, false => false
  | _, _ => String.ltb a.2 b.2
  end.

(** [sorted] on strings and on the items of a dictionary with string keys. *)
Definition sorted_strings (xs : list string) : list string :=
  sorted id String.ltb xs.

Definition sorted_items {V} (xs : list (string * V)) : list (string * V) :=
  sorted fst String.ltb xs.

(** ** The archiver's passes *)

Definition BINARY_TYPES : list string :=
  [ "image"; "audio"; "video"; "binary"; "excel"; "sqlite"; "database" ].

(** [_is_text_file] on a regular file. *)
Definition _is_text_file (self : CodebaseArchiver) (h : Host)
    (file_path : Path) (f : FileData) : bool :=
  if negb (include_binary self)
     && (let file_type := FileTypeDetector.detect_type h file_path in
         existsb (fun bt => Py.contains bt file_type) BINARY_TYPES)
  then false
  else
    match f_probe f with
    | Ok _ => true
    | OSError _ => false
    end.

(** [_get_file_stats]: the dictionary as its items in insertion order. *)
Definition _get_file_stats (f : FileData) : list (string * string) :=
  match f_stat f with
  | Ok st =>
      [ ("size", Py.str (st_size st));
        ("modified", st_mtime_iso st);
        ("created", st_ctime_iso st);
        ("permissions", Py.last3 (Py.oct (st_mode st))) ]
  | OSError _ => []
  end.

(** The dictionary [_extract_metadata] returns. *)
Record Metadata := {
  md_name : string;
  md_path : string;
  md_timestamp : string;
  total_files : Z;
  total_directories : Z;
  total_size : Z;
  file_types : gmap string Z;
  languages : gset string
}.

(** [tag in PROGRAMMING_EXTENSIONS.values()]. *)
Definition is_language (tag : string) : bool :=
  bool_decide (tag ∈ (map_to_list FileTypeDetector.PROGRAMMING_EXTENSIONS).*2).

(** One turn of the loop of [_extract_metadata] on an entry on which
    [is_file()] and [is_dir()] have returned what its constructor says. *)
Definition extract_step (self : CodebaseArchiver) (h : Host)
    (md : Metadata) (item : Path * Node) : result Metadata :=
  ignored ← _should_ignore self item.1;
  if ignored : bool then Return md
  else
    match item.2 with
    | File _ f =>
        let md1 :=
          {| md_name := md_name md; md_path := md_path md;
             md_timestamp := md_timestamp md;
             total_files := total_files md + 1;
             total_directories := total_directories md;
             total_size := total_size md;
             file_types := file_types md; languages := languages md |} in
        match f_stat f with
        | Ok st =>
            let file_type := FileTypeDetector.detect_type h item.1 in
            Return
              {| md_name := md_name md1; md_path := md_path md1;
                 md_timestamp := md_timestamp md1;
                 total_files := total_files md1;
                 total_directories := total_directories md1;
                 total_size := total_size md1 + st_size st;
                 file_types :=
                   <[ file_type := default 0 (file_types md1 !! file_type) + 1 ]>
                     (file_types md1);
                 languages :=
                   if is_language file_type
                   then languages md1 ∪ {[ file_type ]}
                   else languages md1 |}
        | OSError _ => Return md1
        end
    | Dir _ _ | LockedDir _ =>
        Return
          {| md_name := md_name md; md_path := md_path md;
             md_timestamp := md_timestamp md;
             total_files := total_files md;
             total_directories := total_directories md + 1;
             total_size := total_size md;
             file_types := file_types md; languages := languages md |}
    | Special _ => Return md
    end.

(** [_extract_metadata] on the directory [root] found at [codebase_path]. *)
Definition _extract_metadata (self : CodebaseArchiver) (h : Host)
    (codebase_path : Path) (root : Node) : result Metadata :=
  for_each (extract_step self h) (rglob codebase_path root)
    {| md_name := path_name codebase_path;
       md_path := absolute h codebase_path;
       md_timestamp := now_isoformat h;
       total_files := 0; total_directories := 0; total_size := 0;
       file_types := ∅; languages := ∅ |}.

(** The key of [sorted] in [_build_structure_tree]. *)
Definition sort_key (n : Node) : bool * string :=
  (is_file n, Py.lower (node_name n)).

(** The loop over the sorted children: each child comes with the value of the
    recursive call on it, which the loop takes only for a child that is not
    ignored. *)
Definition add_child (self : CodebaseArchiver) (current_path : Path)
    (dir_elem : Element) (child : Node * result Element) : result Element :=
  ignored ← _should_ignore self (path_child current_path (node_name child.1));
  if ignored : bool then Return dir_elem
  else child_elem ← child.2; Return (append child_elem dir_elem).

(** [_build_structure_tree] on the entry [n] found at [current_path]. *)
Fixpoint _build_structure_tree (self : CodebaseArchiver) (h : Host)
    (root_path current_path : Path) (n : Node) : result Element :=
  if is_file n then
    Return (Elem "file"
              [ ("name", path_name current_path);
                ("type", FileTypeDetector.detect_type h current_path) ]
              None [])
  else
    let dir_elem :=
      Elem "directory"
        [ ("name", if decide (current_path <> root_path)
                   then path_name current_path else "/");
          ("path", path_str current_path) ]
        None [] in
    match n with
    | Dir _ entries =>
        let calls :=
          map (fun c =>
                 (c, _build_structure_tree self h root_path
                       (path_child current_path (node_name c)) c))
              entries in
        let children := sorted (fun c => sort_key c.1) key_lt calls in
        for_each (add_child self current_path) children dir_elem
    | _ => Return dir_elem
    end.

(** The elements one file adds to the files section.  When [stat] fails in
    the size test, the element made before the test stays where
    [SubElement] put it and the handler adds its own. *)
Definition file_elements (self : CodebaseArchiver) (h : Host)
    (file_path : Path) (f : FileData) : list Element :=
  let file_elem :=
    Elem "file"
      ([ ("name", path_name file_path);
         ("path", path_str file_path);
         ("type", FileTypeDetector.detect_type h file_path) ]
       ++ _get_file_stats f)
      None [] in
  match f_stat f with
  | Ok st =>
      if (st_size st <=? max_file_size self) && _is_text_file self h file_path f
      then
        match f_read f with
        | Ok content =>
            if Py.truthy (Py.strip content) then
              [ append (Elem "content" [] (Some (_clean_xml_content content)) [])
                  (set_ "lines" (Py.str (_count_lines content)) file_elem) ]
            else [ file_elem ]
        | OSError _ =>
            [ append (text_elem "note" "Content could not be read") file_elem ]
        end
      else
        [ append
            (text_elem "note"
               (if max_file_size self <? st_size st
                then "File too large (" +:+ Py.str (st_size st) +:+ " bytes)"
                else "Binary file - content skipped"))
            file_elem ]
  | OSError msg =>
      [ file_elem;
        Elem "file"
          [ ("name", path_name file_path);
            ("path", path_str file_path);
            ("type", "inaccessible") ]
          None
          [ text_elem "note" ("Access denied: " +:+ msg) ] ]
  end.

(** One turn of the loop that fills the files section. *)
Definition files_step (self : CodebaseArchiver) (h : Host)
    (files_elem : Element) (item : Path * Node) : result Element :=
  match item.2 with
  | File _ f =>
      ignored ← _should_ignore self item.1;
      if ignored : bool then Return files_elem
      else Return (foldl (fun parent e => append e parent) files_elem
                     (file_elements self h item.1 f))
  | _ => Return files_elem
  end.

(** The metadata block. *)
Definition metadata_element (md : Metadata) : Element :=
  let stats_elem :=
    Elem "statistics"
      [ ("total_files", Py.str (total_files md));
        ("total_directories", Py.str (total_directories md));
        ("total_size", Py.str (total_size md)) ]
      None [] in
  let types :=
    if decide (file_types md = ∅) then []
    else [ Elem "file_types" [] None
             (map (fun item : string * Z =>
                     Elem "type" [ ("name", item.1); ("count", Py.str item.2) ]
                       None [])
                (sorted_items (map_to_list (file_types md)))) ] in
  let langs :=
    if decide (languages md = ∅) then []
    else [ Elem "languages" [] None
             (map (text_elem "language")
                (sorted_strings (elements (languages md)))) ] in
  Elem "metadata" [] None
    ([ text_elem "description" ("Archived codebase: " +:+ md_name md);
       text_elem "source_path" (md_path md);
       stats_elem ] ++ types ++ langs).

(** [archive_codebase], up to the element tree (lines 285 to 387 of the
    source): the serialisation of the tree, the file written and the path
    returned are not part of the embedding.  [root] is what the file system
    has at [codebase_path]: nothing, or an entry. *)
Definition archive_codebase (self : CodebaseArchiver) (h : Host)
    (codebase_path : Path) (root : option Node) : result Element :=
  match root with
  | None =>
      Raise (FileNotFoundError
               ("Codebase path does not exist: " +:+ path_str codebase_path))
  | Some n =>
      if negb (is_dir n) then
        Raise (NotADirectoryError
                 ("Path is not a directory: " +:+ path_str codebase_path))
      else
        metadata ← _extract_metadata self h codebase_path n;
        structure_tree ← _build_structure_tree self h codebase_path
                           codebase_path n;
        files_elem ← for_each (files_step self h) (rglob codebase_path n)
                       (Elem "files" [] None []);
        Return
          (Elem "codebase"
             [ ("name", md_name metadata);
               ("version", "1.0");
               ("timestamp", md_timestamp metadata) ]
             None
             [ metadata_element metadata;
               Elem "structure" [] None [ structure_tree ];
               files_elem ])
  end.

(** ** Notions of the specification *)

(** The glob of the specification, in its words: anchored at both ends of
    the name, [*] matches any run of characters, [?] matches any single
    character, every other character matches itself. *)
Module Glob.

Fixpoint matches (pattern name : string) {struct pattern} : bool :=
  match pattern with
  | EmptyString =>
      match name with EmptyString => true | _ => false end
  | String c pattern' =>
      if Ascii.eqb c "*" then
        (fix run (s : string) : bool :=
           matches pattern' s ||
           match s with
           | String _ s' => run s'
           | EmptyString => false
           end) name
      else
        match name with
        | String d name' =>
            (Ascii.eqb c "?" || Ascii.eqb c d) && matches pattern' name'
        | EmptyString => false
        end
  end.

(** A glob whose characters other than [*] and [?] mean themselves to
    [re] as well. *)
Fixpoint plain (pattern : string) : bool :=
  match pattern with
  | EmptyString => true
  | String c pattern' =>
      (Ascii.eqb c "*" || Ascii.eqb c "?" || negb (Re.special c))
      && plain pattern'
  end.

End Glob.

(** The code points the output format admits. *)
Definition legal_code_point (c : Z) : Prop :=
  c = 0x09 \/ c = 0x0A \/ c = 0x0D
  \/ 0x20 <= c <= 0xD7FF
  \/ 0xE000 <= c <= 0xFFFD
  \/ 0x10000 <= c <= 0x10FFFF.

Global Instance legal_code_point_dec c : Decision (legal_code_point c).
Proof. unfold legal_code_point. apply _. Defined.

(** A pattern on which [_match_pattern] stays inside the regular expressions
    of module [Re]. *)
Definition pattern_modelled (pattern : string) : bool :=
  if Py.has_char "*" pattern then
    match Re.compile ("^" +:+ Py.replace "?" "." (Py.replace "*" ".*" pattern)
                      +:+ "$") with
    | Some _ => true
    | None => false
    end
  else true.

Definition modelled (self : CodebaseArchiver) : Prop :=
  Forall (fun pattern => pattern_modelled pattern = true) (ignore_patterns self).

(** The verdict of [_should_ignore] as a boolean: a path is not ignored when
    the filter returns [False] on it. *)
Definition not_ignored (self : CodebaseArchiver) (path : Path) : bool :=
  match _should_ignore self path with
  | Return false => true
  | _ => false
  end.

(** The entries below the directory [n] at [path] that are not ignored and
    satisfy [sel], counted along the tree. *)
Fixpoint count_below (sel : Node -> bool) (self : CodebaseArchiver)
    (path : Path) (n : Node) : Z :=
  match n with
  | Dir _ entries =>
      foldr (fun c acc =>
               let child := path_child path (node_name c) in
               (if not_ignored self child && sel c then 1 else 0)
               + count_below sel self child c + acc)
            0 entries
  | _ => 0
  end.

(** The size [stat] reports for a regular file, nothing when it fails or the
    entry is not a regular file. *)
Definition stat_size (n : Node) : Z :=
  match n with
  | File _ f => match f_stat f with Ok st => st_size st | OSError _ => 0 end
  | _ => 0
  end.

Fixpoint size_below (self : CodebaseArchiver) (path : Path) (n : Node) : Z :=
  match n with
  | Dir _ entries =>
      foldr (fun c acc =>
               let child := path_child path (node_name c) in
               (if not_ignored self child then stat_size c else 0)
               + size_below self child c + acc)
            0 entries
  | _ => 0
  end.

(** The children of the sections of a document. *)
Definition section (tag : string) (doc : Element) : list Element :=
  flat_map elem_children (findall tag doc).

(** The attributes of the [statistics] element of a document. *)
Definition statistics (doc : Element) : list (string * string) :=
  flat_map elem_attrib
    (flat_map (findall "statistics") (findall "metadata" doc)).

(** The sort key read off an element of the structure tree. *)
Definition elem_key (e : Element) : bool * string :=
  (String.eqb (elem_tag e) "file",
   Py.lower (default "" (get_attr "name" (elem_attrib e)))).

(** The order of a comparison [lt]: [a] is not after [b]. *)
Definition not_after {K : Type} (lt : K -> K -> bool) (a b : K) : Prop :=
  lt b a = false.

(** [<=] on the keys. *)
Definition key_le : bool * string -> bool * string -> Prop := not_after key_lt.

(** Every node of the tree has its children in ascending order of key. *)
Inductive Ordered : Element -> Prop :=
| Ordered_intro tag attrib text children :
    StronglySorted key_le (map elem_key children) ->
    Forall Ordered children ->
    Ordered (Elem tag attrib text children).

(** The call on a child gave an ordered element with the key of the child. *)
Definition good_call (c : Node * result Element) : Prop :=
  exists t, c.2 = Return t /\ Ordered t /\ elem_key t = sort_key c.1.

(** A name the classifier finds in none of its tables and the host has no
    MIME type for. *)
Definition unrecognised (h : Host) (file_path : Path) : Prop :=
  FileTypeDetector.SPECIAL_FILES !! path_name file_path = None
  /\ FileTypeDetector.by_extension FileTypeDetector.EXTENSION_TABLES
       (Py.lower (path_suffix file_path)) = None
  /\ guess_type h (path_str file_path) = None.

(** A host that knows no MIME type, a clock reading and a working
    directory, for the examples. *)
Definition bare_host : Host :=
  {| guess_type := fun _ => None;
     now_isoformat := "2024-05-01T12:00:00";
     absolute := path_str |}.

(** A regular file whose calls all succeed. *)
Definition readable (st : stat_result) (content : string) : FileData :=
  {| f_stat := Ok st; f_probe := Ok tt; f_read := Ok (Py.codepoints content) |}.

Definition plain_stat (size : Z) : stat_result :=
  {| st_size := size; st_mode := 33188%N;
     st_mtime_iso := "2024-04-30T09:00:00";
     st_ctime_iso := "2024-04-30T09:00:00" |}.

(** [p] occurs in [s]: some run of consecutive characters of [s] is [p]. *)
Definition occurs_in (p s : string) : Prop :=
  exists a b, s = a +:+ p +:+ b.

(** The outcome of the 1KB probe as [_is_text_file] returns it. *)
Definition probe_succeeds (f : FileData) : bool :=
  match f_probe f with
  | Ok _ => true
  | OSError _ => false
  end.

(** The items [re] reads in the translation of a plain glob. *)
Fixpoint glob_items (pattern : string) : list Re.item :=
  match pattern with
  | EmptyString => []
  | String c pattern' =>
      (if Ascii.eqb c "*" then Re.Star Re.Dot
       else if Ascii.eqb c "?" then Re.One Re.Dot
       else Re.One (Re.Lit c)) :: glob_items pattern'
  end.

(** The translation of [_match_pattern]. *)
Definition regex_of_glob (pattern : string) : string :=
  Py.replace "?" "." (Py.replace "*" ".*" pattern).

(** The archiver at hand with other ignore patterns. *)
Definition with_patterns (self : CodebaseArchiver) (patterns : list string)
  : CodebaseArchiver :=
  {| ignore_patterns := patterns;
     max_file_size := max_file_size self;
     include_binary := include_binary self |}.

(** The same counts along the list of a walk. *)
Definition tally (sel : Node -> bool) (self : CodebaseArchiver)
    (items : list (Path * Node)) : Z :=
  foldr (fun item acc =>
           (if not_ignored self item.1 && sel item.2 then 1 else 0) + acc)
        0 items.

Definition sizes (self : CodebaseArchiver) (items : list (Path * Node)) : Z :=
  foldr (fun item acc =>
           (if not_ignored self item.1 then stat_size item.2 else 0) + acc)
        0 items.

(** The archiver with the default configuration. *)
Definition default_archiver : CodebaseArchiver :=
  __init__ None DEFAULT_MAX_FILE_SIZE false.

(** A tree for the examples: [b.txt] cannot be stat-ed, [.git] is ignored
    by the default patterns. *)
Definition sample_tree : Node :=
  Dir "proj"
    [ File "a.py" (readable (plain_stat 5) "x = 1");
      File "b.txt"
        {| f_stat := OSError "[Errno 5] Input/output error";
           f_probe := Ok tt; f_read := Ok (Py.codepoints "hello") |};
      Dir ".git" [ File "config" (readable (plain_stat 3) "abc") ];
      Dir "src" [ File "x.c" (readable (plain_stat 7) "int x;") ] ].

(** [current] is [root] or a path below it. *)
Definition descends (root current : Path) : Prop :=
  exists ext, current = PosixPath (path_anchor root) (path_parts root ++ ext).

(** The elements the files pass emits for one item of the walk. *)
Definition emitted (self : CodebaseArchiver) (h : Host) (item : Path * Node)
  : list Element :=
  match item.2 with
  | File _ f =>
      if not_ignored self item.1 then file_elements self h item.1 f else []
  | _ => []
  end.

(** The element the handler of the files pass adds for a file on which
    [stat] raised [msg]. *)
Definition inaccessible_element (file_path : Path) (msg : string) : Element :=
  Elem "file"
    [ ("name", path_name file_path);
      ("path", path_str file_path);
      ("type", "inaccessible") ]
    None
    [ text_elem "note" ("Access denied: " +:+ msg) ].

(** The regular element of a file, before content or note. *)
Definition plain_file_element (h : Host) (file_path : Path) (f : FileData)
  : Element :=
  Elem "file"
    ([ ("name", path_name file_path);
       ("path", path_str file_path);
       ("type", FileTypeDetector.detect_type h file_path) ]
     ++ _get_file_stats f)
    None [].

(** A file that can be stat-ed and probed and fails when read. *)
Definition unreadable (st : stat_result) (msg : string) : FileData :=
  {| f_stat := Ok st; f_probe := Ok tt; f_read := OSError msg |}.

(** A directory with one file of blanks, and one with a file that cannot
    be read. *)
Definition blank_tree : Node :=
  Dir "proj" [ File "blank.txt" (readable (plain_stat 3) "   ") ].

Definition unreadable_tree : Node :=
  Dir "proj"
    [ File "notes.txt"
        (unreadable (plain_stat 4) "[Errno 5] Input/output error") ].

(** The element of the files section for a file whose content is
    included. *)
Definition content_file_element (file_path : Path) (tag : string)
    (st : stat_result) (content : list Z) : Element :=
  Elem "file"
    [ ("name", path_name file_path);
      ("path", path_str file_path);
      ("type", tag);
      ("size", Py.str (st_size st));
      ("modified", st_mtime_iso st);
      ("created", st_ctime_iso st);
      ("permissions", Py.last3 (Py.oct (st_mode st)));
      ("lines", Py.str (_count_lines content)) ]
    None
    [ Elem "content" [] (Some (_clean_xml_content content)) [] ].

(** The two files of the round-trip scenario. *)
Definition main_py (st : stat_result) : Node :=
  File "main.py" (readable st "print(1)").

Definition readme_md (st : stat_result) : Node :=
  File "README.md" (readable st "hi").

(** The histogram of the specification: an item adds to the bucket of [tag]
    when it is a regular file on which [stat] succeeds and whose
    classification is [tag]. *)
Definition has_type (h : Host) (tag : string) (item : Path * Node) : bool :=
  match item.2 with
  | File _ f =>
      match f_stat f with
      | Ok _ => String.eqb (FileTypeDetector.detect_type h item.1) tag
      | OSError _ => false
      end
  | _ => false
  end.

Fixpoint typed_below (h : Host) (tag : string) (self : CodebaseArchiver)
    (path : Path) (n : Node) : Z :=
  match n with
  | Dir _ entries =>
      foldr (fun c acc =>
               let child := path_child path (node_name c) in
               (if not_ignored self child && has_type h tag (child, c)
                then 1 else 0)
               + typed_below h tag self child c + acc)
            0 entries
  | _ => 0
  end.

Definition typed (h : Host) (tag : string) (self : CodebaseArchiver)
    (items : list (Path * Node)) : Z :=
  foldr (fun item acc =>
           (if not_ignored self item.1 && has_type h tag item then 1 else 0)
           + acc)
        0 items.

(** A directory that the pattern [*.log] ignores by its name, with a file
    whose own path no pattern matches. *)
Definition log_dir_tree : Node :=
  Dir "proj" [ Dir "old.log" [ File "a.txt" (readable (plain_stat 2) "ok") ] ].

(** ** The command line

    [cli.py]: the parsing of the [--ignore] argument and the archiver [main]
    builds from the arguments.  [format_size] works on floating-point numbers
    and the rest of [main] is argument parsing and printing; they are outside
    the embedding. *)

Module Cli.

(** The string with the given code points, each below 256. *)
Definition of_codepoints (t : list Z) : string :=
  string_of_list_ascii (map (fun c => ascii_of_N (Z.to_N c)) t).

(** [s.strip()] on a string. *)
Definition strip (s : string) : string :=
  of_codepoints (Py.strip (Py.codepoints s)).

(** [s.split(sep)] for a separator of one character: the pieces between the
    separators, one more than there are separators. *)
Fixpoint split (sep : ascii) (s : string) : list string :=
  match s with
  | EmptyString => [ EmptyString ]
  | String c s' =>
      if Ascii.eqb c sep then EmptyString :: split sep s'
      else
        match split sep s' with
        | piece :: pieces => String c piece :: pieces
        | [] => [ String c EmptyString ]
        end
  end.

(** [parse_ignore_patterns]. *)
Definition parse_ignore_patterns (patterns_str : string) : list string :=
  if negb (Py.nonempty patterns_str) then []
  else
    map strip
      (List.filter (fun pattern => Py.nonempty (strip pattern))
         (split "," patterns_str)).

(** The archiver [main] creates from the values of [--ignore], [--max-size]
    and [--include-binary]. *)
Definition main_archiver (ignore : string) (max_size : Z)
    (include_binary : bool) : CodebaseArchiver :=
  __init__ (Some (parse_ignore_patterns ignore)) max_size include_binary.

(** A pattern as [parse_ignore_patterns] gives them: not empty, without a
    comma, without white space at its ends. *)
Definition clean (pattern : string) : Prop :=
  pattern <> "" /\ Py.has_char "," pattern = false /\ strip pattern = pattern.

End Cli.

(** The tags the classifier takes from its tables and from the MIME
    categories. *)
Definition table_tags (t : FileTypeDetector.table) : list string :=
  (map_to_list t).*2.

Definition TABLE_AND_MIME_TAGS : list string :=
  table_tags FileTypeDetector.SPECIAL_FILES
  ++ flat_map table_tags FileTypeDetector.EXTENSION_TABLES
  ++ [ "text"; "image"; "audio"; "video"; "binary" ].

(** [stat] fails on the entry, a regular file. *)
Definition stat_fails (n : Node) : bool :=
  match n with
  | File _ f => match f_stat f with Ok _ => false | OSError _ => true end
  | _ => false
  end.

(** The character of an octal digit. *)
Definition octal_digit (d : N) : ascii := ascii_of_N (48 + d).

(** What the extractor keeps true of its dictionary: the languages are the
    language tags among the keys of the histogram, and no bucket is empty. *)
Definition histogram_invariant (md : Metadata) : Prop :=
  (forall tag,
     tag ∈ languages md
     <-> is_language tag = true /\ is_Some (file_types md !! tag))
  /\ (forall tag count, file_types md !! tag = Some count -> 1 <= count).



(** Trees for the examples of the files section: a file above a size limit
    of ten bytes, a file on which the 1KB probe fails, and a picture. *)
Definition small_archiver : CodebaseArchiver :=
  __init__ None 10 false.

Definition big_tree : Node :=
  Dir "proj" [ File "big.txt" (readable (plain_stat 11) "0123456789A") ].

Definition probe_tree : Node :=
  Dir "proj"
    [ File "odd.txt"
        {| f_stat := Ok (plain_stat 4);
           f_probe := OSError "[Errno 5] Input/output error";
           f_read := OSError "[Errno 5] Input/output error" |} ].

Definition binary_archiver : CodebaseArchiver :=
  __init__ None DEFAULT_MAX_FILE_SIZE true.

Definition picture_tree : Node :=
  Dir "proj" [ File "logo.png" (readable (plain_stat 3) "PNG") ].

(** The sum of the counts of a histogram of file types. *)
Definition histogram_total (file_types : gmap string Z) : Z :=
  map_fold (fun _ count acc => count + acc) 0 file_types.

(** The [type] and the [language] elements of a document. *)
Definition metadata_types (doc : Element) : list Element :=
  flat_map (section "file_types") (findall "metadata" doc).

Definition metadata_languages (doc : Element) : list Element :=
  flat_map (section "languages") (findall "metadata" doc).

(** ** A tree that does not change during the run

    A [Node] keeps what the type tests return on an entry apart from what a
    later [stat] of the same path gives.  When nothing changes the tree while
    the archiver runs, every [stat] of one path has one outcome, and the type
    tests are [stat] calls themselves: [Path.is_file()] and [Path.is_dir()]
    return [False] when [stat] raises with ENOENT, ENOTDIR, EBADF or ELOOP
    and let every other [OSError] through.  In [_extract_metadata] both
    tests stand outside the [try]. *)

(** [_ignore_error(e)] of pathlib, read off [str(e)], which starts with the
    number of the error (the numbers of Linux). *)
Definition _IGNORED_ERRNOS : list string :=
  [ "[Errno 2] "; "[Errno 20] "; "[Errno 9] "; "[Errno 40] " ].

Definition _ignore_error (msg : string) : bool :=
  existsb (fun errno => String.prefix errno msg) _IGNORED_ERRNOS.

(** [path.is_file()] and [path.is_dir()] on an entry of such a tree.  A
    [File] is a regular file: a [stat] that succeeds shows it as one. *)
Definition static_is_file (n : Node) : result bool :=
  match n with
  | File _ f =>
      match f_stat f with
      | Ok _ => Return true
      | OSError msg =>
          if _ignore_error msg then Return false
          else Raise (OSErrorRaised msg)
      end
  | _ => Return false
  end.

Definition static_is_dir (n : Node) : result bool :=
  match n with
  | File _ f =>
      match f_stat f with
      | Ok _ => Return false
      | OSError msg =>
          if _ignore_error msg then Return false
          else Raise (OSErrorRaised msg)
      end
  | Dir _ _ | LockedDir _ => Return true
  | Special _ => Return false
  end.

(** One turn of the loop of [_extract_metadata] on such a tree: the filter,
    then the type tests, which raise where pathlib does.  Once a test has
    returned [True] the turn goes on as [extract_step] has it, the [stat]
    inside the [try] giving what the [stat] of the test gave. *)
Definition static_extract_step (self : CodebaseArchiver) (h : Host)
    (md : Metadata) (item : Path * Node) : result Metadata :=
  ignored ← _should_ignore self item.1;
  if ignored : bool then Return md
  else
    item_is_file ← static_is_file item.2;
    if item_is_file : bool then extract_step self h md item
    else
      item_is_dir ← static_is_dir item.2;
      if item_is_dir : bool then extract_step self h md item
      else Return md.

(** [_extract_metadata] on a directory that does not change during the
    run. *)
Definition static_extract_metadata (self : CodebaseArchiver) (h : Host)
    (codebase_path : Path) (root : Node) : result Metadata :=
  for_each (static_extract_step self h) (rglob codebase_path root)
    {| md_name := path_name codebase_path;
       md_path := absolute h codebase_path;
       md_timestamp := now_isoformat h;
       total_files := 0; total_directories := 0; total_size := 0;
       file_types := ∅; languages := ∅ |}.

(** A directory that can be listed and not searched (mode [r--]): listing
    it gives its entry, and every [stat] of the entry fails with EACCES. *)
Definition denied : FileData :=
  {| f_stat :=
       OSError "[Errno 13] Permission denied: '/srv/proj/locked/a.txt'";
     f_probe :=
       OSError "[Errno 13] Permission denied: '/srv/proj/locked/a.txt'";
     f_read :=
       OSError "[Errno 13] Permission denied: '/srv/proj/locked/a.txt'" |}.

Definition denied_tree : Node :=
  Dir "proj" [ Dir "locked" [ File "a.txt" denied ] ].


(** * Properties *)

(** ** Strings *)

Section StringFacts.

Lemma append_cons (c : ascii) (s t : string) :
  String c s +:+ t = String c (s +:+ t).
Proof. reflexivity. Qed.

Lemma append_nil_l (s : string) : "" +:+ s = s.
Proof. reflexivity. Qed.

Lemma append_nil_r (s : string) : s +:+ "" = s.
Proof.
  induction s as [|c s IH]; [reflexivity|]. now rewrite append_cons, IH.
Qed.

Lemma append_assoc (a b c : string) : (a +:+ b) +:+ c = a +:+ b +:+ c.
Proof.
  induction a as [|x a IH]; [reflexivity|]. now rewrite !append_cons, IH.
Qed.

Lemma prefix_nil (s : string) : String.prefix "" s = true.
Proof. destruct s; reflexivity. Qed.

Lemma prefix_spec (p s : string) :
  String.prefix p s = true <-> exists r, s = p +:+ r.
Proof.
  revert s. induction p as [|c p IH]; intros s.
  - rewrite prefix_nil. split; [intros _; now exists s | reflexivity].
  - destruct s as [|d s]; simpl.
    + split; [discriminate | intros [r Hr]; discriminate].
    + destruct (ascii_dec c d) as [->|Hne].
      * rewrite IH. split; intros [r Hr]; exists r;
          rewrite ?append_cons in *; congruence.
      * split; [discriminate |].
        intros [r Hr]. rewrite append_cons in Hr. congruence.
Qed.

Lemma contains_spec (p s : string) :
  Py.contains p s = true <-> exists a b, s = a +:+ p +:+ b.
Proof.
  induction s as [|c s IH]; cbn [Py.contains].
  - rewrite orb_false_r, prefix_spec. split.
    + intros [r Hr]. now exists "", r.
    + intros [a [b Hab]]. destruct a; [now exists b | discriminate].
  - rewrite orb_true_iff, prefix_spec, IH. split.
    + intros [[r Hr] | [a [b Hab]]].
      * now exists "", r.
      * exists (String c a), b. now rewrite append_cons, Hab.
    + intros [a [b Hab]]. destruct a as [|x a].
      * left. now exists b.
      * right. exists a, b. rewrite append_cons in Hab. congruence.
Qed.

Lemma contains_refl (s : string) : Py.contains s s = true.
Proof. apply contains_spec. exists "", "". symmetry. apply (append_nil_r s). Qed.

Lemma has_char_app (c : ascii) (a b : string) :
  Py.has_char c (a +:+ b) = Py.has_char c a || Py.has_char c b.
Proof.
  induction a as [|x a IH]; [reflexivity|].
  rewrite append_cons. simpl. now rewrite IH, orb_assoc.
Qed.

(** A pattern without the separator lies on one side of it. *)
Lemma prefix_across (c : ascii) (p a b : string) :
  Py.has_char c p = false ->
  String.prefix p (a +:+ String c b) = String.prefix p a.
Proof.
  revert a. induction p as [|x p IH]; intros a Hp.
  - now rewrite !prefix_nil.
  - simpl in Hp. apply orb_false_iff in Hp as [Hx Hp].
    destruct a as [|y a].
    + rewrite append_nil_l. simpl.
      destruct (ascii_dec x c) as [->|Hne]; [|reflexivity].
      now rewrite Ascii.eqb_refl in Hx.
    + rewrite append_cons. simpl.
      destruct (ascii_dec x y); [now apply IH | reflexivity].
Qed.

Lemma contains_across (c : ascii) (p a b : string) :
  Py.has_char c p = false ->
  Py.contains p (a +:+ String c b) = Py.contains p a || Py.contains p b.
Proof.
  intros Hp. induction a as [|y a IH].
  - rewrite append_nil_l. simpl. destruct p as [|x p]; [now destruct b|].
    simpl in Hp. apply orb_false_iff in Hp as [Hx _]. simpl.
    destruct (ascii_dec x c) as [->|Hne]; [|reflexivity].
    now rewrite Ascii.eqb_refl in Hx.
  - rewrite append_cons. cbn [Py.contains]. rewrite IH.
    rewrite <- append_cons.
    rewrite (prefix_across c p (String y a) b Hp).
    now rewrite orb_assoc.
Qed.

End StringFacts.

(** ** The sanitizer *)

Lemma xml_legal_spec (c : Z) : xml_legal c = true <-> legal_code_point c.
Proof. unfold xml_legal, legal_code_point. lia. Qed.

Lemma replacement_legal : legal_code_point REPLACEMENT_CHARACTER.
Proof. unfold legal_code_point, REPLACEMENT_CHARACTER. lia. Qed.

Lemma clean_xml_content_map (content : list Z) :
  _clean_xml_content content =
  map (fun c => if decide (legal_code_point c) then c
                else REPLACEMENT_CHARACTER) content.
Proof.
  unfold _clean_xml_content. destruct content as [|c content]; [reflexivity|].
  cbn [Py.truthy negb]. apply map_ext. intros a.
  destruct (decide (legal_code_point a)) as [H|H].
  - apply xml_legal_spec in H. now rewrite H.
  - destruct (xml_legal a) eqn:E; [|reflexivity].
    apply xml_legal_spec in E. contradiction.
Qed.

(** C2. The sanitizer maps the content code point by code point: a code
    point of the legal ranges is kept, any other becomes U+FFFD; the result
    has the length of the input and holds legal code points only. *)
Theorem C2_sanitizer_pointwise (content : list Z) :
  _clean_xml_content content =
    map (fun c => if decide (legal_code_point c) then c else 0xFFFD) content
  /\ length (_clean_xml_content content) = length content
  /\ Forall legal_code_point (_clean_xml_content content).
Proof.
  rewrite clean_xml_content_map. split; [reflexivity|]. split.
  - apply length_map.
  - induction content as [|c content IH]; simpl; constructor; [|exact IH].
    destruct (decide (legal_code_point c)); [assumption|].
    apply replacement_legal.
Qed.

(** ** The constructor *)

(** C10. An empty list of ignore patterns is replaced by the default
    patterns, so that the archiver is the one built without the argument. *)
Theorem C10_empty_patterns_are_default (max_size : Z) (binary : bool) :
  __init__ (Some []) max_size binary = __init__ None max_size binary
  /\ ignore_patterns (__init__ (Some []) max_size binary) = DEFAULT_IGNORE_PATTERNS.
Proof. split; reflexivity. Qed.

(** ** The classifier *)

Section Classifier.
Import FileTypeDetector.

Lemma lookup_table (l : list (string * string)) (k v : string) :
  Forall (fun kv => kv.2 <> "") l ->
  (list_to_map l : table) !! k = Some v -> v <> "".
Proof.
  intros Hall Hk. apply elem_of_list_to_map_2 in Hk.
  rewrite Forall_forall in Hall. exact (Hall _ Hk).
Qed.

Ltac all_values :=
  repeat first [ apply Forall_nil_2 | apply Forall_cons_2; [discriminate|] ].

Lemma special_files_nonempty (k v : string) :
  SPECIAL_FILES !! k = Some v -> v <> "".
Proof. unfold SPECIAL_FILES. apply lookup_table. all_values. Qed.

Lemma by_extension_nonempty (suffix v : string) :
  by_extension EXTENSION_TABLES suffix = Some v -> v <> "".
Proof.
  unfold EXTENSION_TABLES. cbn [by_extension].
  unfold PROGRAMMING_EXTENSIONS, CONFIG_EXTENSIONS, DOCUMENTATION_EXTENSIONS,
    WEB_EXTENSIONS, DATA_EXTENSIONS, MEDIA_EXTENSIONS.
  repeat match goal with
         | |- context [?t !! suffix] =>
             let E := fresh "E" in
             destruct (t !! suffix) eqn:E;
             [ intros [= <-]; revert E; apply lookup_table; all_values | ]
         end.
  discriminate.
Qed.

Lemma by_mime_nonempty (m : option string) (v : string) :
  by_mime m = Some v -> v <> "".
Proof.
  unfold by_mime. destruct m as [m|]; [|discriminate].
  repeat match goal with
         | |- context [if ?b then _ else _] => destruct b
         end; intros [= <-]; discriminate.
Qed.

Lemma nonempty_lower (s : string) : Py.nonempty (Py.lower s) = Py.nonempty s.
Proof. destruct s; reflexivity. Qed.

Lemma detect_type_nonempty (h : Host) (file_path : Path) :
  detect_type h file_path <> "".
Proof.
  unfold detect_type.
  destruct (SPECIAL_FILES !! path_name file_path) eqn:E1;
    [now apply special_files_nonempty in E1|].
  destruct (by_extension _ _) eqn:E2;
    [now apply by_extension_nonempty in E2|].
  destruct (by_mime _) eqn:E3; [now apply by_mime_nonempty in E3|].
  destruct (Py.nonempty _); discriminate.
Qed.

End Classifier.

(** C6. The classifier always returns a non-empty tag, and on a name it
    finds in no table and the host has no MIME type for, the tag is
    [unknown] followed by the extension in lower case when the name has an
    extension, and [unknown] otherwise. *)
Theorem C6_classifier_fallback (h : Host) (file_path : Path) :
  FileTypeDetector.detect_type h file_path <> ""
  /\ (unrecognised h file_path ->
      FileTypeDetector.detect_type h file_path =
        if Py.nonempty (path_suffix file_path)
        then "unknown" +:+ Py.lower (path_suffix file_path)
        else "unknown").
Proof.
  split; [apply detect_type_nonempty|].
  intros (Hspecial & Hext & Hmime). unfold FileTypeDetector.detect_type.
  rewrite Hspecial, Hext, Hmime. cbn [FileTypeDetector.by_mime].
  now rewrite nonempty_lower.
Qed.

Lemma C6_classifier_fallback_witness :
  FileTypeDetector.detect_type bare_host (PosixPath Rooted ["srv"; "DATA.QZX"])
  = "unknown.qzx".
Proof.
  refine (proj2 (C6_classifier_fallback bare_host
                   (PosixPath Rooted ["srv"; "DATA.QZX"])) _).
  vm_compute. repeat split.
Defined.

(** The claim C6 with the extension taken as the name spells it fails on an
    extension in capitals: the tag carries the lower-case extension. *)
Lemma C6_literal_extension_counterexample :
  unrecognised bare_host (PosixPath Rooted ["srv"; "DATA.QZX"])
  /\ path_suffix (PosixPath Rooted ["srv"; "DATA.QZX"]) = ".QZX"
  /\ FileTypeDetector.detect_type bare_host
       (PosixPath Rooted ["srv"; "DATA.QZX"]) = "unknown.qzx"
  /\ FileTypeDetector.detect_type bare_host
       (PosixPath Rooted ["srv"; "DATA.QZX"])
     <> "unknown" +:+ path_suffix (PosixPath Rooted ["srv"; "DATA.QZX"]).
Proof. vm_compute. repeat split; discriminate. Qed.

(** ** The text-eligibility check *)

Lemma rejected_as_binary (tag : string) :
  existsb (fun bt => Py.contains bt tag) BINARY_TYPES = true
  <-> exists bt, In bt BINARY_TYPES /\ occurs_in bt tag.
Proof.
  rewrite existsb_exists. split; intros [bt [Hin Hc]]; exists bt; split;
    try assumption; now apply contains_spec.
Qed.

(** C4. With binary inclusion disabled, the check rejects a file as binary
    when a binary tag occurs in its classification tag, which covers the tags
    of the set themselves, and only then: a file with no binary tag inside
    its tag gets the verdict of the 1KB probe. *)
Theorem C4_binary_exclusion (self : CodebaseArchiver) (h : Host)
    (file_path : Path) (f : FileData) :
  include_binary self = false ->
  (In (FileTypeDetector.detect_type h file_path) BINARY_TYPES ->
   _is_text_file self h file_path f = false)
  /\ ((exists bt, In bt BINARY_TYPES
                  /\ occurs_in bt (FileTypeDetector.detect_type h file_path)) ->
      _is_text_file self h file_path f = false)
  /\ (~ (exists bt, In bt BINARY_TYPES
                    /\ occurs_in bt (FileTypeDetector.detect_type h file_path)) ->
      _is_text_file self h file_path f = probe_succeeds f).
Proof.
  intros Hbin. unfold _is_text_file. rewrite Hbin. cbn [negb andb].
  assert (Hin : (exists bt, In bt BINARY_TYPES
                   /\ occurs_in bt (FileTypeDetector.detect_type h file_path)) ->
                existsb (fun bt => Py.contains bt
                                     (FileTypeDetector.detect_type h file_path))
                  BINARY_TYPES = true) by apply rejected_as_binary.
  split; [|split].
  - intros Hmem. rewrite Hin; [reflexivity|].
    exists (FileTypeDetector.detect_type h file_path). split; [assumption|].
    exists "", "". symmetry. apply append_nil_r.
  - intros Hocc. now rewrite Hin.
  - intros Hnone. destruct (existsb _ _) eqn:E; [|reflexivity].
    apply rejected_as_binary in E. contradiction.
Qed.

Lemma C4_binary_exclusion_witness :
  _is_text_file (__init__ None DEFAULT_MAX_FILE_SIZE false) bare_host
    (PosixPath Rooted ["srv"; "photo.png"]) (readable (plain_stat 4) "data")
  = false.
Proof.
  refine (proj1 (C4_binary_exclusion (__init__ None DEFAULT_MAX_FILE_SIZE false)
                   bare_host (PosixPath Rooted ["srv"; "photo.png"])
                   (readable (plain_stat 4) "data") _) _).
  - reflexivity.
  - vm_compute. tauto.
Defined.

(** The claim C4 with membership in the set fails on a tag that is not in
    the set and has a binary tag inside: the file is rejected although its
    probe succeeds. *)
Lemma C4_membership_counterexample :
  FileTypeDetector.detect_type bare_host
    (PosixPath Rooted ["srv"; "clip.videoproj"]) = "unknown.videoproj"
  /\ ~ In "unknown.videoproj" BINARY_TYPES
  /\ include_binary (__init__ None DEFAULT_MAX_FILE_SIZE false) = false
  /\ probe_succeeds (readable (plain_stat 4) "data") = true
  /\ _is_text_file (__init__ None DEFAULT_MAX_FILE_SIZE false) bare_host
       (PosixPath Rooted ["srv"; "clip.videoproj"])
       (readable (plain_stat 4) "data") = false.
Proof.
  repeat split; try (vm_compute; reflexivity).
  cbn. intros H. repeat destruct H as [H|H]; try discriminate H. exact H.
Qed.

(** ** The ignore filter *)

Section IgnoreFilter.

Lemma replace_cons (c a : ascii) (new s : string) :
  Py.replace c new (String a s) =
  if Ascii.eqb a c then new +:+ Py.replace c new s
  else String a (Py.replace c new s).
Proof. reflexivity. Qed.

Lemma regex_of_glob_cons (c : ascii) (p : string) :
  regex_of_glob (String c p) =
  if Ascii.eqb c "*" then String "." (String "*" (regex_of_glob p))
  else if Ascii.eqb c "?" then String "." (regex_of_glob p)
  else String c (regex_of_glob p).
Proof.
  unfold regex_of_glob. rewrite replace_cons.
  destruct (Ascii.eqb c "*") eqn:Estar.
  - reflexivity.
  - rewrite replace_cons. now destruct (Ascii.eqb c "?").
Qed.

(** The translation never starts with a star, and never is empty once the
    closing [$] is added. *)
Lemma regex_of_glob_head (p : string) :
  exists d rest, regex_of_glob p +:+ "$" = String d rest
                 /\ Ascii.eqb d "*" = false.
Proof.
  destruct p as [|c p]; [now exists "$"%char, ""|].
  rewrite regex_of_glob_cons.
  destruct (Ascii.eqb c "*") eqn:Estar; [|destruct (Ascii.eqb c "?") eqn:Eq].
  - now exists "."%char, (String "*" (regex_of_glob p) +:+ "$").
  - now exists "."%char, (regex_of_glob p +:+ "$").
  - exists c, (regex_of_glob p +:+ "$"). now split.
Qed.

Lemma parse_body_one (c : ascii) (a : Re.atom) (s : string) (r : list Re.item) :
  Ascii.eqb c "$" = false ->
  Re.parse_atom c = Some a ->
  (exists d rest, s = String d rest /\ Ascii.eqb d "*" = false) ->
  Re.parse_body s = Some r ->
  Re.parse_body (String c s) = Some (Re.One a :: r).
Proof.
  intros Hc Ha (d & rest & -> & Hd) Hr. cbn [Re.parse_body].
  rewrite Hc, Ha, Hd. cbn [Re.parse_body] in Hr. now rewrite Hr.
Qed.

Lemma parse_body_star (c : ascii) (a : Re.atom) (s : string) (r : list Re.item) :
  Ascii.eqb c "$" = false ->
  Re.parse_atom c = Some a ->
  Re.parse_body s = Some r ->
  Re.parse_body (String c (String "*" s)) = Some (Re.Star a :: r).
Proof.
  intros Hc Ha Hr. cbn [Re.parse_body]. rewrite Hc, Ha.
  cbn [Ascii.eqb Bool.eqb]. now rewrite Hr.
Qed.

(** [re] reads the translation of a plain glob as its items. *)
Lemma parse_regex_of_glob (p : string) :
  Glob.plain p = true ->
  Re.parse_body (regex_of_glob p +:+ "$") = Some (glob_items p).
Proof.
  induction p as [|c p IH]; [reflexivity|].
  cbn [Glob.plain]. rewrite andb_true_iff. intros [Hc Hp].
  specialize (IH Hp). rewrite regex_of_glob_cons. cbn [glob_items].
  destruct (Ascii.eqb c "*") eqn:Estar; [|destruct (Ascii.eqb c "?") eqn:Eq].
  - rewrite !append_cons. now apply parse_body_star.
  - rewrite append_cons.
    apply parse_body_one; auto using regex_of_glob_head.
  - rewrite append_cons. cbn [orb] in Hc. apply negb_true_iff in Hc.
    assert (Hdot : Ascii.eqb c "." = false).
    { destruct (Ascii.eqb_spec c "."); [subst; discriminate Hc | reflexivity]. }
    assert (Hdollar : Ascii.eqb c "$" = false).
    { destruct (Ascii.eqb_spec c "$"); [subst; discriminate Hc | reflexivity]. }
    apply parse_body_one; auto using regex_of_glob_head.
    unfold Re.parse_atom. now rewrite Hdot, Hc.
Qed.

(** On a name without a newline, the items of a glob match as the glob. *)
Lemma run_glob_items (p name : string) :
  Py.has_char "010" name = false ->
  Re.run (glob_items p) name = Glob.matches p name.
Proof.
  revert name. induction p as [|c p IH]; intros name Hnl.
  - destruct name as [|d [|e name]]; try reflexivity.
    cbn [Py.has_char] in Hnl. apply orb_false_iff in Hnl as [Hd _].
    cbn [glob_items Re.run Re.at_end Glob.matches]. exact Hd.
  - cbn [glob_items Glob.matches].
    destruct (Ascii.eqb c "*") eqn:Estar; [|destruct (Ascii.eqb c "?") eqn:Eq].
    + cbn [Re.run]. induction name as [|d name IHname].
      * rewrite IH by assumption. reflexivity.
      * cbn [Py.has_char] in Hnl. apply orb_false_iff in Hnl as [Hd Hnl].
        rewrite IH by (cbn [Py.has_char]; now rewrite Hd, Hnl).
        rewrite IHname by assumption. cbn [Re.accepts].
        now rewrite Hd.
    + cbn [Re.run]. destruct name as [|d name]; [reflexivity|].
      cbn [Py.has_char] in Hnl. apply orb_false_iff in Hnl as [Hd Hnl].
      rewrite IH by assumption. cbn [Re.accepts orb].
      now rewrite Hd.
    + cbn [Re.run]. destruct name as [|d name]; [reflexivity|].
      cbn [Py.has_char] in Hnl. apply orb_false_iff in Hnl as [Hd Hnl].
      rewrite IH by assumption. reflexivity.
Qed.

Lemma match_pattern_glob (name pattern : string) :
  Py.has_char "*" pattern = true ->
  Glob.plain pattern = true ->
  Py.has_char "010" name = false ->
  _match_pattern name pattern = Return (Glob.matches pattern name).
Proof.
  intros Hstar Hplain Hnl. unfold _match_pattern. rewrite Hstar.
  fold (regex_of_glob pattern). unfold Re.match_.
  rewrite append_cons, append_nil_l. cbn [Re.compile Ascii.eqb Bool.eqb].
  rewrite parse_regex_of_glob by assumption.
  now rewrite run_glob_items.
Qed.

Lemma match_pattern_modelled (name pattern : string) :
  pattern_modelled pattern = true ->
  exists b, _match_pattern name pattern = Return b.
Proof.
  unfold pattern_modelled, _match_pattern, Re.match_.
  destruct (Py.has_char "*" pattern); [|intros _; eauto].
  destruct (Re.compile _); [intros _; eauto | discriminate].
Qed.

Lemma should_ignore_loop_returns (patterns : list string) (path_s name : string) :
  Forall (fun pattern => pattern_modelled pattern = true) patterns ->
  exists b, should_ignore_loop patterns path_s name = Return b.
Proof.
  induction 1 as [|pattern rest Hp _ IH]; cbn [should_ignore_loop]; [eauto|].
  destruct (Py.contains pattern path_s); [eauto|].
  destruct (match_pattern_modelled name pattern Hp) as [b ->].
  cbn. destruct b; eauto.
Qed.

(** Under modelled patterns the filter returns, and [not_ignored] is the
    negation of what it returns. *)
Lemma should_ignore_returns (self : CodebaseArchiver) (path : Path) :
  modelled self ->
  _should_ignore self path = Return (negb (not_ignored self path)).
Proof.
  intros Hm. unfold not_ignored.
  destruct (should_ignore_loop_returns _ (path_str path) (path_name path) Hm)
    as [b Hb].
  unfold _should_ignore. rewrite Hb. now destruct b.
Qed.

Lemma default_patterns_modelled (max_size : Z) (binary : bool) :
  modelled (__init__ None max_size binary).
Proof.
  unfold modelled, __init__, DEFAULT_IGNORE_PATTERNS. cbn [ignore_patterns].
  repeat (apply Forall_cons_2; [vm_compute; reflexivity|]). apply Forall_nil_2.
Qed.

End IgnoreFilter.

(** C3. For a configured pattern with a [*] whose other characters mean
    themselves to [re], and a path whose final segment has no newline, the
    filter ignores the path when the pattern occurs in the path string or the
    final segment matches the pattern as an anchored glob ([*] any run of
    characters, [?] any single character); otherwise it goes on to the next
    pattern. *)
Theorem C3_glob_pattern_decision (self : CodebaseArchiver)
    (pattern : string) (rest : list string) (path : Path) :
  Py.has_char "*" pattern = true ->
  Glob.plain pattern = true ->
  Py.has_char "010" (path_name path) = false ->
  _should_ignore (with_patterns self (pattern :: rest)) path =
    if Py.contains pattern (path_str path)
       || Glob.matches pattern (path_name path)
    then Return true
    else _should_ignore (with_patterns self rest) path.
Proof.
  intros Hstar Hplain Hnl. unfold _should_ignore, with_patterns.
  cbn [ignore_patterns should_ignore_loop].
  destruct (Py.contains pattern (path_str path)); [reflexivity|].
  rewrite match_pattern_glob by assumption. cbn.
  now destruct (Glob.matches pattern (path_name path)).
Qed.

Lemma C3_glob_pattern_decision_witness :
  _should_ignore (with_patterns (__init__ None DEFAULT_MAX_FILE_SIZE false)
                   ["build-*"; "tmp?*"])
    (PosixPath Rooted ["srv"; "proj"; "build-x86"])
  = Return true.
Proof.
  refine (C3_glob_pattern_decision (__init__ None DEFAULT_MAX_FILE_SIZE false)
            "build-*" ["tmp?*"] (PosixPath Rooted ["srv"; "proj"; "build-x86"])
            _ _ _); reflexivity.
Defined.

(** The claim C3 with the glob tested against the final segment only fails
    on a path that has the pattern, star included, inside a directory name:
    the final segment does not match the glob and the path is ignored. *)
Lemma C3_final_segment_counterexample :
  Py.has_char "*" "*.log" = true
  /\ path_name (PosixPath Rooted ["srv"; "x*.log"; "notes.txt"]) = "notes.txt"
  /\ Glob.matches "*.log" "notes.txt" = false
  /\ _should_ignore (with_patterns (__init__ None DEFAULT_MAX_FILE_SIZE false)
                      ["*.log"])
       (PosixPath Rooted ["srv"; "x*.log"; "notes.txt"])
     = Return true.
Proof. repeat split; vm_compute; reflexivity. Qed.

(** Two facts on what the translation into [re] leaves aside: a pattern with
    [?] and no [*] is compared with the name as it stands, and a dot of the
    pattern matches any character. *)
Remark question_mark_alone_is_literal :
  _match_pattern "abc" "a?c" = Return false
  /\ Glob.matches "a?c" "abc" = true.
Proof. split; reflexivity. Qed.

Remark dot_matches_any_character :
  _match_pattern "catalog" "*.log" = Return true
  /\ Glob.matches "*.log" "catalog" = false.
Proof. split; reflexivity. Qed.

(** ** The file system tree *)

(** Induction on a tree, with the hypothesis on every entry of a directory. *)
Lemma Node_tree_ind (P : Node -> Prop) :
  (forall name data, P (File name data)) ->
  (forall name entries, Forall P entries -> P (Dir name entries)) ->
  (forall name, P (LockedDir name)) ->
  (forall name, P (Special name)) ->
  forall n, P n.
Proof.
  intros HFile HDir HLocked HSpecial. fix IH 1.
  intros [name data|name entries|name|name].
  - apply HFile.
  - apply HDir. induction entries as [|c entries IHentries].
    + apply Forall_nil_2.
    + apply Forall_cons_2; [apply IH | exact IHentries].
  - apply HLocked.
  - apply HSpecial.
Qed.

Lemma rglob_dir (path : Path) (name : string) (entries : list Node) :
  rglob path (Dir name entries) =
  map (fun c => (path_child path (node_name c), c)) entries
  ++ flat_map (fun c => rglob (path_child path (node_name c)) c) entries.
Proof. reflexivity. Qed.

(** ** The metadata extractor *)

Section Metadata.
Context (self : CodebaseArchiver) (h : Host).

Lemma tally_app (sel : Node -> bool) (xs ys : list (Path * Node)) :
  tally sel self (xs ++ ys) = tally sel self xs + tally sel self ys.
Proof.
  induction xs as [|x xs IH]; [reflexivity|].
  cbn [app]. unfold tally in *. cbn [foldr]. rewrite IH. lia.
Qed.

Lemma sizes_app (xs ys : list (Path * Node)) :
  sizes self (xs ++ ys) = sizes self xs + sizes self ys.
Proof.
  induction xs as [|x xs IH]; [reflexivity|].
  cbn [app]. unfold sizes in *. cbn [foldr]. rewrite IH. lia.
Qed.

(** Counting along the walk is counting along the tree. *)
Lemma tally_rglob (sel : Node -> bool) (n : Node) :
  forall path, tally sel self (rglob path n) = count_below sel self path n.
Proof.
  induction n as [name data|name entries IH|name|name] using Node_tree_ind;
    intros path; try reflexivity.
  rewrite rglob_dir, tally_app. cbn [count_below].
  induction IH as [|c entries Hc _ IHentries]; [reflexivity|].
  cbn [map flat_map foldr]. rewrite tally_app, <- Hc, <- IHentries.
  unfold tally at 1. cbn [foldr fst snd].
  fold (tally sel self
          (map (fun c => (path_child path (node_name c), c)) entries)).
  lia.
Qed.

Lemma sizes_rglob (n : Node) :
  forall path, sizes self (rglob path n) = size_below self path n.
Proof.
  induction n as [name data|name entries IH|name|name] using Node_tree_ind;
    intros path; try reflexivity.
  rewrite rglob_dir, sizes_app. cbn [size_below].
  induction IH as [|c entries Hc _ IHentries]; [reflexivity|].
  cbn [map flat_map foldr]. rewrite sizes_app, <- Hc, <- IHentries.
  unfold sizes at 1. cbn [foldr fst snd].
  fold (sizes self
          (map (fun c => (path_child path (node_name c), c)) entries)).
  lia.
Qed.

(** What one turn of the loop adds to the three counters. *)
Lemma extract_step_counts (md : Metadata) (item : Path * Node) :
  modelled self ->
  exists md',
    extract_step self h md item = Return md'
    /\ total_files md' =
         total_files md
         + (if not_ignored self item.1 && is_file item.2 then 1 else 0)
    /\ total_directories md' =
         total_directories md
         + (if not_ignored self item.1 && is_dir item.2 then 1 else 0)
    /\ total_size md' =
         total_size md
         + (if not_ignored self item.1 then stat_size item.2 else 0).
Proof.
  intros Hm. unfold extract_step. rewrite should_ignore_returns by assumption.
  cbn [mbind result_bind].
  destruct (not_ignored self item.1); cbn [negb andb].
  - destruct item.2 as [name f|name entries|name|name]; cbn [is_file is_dir stat_size].
    + destruct (f_stat f) as [st|msg]; eexists; (split; [reflexivity|]);
        cbn; repeat split; lia.
    + eexists; (split; [reflexivity|]); cbn; repeat split; lia.
    + eexists; (split; [reflexivity|]); cbn; repeat split; lia.
    + eexists; (split; [reflexivity|]); cbn; repeat split; lia.
  - eexists; (split; [reflexivity|]); repeat split; lia.
Qed.

Lemma for_each_extract_counts (items : list (Path * Node)) :
  modelled self ->
  forall md, exists md',
    for_each (extract_step self h) items md = Return md'
    /\ total_files md' = total_files md + tally is_file self items
    /\ total_directories md' = total_directories md + tally is_dir self items
    /\ total_size md' = total_size md + sizes self items.
Proof.
  intros Hm. induction items as [|item items IH]; intros md.
  - exists md. cbn. repeat split; lia.
  - destruct (extract_step_counts md item Hm) as (md1 & E1 & F1 & D1 & S1).
    destruct (IH md1) as (md' & E' & F' & D' & S').
    exists md'. cbn [for_each]. rewrite E1. cbn [mbind result_bind].
    split; [exact E'|]. unfold tally, sizes in *. cbn [foldr].
    repeat split; lia.
Qed.

Lemma typed_app (tag : string) (xs ys : list (Path * Node)) :
  typed h tag self (xs ++ ys) = typed h tag self xs + typed h tag self ys.
Proof.
  induction xs as [|x xs IH]; [reflexivity|].
  cbn [app]. unfold typed in *. cbn [foldr]. rewrite IH. lia.
Qed.

Lemma typed_rglob (tag : string) (n : Node) :
  forall path, typed h tag self (rglob path n) = typed_below h tag self path n.
Proof.
  induction n as [name data|name entries IH|name|name] using Node_tree_ind;
    intros path; try reflexivity.
  rewrite rglob_dir, typed_app. cbn [typed_below].
  induction IH as [|c entries Hc _ IHentries]; [reflexivity|].
  cbn [map flat_map foldr]. rewrite typed_app, <- Hc, <- IHentries.
  unfold typed at 1. cbn [foldr fst snd].
  fold (typed h tag self
          (map (fun c => (path_child path (node_name c), c)) entries)).
  lia.
Qed.

(** What one turn of the loop adds to the bucket of a tag. *)
Lemma extract_step_types (md : Metadata) (item : Path * Node) (tag : string) :
  modelled self ->
  exists md',
    (extract_step self h) md item = Return md'
    /\ default 0 (file_types md' !! tag) =
         default 0 (file_types md !! tag)
         + (if not_ignored self item.1 && has_type h tag item then 1 else 0).
Proof.
  intros Hm. unfold extract_step, has_type.
  rewrite should_ignore_returns by assumption.
  cbn [mbind result_bind].
  destruct (not_ignored self item.1); cbn [negb andb];
    [|eexists; split; [reflexivity | lia]].
  destruct item.2 as [name f|name entries|name|name];
    try (eexists; split; [reflexivity | cbn; lia]).
  destruct (f_stat f) as [st|msg]; [|eexists; split; [reflexivity | cbn; lia]].
  eexists. split; [reflexivity|]. cbn [file_types total_files].
  destruct (String.eqb_spec (FileTypeDetector.detect_type h item.1) tag)
    as [->|Hne].
  - rewrite lookup_insert_eq. reflexivity.
  - rewrite lookup_insert_ne by assumption. lia.
Qed.

Lemma for_each_extract_types (items : list (Path * Node)) (tag : string) :
  modelled self ->
  forall md, exists md',
    for_each (extract_step self h) items md = Return md'
    /\ default 0 (file_types md' !! tag) =
         default 0 (file_types md !! tag) + typed h tag self items.
Proof.
  intros Hm. induction items as [|item items IH]; intros md.
  - exists md. cbn. split; [reflexivity | lia].
  - destruct (extract_step_types md item tag Hm) as (md1 & E1 & T1).
    destruct (IH md1) as (md' & E' & T').
    exists md'. cbn [for_each]. rewrite E1. cbn [mbind result_bind].
    split; [exact E'|]. unfold typed in *. cbn [foldr]. lia.
Qed.

End Metadata.

(** X29. On entries on which the type tests return, and under modelled
    ignore patterns, the extractor returns, and its metadata counts every
    regular file below the root that is not ignored, also one on which the
    [stat] that follows the type test fails, and every directory below the
    root that is not ignored; the total size and the histogram take in the
    counted files on which [stat] succeeds, and only those. *)
Theorem X29_metadata_counts (self : CodebaseArchiver) (h : Host)
    (codebase_path : Path) (root : Node) :
  modelled self ->
  exists md,
    _extract_metadata self h codebase_path root = Return md
    /\ total_files md = count_below is_file self codebase_path root
    /\ total_directories md = count_below is_dir self codebase_path root
    /\ total_size md = size_below self codebase_path root
    /\ (forall tag,
          default 0 (file_types md !! tag)
          = typed_below h tag self codebase_path root).
Proof.
  intros Hm. unfold _extract_metadata.
  set (md0 := {| md_name := path_name codebase_path;
                 md_path := absolute h codebase_path;
                 md_timestamp := now_isoformat h;
                 total_files := 0; total_directories := 0; total_size := 0;
                 file_types := ∅; languages := ∅ |}).
  destruct (for_each_extract_counts self h (rglob codebase_path root) Hm md0)
    as (md & E & F & D & S).
  exists md. split; [exact E|].
  rewrite <- !tally_rglob, <- sizes_rglob. cbn in F, D, S.
  repeat split; try lia.
  intros tag.
  destruct (for_each_extract_types self h (rglob codebase_path root) tag Hm md0)
    as (md' & E' & T).
  rewrite E in E'. injection E' as <-.
  rewrite <- typed_rglob, T. subst md0. cbn [file_types].
  rewrite lookup_empty. cbn [default]. lia.
Qed.

Lemma X29_metadata_counts_witness :
  exists md,
    _extract_metadata default_archiver bare_host
      (PosixPath Rooted ["srv"; "proj"]) sample_tree = Return md
    /\ total_files md = 3
    /\ total_directories md = 1
    /\ total_size md = 12
    /\ (forall tag,
          default 0 (file_types md !! tag)
          = typed_below bare_host tag default_archiver
              (PosixPath Rooted ["srv"; "proj"]) sample_tree).
Proof.
  refine (X29_metadata_counts default_archiver bare_host
            (PosixPath Rooted ["srv"; "proj"]) sample_tree _).
  repeat (apply Forall_cons_2; [vm_compute; reflexivity|]). apply Forall_nil_2.
Defined.

(** ** The extractor on a tree that does not change *)

Section StaticRun.
Context (self : CodebaseArchiver) (h : Host).

Lemma static_extract_step_raises (md : Metadata) (item : Path * Node)
    (name : string) (f : FileData) (msg : string) :
  not_ignored self item.1 = true ->
  item.2 = File name f ->
  f_stat f = OSError msg ->
  _ignore_error msg = false ->
  static_extract_step self h md item = Raise (OSErrorRaised msg).
Proof.
  intros Hni Hfile Hstat Herr. unfold static_extract_step.
  unfold not_ignored in Hni.
  destruct (_should_ignore self item.1) as [[]|e]; try discriminate Hni.
  cbn [mbind result_bind]. rewrite Hfile. cbn [static_is_file].
  rewrite Hstat, Herr. reflexivity.
Qed.

Lemma for_each_static_raises (items : list (Path * Node))
    (item : Path * Node) (msg : string) :
  In item items ->
  (forall md, static_extract_step self h md item = Raise (OSErrorRaised msg)) ->
  forall md, exists e,
    for_each (static_extract_step self h) items md = Raise e.
Proof.
  intros Hin Hraise. induction items as [|first items IH]; [destruct Hin|].
  intros md. cbn [for_each].
  destruct (static_extract_step self h md first) as [md1|e] eqn:E;
    cbn [mbind result_bind]; [|now exists e].
  destruct Hin as [->|Hin]; [|exact (IH Hin md1)].
  rewrite Hraise in E. discriminate E.
Qed.



End StaticRun.

(** C7. On a tree that does not change during the run the extractor does
    not count a file on which [stat] fails, as the claim has it: when the
    error is one that [is_file()] lets through, as the [PermissionError] of
    a file in a directory that cannot be searched is, the type test, which
    stands outside the [try], raises, and the extractor returns no metadata
    at all. *)
Theorem C7_stat_failure_on_static_tree (self : CodebaseArchiver) (h : Host)
    (codebase_path : Path) (root : Node)
    (file_path : Path) (name : string) (f : FileData) (msg : string) :
  In (file_path, File name f) (rglob codebase_path root) ->
  not_ignored self file_path = true ->
  f_stat f = OSError msg ->
  _ignore_error msg = false ->
  exists e,
    static_extract_metadata self h codebase_path root = Raise e.
Proof.
  intros Hin Hni Hstat Herr. unfold static_extract_metadata.
  apply (for_each_static_raises self h _ (file_path, File name f) msg Hin).
  intros md.
  now apply (static_extract_step_raises self h md _ name f msg).
Qed.

Lemma C7_stat_failure_on_static_tree_witness :
  static_extract_metadata default_archiver bare_host
    (PosixPath Rooted ["srv"; "proj"]) denied_tree
  = Raise (OSErrorRaised
             "[Errno 13] Permission denied: '/srv/proj/locked/a.txt'")
  /\ exists e,
       static_extract_metadata default_archiver bare_host
         (PosixPath Rooted ["srv"; "proj"]) denied_tree = Raise e.
Proof.
  split; [vm_compute; reflexivity|].
  refine (C7_stat_failure_on_static_tree default_archiver bare_host
            (PosixPath Rooted ["srv"; "proj"]) denied_tree
            (PosixPath Rooted ["srv"; "proj"; "locked"; "a.txt"]) "a.txt"
            denied "[Errno 13] Permission denied: '/srv/proj/locked/a.txt'"
            _ _ _ _).
  - right. left. reflexivity.
  - vm_compute. reflexivity.
  - reflexivity.
  - vm_compute. reflexivity.
Defined.


(** ** Sorting *)

Section SortedFacts.
Context {A K : Type} (key : A -> K) (lt : K -> K -> bool).
Hypothesis lt_asym : forall a b, lt a b = true -> lt b a = false.
Hypothesis le_trans :
  forall a b c, lt b a = false -> lt c b = false -> lt c a = false.

Lemma insert_sorted_In (x y : A) (ys : list A) :
  In y (insert_sorted key lt x ys) <-> y = x \/ In y ys.
Proof.
  induction ys as [|z ys IH]; cbn [insert_sorted].
  - cbn. intuition.
  - destruct (lt (key z) (key x)); cbn [In]; [rewrite IH|]; intuition.
Qed.

Lemma sorted_In (y : A) (xs : list A) :
  In y (sorted key lt xs) <-> In y xs.
Proof.
  induction xs as [|x xs IH]; [reflexivity|].
  unfold sorted in *. cbn [foldr]. rewrite insert_sorted_In, IH. cbn. intuition.
Qed.

Lemma insert_sorted_sorted (x : A) (ys : list A) :
  StronglySorted (not_after lt) (map key ys) ->
  StronglySorted (not_after lt) (map key (insert_sorted key lt x ys)).
Proof.
  induction ys as [|y ys IH]; cbn [insert_sorted map]; intros Hs.
  - repeat constructor.
  - apply StronglySorted_inv in Hs as [Hs Hy].
    destruct (lt (key y) (key x)) eqn:E; cbn [map].
    + constructor; [now apply IH|].
      apply List.Forall_forall. intros k Hk. apply in_map_iff in Hk as [z [<- Hz]].
      apply insert_sorted_In in Hz as [->|Hz].
      * now apply lt_asym.
      * rewrite List.Forall_forall in Hy. apply Hy. now apply in_map.
    + constructor; [now constructor|].
      constructor; [exact E|].
      rewrite List.Forall_forall in Hy |- *. intros k Hk.
      apply (le_trans _ (key y)); [exact E | now apply Hy].
Qed.

Lemma sorted_sorted (xs : list A) :
  StronglySorted (not_after lt) (map key (sorted key lt xs)).
Proof.
  induction xs as [|x xs IH]; [constructor|].
  unfold sorted in *. cbn [foldr]. now apply insert_sorted_sorted.
Qed.

End SortedFacts.

Lemma StronglySorted_filter {K : Type} (R : K -> K -> Prop) {A : Type}
    (key : A -> K) (keep : A -> bool) (xs : list A) :
  StronglySorted R (map key xs) ->
  StronglySorted R (map key (List.filter keep xs)).
Proof.
  induction xs as [|x xs IH]; cbn [map List.filter]; intros Hs; [constructor|].
  apply StronglySorted_inv in Hs as [Hs Hx].
  destruct (keep x); cbn [map]; [|now apply IH].
  constructor; [now apply IH|].
  rewrite List.Forall_forall in Hx |- *. intros k Hk. apply Hx.
  apply in_map_iff in Hk as [z [<- Hz]]. apply filter_In in Hz as [Hz _].
  now apply in_map.
Qed.

(** The order of strings and of the sort keys. *)

Lemma ascii_compare_N (a b : ascii) :
  Ascii.compare a b = N.compare (N_of_ascii a) (N_of_ascii b).
Proof. reflexivity. Qed.

Lemma string_compare_trans (a b c : string) :
  String.compare a b <> Gt -> String.compare b c <> Gt ->
  String.compare a c <> Gt.
Proof.
  revert b c. induction a as [|x a IH]; intros [|y b] [|z c];
    cbn [String.compare]; try congruence.
  rewrite !ascii_compare_N.
  destruct (N.compare_spec (N_of_ascii x) (N_of_ascii y)) as [Hxy|Hxy|Hxy];
    destruct (N.compare_spec (N_of_ascii y) (N_of_ascii z)) as [Hyz|Hyz|Hyz];
    destruct (N.compare_spec (N_of_ascii x) (N_of_ascii z)) as [Hxz|Hxz|Hxz];
    try congruence; try lia.
  apply IH.
Qed.

Lemma ltb_false_iff (a b : string) :
  String.ltb b a = false <-> String.compare a b <> Gt.
Proof.
  unfold String.ltb. rewrite (String.compare_antisym b a).
  destruct (String.compare a b); cbn; split; congruence.
Qed.

Lemma string_ltb_asym (a b : string) :
  String.ltb a b = true -> String.ltb b a = false.
Proof.
  unfold String.ltb. rewrite (String.compare_antisym b a).
  now destruct (String.compare a b).
Qed.

Lemma string_le_trans (a b c : string) :
  String.ltb b a = false -> String.ltb c b = false -> String.ltb c a = false.
Proof. rewrite !ltb_false_iff. apply string_compare_trans. Qed.

Lemma key_lt_asym (a b : bool * string) :
  key_lt a b = true -> key_lt b a = false.
Proof.
  destruct a as [[] s], b as [[] t]; unfold key_lt; cbn [fst snd];
    try congruence; apply string_ltb_asym.
Qed.

Lemma key_le_trans (a b c : bool * string) :
  key_lt b a = false -> key_lt c b = false -> key_lt c a = false.
Proof.
  destruct a as [[] s], b as [[] t], c as [[] u]; unfold key_lt; cbn [fst snd];
    try congruence; apply string_le_trans.
Qed.

(** In a list of keys in ascending order no file comes before a
    directory. *)
Remark directories_first (ks pre mid post : list (bool * string))
    (a b : bool * string) :
  StronglySorted key_le ks ->
  ks = pre ++ a :: mid ++ b :: post ->
  a.1 = true -> b.1 = true.
Proof.
  intros Hs -> Ha. induction pre as [|k pre IH].
  - apply StronglySorted_inv in Hs as [_ Hall].
    rewrite List.Forall_forall in Hall.
    assert (Hab : key_le a b) by (apply Hall, in_or_app; right; now left).
    unfold key_le, not_after, key_lt in Hab. rewrite Ha in Hab.
    now destruct b.1.
  - apply StronglySorted_inv in Hs as [Hs _]. now apply IH.
Qed.

(** ** The structure builder *)

Section Structure.
Context (self : CodebaseArchiver) (h : Host) (root_path : Path).
Hypothesis patterns_modelled : modelled self.

Lemma path_name_child (p : Path) (name : string) :
  path_name (path_child p name) = name.
Proof. unfold path_name, path_child. cbn [path_parts]. apply last_last. Qed.

Lemma descends_refl : descends root_path root_path.
Proof.
  exists []. destruct root_path as [a parts]. cbn. now rewrite app_nil_r.
Qed.

Lemma descends_child (current : Path) (name : string) :
  descends root_path current ->
  descends root_path (path_child current name)
  /\ path_child current name <> root_path.
Proof.
  intros [ext ->]. split.
  - exists (ext ++ [name]). unfold path_child. cbn. now rewrite app_assoc.
  - destruct root_path as [a parts]. unfold path_child. cbn. intros [= H].
    apply (f_equal (@length string)) in H. rewrite !length_app in H.
    cbn in H. lia.
Qed.

Lemma add_child_returns (current : Path) (dir_elem : Element)
    (c : Node * result Element) (t : Element) :
  c.2 = Return t ->
  add_child self current dir_elem c =
  Return (if not_ignored self (path_child current (node_name c.1))
          then append t dir_elem else dir_elem).
Proof.
  intros Ht. unfold add_child.
  rewrite should_ignore_returns by assumption. cbn [mbind result_bind].
  destruct (not_ignored self _); cbn [negb]; [|reflexivity].
  now rewrite Ht.
Qed.

(** The loop over the children appends the elements of the children that are
    not ignored, in the order of the list. *)
Lemma for_each_add_child (current : Path)
    (children : list (Node * result Element)) :
  Forall good_call children ->
  forall tag attrib text kids,
  exists es,
    for_each (add_child self current) children (Elem tag attrib text kids)
    = Return (Elem tag attrib text (kids ++ es))
    /\ Forall2 (fun c e => c.2 = Return e)
         (List.filter
            (fun c => not_ignored self (path_child current (node_name c.1)))
            children)
         es.
Proof.
  induction 1 as [|c children Hc _ IH]; intros tag attrib text kids.
  - exists []. cbn. rewrite app_nil_r. split; [reflexivity | constructor].
  - cbn [for_each List.filter]. destruct Hc as (t & Ht & _).
    rewrite (add_child_returns current _ c t Ht). cbn [mbind result_bind].
    destruct (not_ignored self _); cbn [append].
    + destruct (IH tag attrib text (kids ++ [t])) as (es & E & F).
      exists (t :: es). rewrite E, <- app_assoc. split; [reflexivity|].
      now constructor.
    + apply IH.
Qed.

Lemma good_calls_elements (kept : list (Node * result Element))
    (es : list Element) :
  Forall good_call kept ->
  Forall2 (fun c e => c.2 = Return e) kept es ->
  Forall Ordered es
  /\ map elem_key es = map (fun c => sort_key c.1) kept.
Proof.
  intros Hgood H2. induction H2 as [|c e kept es Hce _ IH].
  - split; [constructor | reflexivity].
  - apply Forall_cons_1 in Hgood as [(t & Ht & Ho & Hk) Hgood].
    destruct (IH Hgood) as [IH1 IH2].
    assert (t = e) as -> by congruence.
    split; [now constructor|]. cbn [map]. now rewrite Hk, IH2.
Qed.

(** The builder returns an ordered tree whose root carries the tag and the
    name the source gives it. *)
Lemma build_structure_tree_ordered (n : Node) :
  forall current, descends root_path current ->
  exists t,
    _build_structure_tree self h root_path current n = Return t
    /\ Ordered t
    /\ elem_tag t = (if is_file n then "file" else "directory")
    /\ get_attr "name" (elem_attrib t) =
         Some (if is_file n then path_name current
               else if decide (current <> root_path)
                    then path_name current else "/").
Proof.
  induction n as [name data|name entries IH|name|name] using Node_tree_ind;
    intros current Hd;
    try (eexists; split; [reflexivity|];
         split; [repeat constructor | split; reflexivity]).
  cbn [_build_structure_tree is_file].
  set (calls := map (fun c => (c, _build_structure_tree self h root_path
                                    (path_child current (node_name c)) c))
                    entries).
  set (children := sorted (fun c : Node * result Element => sort_key c.1)
                     key_lt calls).
  assert (Hcalls : Forall good_call calls).
  { subst calls. induction IH as [|c entries Hc _ IHentries]; cbn [map].
    - constructor.
    - constructor; [|exact IHentries].
      destruct (descends_child current (node_name c) Hd) as [Hdc Hne].
      destruct (Hc _ Hdc) as (t & Ht & Ho & Htag & Hname).
      exists t. split; [exact Ht|]. split; [exact Ho|].
      unfold elem_key, sort_key. cbn [fst snd]. rewrite Htag, Hname.
      rewrite path_name_child. cbn [default].
      destruct (decide (path_child current (node_name c) <> root_path));
        [|contradiction].
      now destruct (is_file c). }
  assert (Hchildren : Forall good_call children).
  { rewrite List.Forall_forall in Hcalls |- *. intros c Hc. apply Hcalls.
    now apply sorted_In in Hc. }
  match goal with
  | |- context [for_each _ children (Elem ?tag ?attrib ?text ?kids)] =>
      destruct (for_each_add_child current children Hchildren
                  tag attrib text kids) as (es & E & F)
  end.
  rewrite E. eexists. split; [reflexivity|].
  split; [|split; reflexivity].
  assert (Hkept : Forall good_call
            (List.filter
               (fun c => not_ignored self (path_child current (node_name c.1)))
               children)).
  { rewrite List.Forall_forall in Hchildren |- *. intros c Hc.
    apply filter_In in Hc as [Hc _]. now apply Hchildren. }
  destruct (good_calls_elements _ _ Hkept F) as [Ho Hk].
  constructor; [|exact Ho]. cbn [app]. rewrite Hk.
  apply (StronglySorted_filter key_le (fun c : Node * result Element => sort_key c.1)).
  apply (sorted_sorted (fun c : Node * result Element => sort_key c.1) key_lt
           key_lt_asym key_le_trans).
Qed.

End Structure.

(** C8. Under modelled ignore patterns the builder returns a tree in which
    the children of every node are in ascending order of the key (is a file,
    name in lower case), so that directories come before files and each
    group is in alphabetical order without regard to case; the siblings
    [b.txt], [A] (a directory) and [a.txt] come out as [A], [a.txt],
    [b.txt]. *)
Theorem C8_structure_children_sorted (self : CodebaseArchiver) (h : Host)
    (root_path : Path) (root : Node) :
  modelled self ->
  (exists t,
     _build_structure_tree self h root_path root_path root = Return t
     /\ Ordered t)
  /\ (forall f1 f2,
        _build_structure_tree default_archiver h
          (PosixPath Rooted ["srv"; "proj"]) (PosixPath Rooted ["srv"; "proj"])
          (Dir "proj" [ File "b.txt" f1; Dir "A" []; File "a.txt" f2 ])
        = Return
            (Elem "directory" [ ("name", "/"); ("path", "/srv/proj") ] None
               [ Elem "directory" [ ("name", "A"); ("path", "/srv/proj/A") ]
                   None [];
                 Elem "file" [ ("name", "a.txt"); ("type", "text") ] None [];
                 Elem "file" [ ("name", "b.txt"); ("type", "text") ] None [] ])).
Proof.
  intros Hm. split.
  - destruct (build_structure_tree_ordered self h root_path Hm root root_path
                (descends_refl root_path)) as (t & Ht & Ho & _).
    now exists t.
  - intros f1 f2. vm_compute. reflexivity.
Qed.

Lemma C8_structure_children_sorted_witness :
  exists t,
    _build_structure_tree default_archiver bare_host
      (PosixPath Rooted ["srv"; "proj"]) (PosixPath Rooted ["srv"; "proj"])
      sample_tree = Return t
    /\ Ordered t.
Proof.
  refine (proj1 (C8_structure_children_sorted default_archiver bare_host
                   (PosixPath Rooted ["srv"; "proj"]) sample_tree _)).
  repeat (apply Forall_cons_2; [vm_compute; reflexivity|]). apply Forall_nil_2.
Defined.

(** The filter is asked about each path on its own.  The walks of the
    extractor and of the files pass go below a directory that a glob ignores
    by its name, and count a file there; the builder stops at the
    directory. *)
Remark below_an_ignored_directory :
  not_ignored default_archiver
    (PosixPath Rooted ["srv"; "proj"; "old.log"]) = false
  /\ not_ignored default_archiver
       (PosixPath Rooted ["srv"; "proj"; "old.log"; "a.txt"]) = true
  /\ count_below is_file default_archiver
       (PosixPath Rooted ["srv"; "proj"]) log_dir_tree = 1
  /\ _build_structure_tree default_archiver bare_host
       (PosixPath Rooted ["srv"; "proj"]) (PosixPath Rooted ["srv"; "proj"])
       log_dir_tree
     = Return (Elem "directory" [ ("name", "/"); ("path", "/srv/proj") ]
                 None []).
Proof. repeat split; vm_compute; reflexivity. Qed.

(** ** The files pass and the document *)

Section Assembly.
Context (self : CodebaseArchiver) (h : Host).
Hypothesis patterns_modelled : modelled self.

Lemma foldl_append (es : list Element) :
  forall tag attrib text kids,
  foldl (fun parent e => append e parent) (Elem tag attrib text kids) es
  = Elem tag attrib text (kids ++ es).
Proof.
  induction es as [|e es IH]; intros tag attrib text kids; cbn [foldl].
  - now rewrite app_nil_r.
  - cbn [append]. rewrite IH, <- app_assoc. reflexivity.
Qed.

Lemma files_step_returns (item : Path * Node) tag attrib text kids :
  files_step self h (Elem tag attrib text kids) item
  = Return (Elem tag attrib text (kids ++ emitted self h item)).
Proof.
  unfold files_step, emitted.
  destruct item.2 as [name f|name entries|name|name];
    try now rewrite app_nil_r.
  rewrite should_ignore_returns by assumption. cbn [mbind result_bind].
  destruct (not_ignored self item.1); cbn [negb].
  - now rewrite foldl_append.
  - now rewrite app_nil_r.
Qed.

Lemma for_each_files_step (items : list (Path * Node)) :
  forall tag attrib text kids,
  for_each (files_step self h) items (Elem tag attrib text kids)
  = Return (Elem tag attrib text (kids ++ flat_map (emitted self h) items)).
Proof.
  induction items as [|item items IH]; intros tag attrib text kids.
  - cbn. now rewrite app_nil_r.
  - cbn [for_each flat_map]. rewrite files_step_returns.
    cbn [mbind result_bind]. rewrite IH, <- app_assoc. reflexivity.
Qed.

(** The extractor returns, with the counts of the walk. *)
Lemma extract_metadata_counts (codebase_path : Path) (root : Node) :
  exists md,
    _extract_metadata self h codebase_path root = Return md
    /\ total_files md = count_below is_file self codebase_path root
    /\ total_directories md = count_below is_dir self codebase_path root
    /\ total_size md = size_below self codebase_path root.
Proof.
  unfold _extract_metadata.
  destruct (for_each_extract_counts self h (rglob codebase_path root)
              patterns_modelled
              {| md_name := path_name codebase_path;
                 md_path := absolute h codebase_path;
                 md_timestamp := now_isoformat h;
                 total_files := 0; total_directories := 0; total_size := 0;
                 file_types := ∅; languages := ∅ |})
    as (md & E & F & D & S).
  exists md. split; [exact E|].
  rewrite <- !tally_rglob, <- sizes_rglob. cbn in F, D, S.
  repeat split; lia.
Qed.

(** On a directory the assembler returns: the document has the counts of the
    walk in its statistics and, in its files section, what each item of the
    walk emits, in the order of the walk. *)
Lemma archive_codebase_returns (codebase_path : Path) (root : Node) :
  is_dir root = true ->
  exists doc,
    archive_codebase self h codebase_path (Some root) = Return doc
    /\ section "files" doc
       = flat_map (emitted self h) (rglob codebase_path root)
    /\ get_attr "total_files" (statistics doc)
       = Some (Py.str (count_below is_file self codebase_path root))
    /\ get_attr "total_directories" (statistics doc)
       = Some (Py.str (count_below is_dir self codebase_path root)).
Proof.
  intros Hdir. unfold archive_codebase. rewrite Hdir. cbn [negb].
  destruct (extract_metadata_counts codebase_path root)
    as (md & -> & F & D & _).
  destruct (build_structure_tree_ordered self h codebase_path
              patterns_modelled root codebase_path
              (descends_refl codebase_path)) as (t & -> & _).
  cbn [mbind result_bind]. rewrite for_each_files_step.
  cbn [mbind result_bind app]. eexists. split; [reflexivity|].
  unfold section, statistics, findall, metadata_element.
  cbn [elem_children elem_tag List.filter String.eqb Ascii.eqb Bool.eqb
       flat_map app elem_attrib get_attr].
  rewrite app_nil_r, F, D. repeat split; reflexivity.
Qed.

(** What is emitted for an item of the walk is in the files section. *)
Lemma emitted_in_section (codebase_path : Path) (root : Node)
    (doc : Element) (item : Path * Node) (e : Element) :
  section "files" doc = flat_map (emitted self h) (rglob codebase_path root) ->
  In item (rglob codebase_path root) ->
  In e (emitted self h item) ->
  In e (section "files" doc).
Proof.
  intros -> Hitem He. apply in_flat_map. now exists item.
Qed.

End Assembly.

Lemma lstrip_all_space (t : list Z) :
  Forall (fun c => Py.isspace c = true) t -> Py.lstrip t = [].
Proof.
  induction 1 as [|c t Hc _ IH]; [reflexivity|].
  cbn [Py.lstrip]. now rewrite Hc.
Qed.

Lemma strip_all_space (t : list Z) :
  Forall (fun c => Py.isspace c = true) t -> Py.strip t = [].
Proof. intros H. unfold Py.strip. now rewrite (lstrip_all_space t H). Qed.

(** C9. A file that is not ignored, within the size limit, text-eligible
    and readable, and whose content is empty or white space only, gets one
    element in the files section: it has no [content] child, no [note] child
    and no [lines] attribute. *)
Theorem C9_blank_content_is_silent (self : CodebaseArchiver) (h : Host)
    (codebase_path : Path) (root : Node)
    (file_path : Path) (name : string) (f : FileData)
    (st : stat_result) (content : list Z) :
  modelled self ->
  is_dir root = true ->
  In (file_path, File name f) (rglob codebase_path root) ->
  not_ignored self file_path = true ->
  f_stat f = Ok st ->
  st_size st <= max_file_size self ->
  _is_text_file self h file_path f = true ->
  f_read f = Ok content ->
  Forall (fun c => Py.isspace c = true) content ->
  exists doc e,
    archive_codebase self h codebase_path (Some root) = Return doc
    /\ file_elements self h file_path f = [e]
    /\ In e (section "files" doc)
    /\ get_attr "path" (elem_attrib e) = Some (path_str file_path)
    /\ findall "content" e = []
    /\ findall "note" e = []
    /\ get_attr "lines" (elem_attrib e) = None.
Proof.
  intros Hm Hdir Hin Hni Hstat Hsize Htext Hread Hblank.
  destruct (archive_codebase_returns self h Hm codebase_path root Hdir)
    as (doc & E & Hsec & _).
  assert (Hemit : file_elements self h file_path f
                  = [plain_file_element h file_path f]).
  { unfold file_elements. rewrite Hstat, Htext, Hread.
    apply Z.leb_le in Hsize. rewrite Hsize. cbn [andb].
    now rewrite (strip_all_space content Hblank). }
  exists doc, (plain_file_element h file_path f).
  split; [exact E|]. split; [exact Hemit|]. split.
  - apply (emitted_in_section self h codebase_path root doc
             (file_path, File name f)); [exact Hsec | exact Hin |].
    unfold emitted. cbn [fst snd]. rewrite Hni, Hemit. now left.
  - unfold plain_file_element, _get_file_stats. rewrite Hstat.
    repeat split; reflexivity.
Qed.

(** C5. For a file of the walk that is not ignored, the assembler returns
    and: when [stat] fails on the file, the files section holds an element
    for its path with the type [inaccessible] and a note that cites the
    error; when the file passes the size and eligibility tests and reading it
    fails, the files section holds the regular element of the file with the
    note [Content could not be read]; and in either case the files section
    holds what every other file of the walk that is not ignored emits. *)
Theorem C5_errors_degrade_one_entry (self : CodebaseArchiver) (h : Host)
    (codebase_path : Path) (root : Node)
    (file_path : Path) (name : string) (f : FileData) :
  modelled self ->
  is_dir root = true ->
  In (file_path, File name f) (rglob codebase_path root) ->
  not_ignored self file_path = true ->
  exists doc,
    archive_codebase self h codebase_path (Some root) = Return doc
    /\ (forall msg,
          f_stat f = OSError msg ->
          In (inaccessible_element file_path msg) (section "files" doc))
    /\ (forall st msg,
          f_stat f = Ok st ->
          st_size st <= max_file_size self ->
          _is_text_file self h file_path f = true ->
          f_read f = OSError msg ->
          In (append (text_elem "note" "Content could not be read")
                (plain_file_element h file_path f))
             (section "files" doc))
    /\ (forall other name' g e,
          In (other, File name' g) (rglob codebase_path root) ->
          not_ignored self other = true ->
          In e (file_elements self h other g) ->
          In e (section "files" doc)).
Proof.
  intros Hm Hdir Hin Hni.
  destruct (archive_codebase_returns self h Hm codebase_path root Hdir)
    as (doc & E & Hsec & _).
  exists doc. split; [exact E|].
  assert (Hall : forall other name' g e,
             In (other, File name' g) (rglob codebase_path root) ->
             not_ignored self other = true ->
             In e (file_elements self h other g) ->
             In e (section "files" doc)).
  { intros other name' g e Hother Hno He.
    apply (emitted_in_section self h codebase_path root doc
             (other, File name' g)); [exact Hsec | exact Hother |].
    unfold emitted. cbn [fst snd]. now rewrite Hno. }
  split; [|split; [|exact Hall]].
  - intros msg Hstat. apply (Hall file_path name f); [exact Hin | exact Hni |].
    unfold file_elements. rewrite Hstat. right. now left.
  - intros st msg Hstat Hsize Htext Hread.
    apply (Hall file_path name f); [exact Hin | exact Hni |].
    unfold file_elements. rewrite Hstat, Htext, Hread.
    apply Z.leb_le in Hsize. rewrite Hsize. now left.
Qed.

Lemma C9_blank_content_is_silent_witness :
  exists doc e,
    archive_codebase default_archiver bare_host
      (PosixPath Rooted ["srv"; "proj"]) (Some blank_tree) = Return doc
    /\ file_elements default_archiver bare_host
         (PosixPath Rooted ["srv"; "proj"; "blank.txt"])
         (readable (plain_stat 3) "   ") = [e]
    /\ In e (section "files" doc)
    /\ get_attr "path" (elem_attrib e) = Some "/srv/proj/blank.txt"
    /\ findall "content" e = []
    /\ findall "note" e = []
    /\ get_attr "lines" (elem_attrib e) = None.
Proof.
  refine (C9_blank_content_is_silent default_archiver bare_host
            (PosixPath Rooted ["srv"; "proj"]) blank_tree
            (PosixPath Rooted ["srv"; "proj"; "blank.txt"]) "blank.txt"
            (readable (plain_stat 3) "   ") (plain_stat 3)
            (Py.codepoints "   ") _ _ _ _ _ _ _ _ _).
  - repeat (apply Forall_cons_2; [vm_compute; reflexivity|]). apply Forall_nil_2.
  - reflexivity.
  - left. reflexivity.
  - vm_compute. reflexivity.
  - reflexivity.
  - vm_compute. discriminate.
  - vm_compute. reflexivity.
  - reflexivity.
  - repeat (apply Forall_cons_2; [vm_compute; reflexivity|]). apply Forall_nil_2.
Defined.

Lemma C5_errors_degrade_one_entry_witness :
  exists doc,
    archive_codebase default_archiver bare_host
      (PosixPath Rooted ["srv"; "proj"]) (Some sample_tree) = Return doc
    /\ In (inaccessible_element (PosixPath Rooted ["srv"; "proj"; "b.txt"])
             "[Errno 5] Input/output error")
          (section "files" doc).
Proof.
  destruct (C5_errors_degrade_one_entry default_archiver bare_host
              (PosixPath Rooted ["srv"; "proj"]) sample_tree
              (PosixPath Rooted ["srv"; "proj"; "b.txt"]) "b.txt"
              {| f_stat := OSError "[Errno 5] Input/output error";
                 f_probe := Ok tt; f_read := Ok (Py.codepoints "hello") |})
    as (doc & E & Hstat & _).
  - repeat (apply Forall_cons_2; [vm_compute; reflexivity|]). apply Forall_nil_2.
  - reflexivity.
  - right. left. reflexivity.
  - vm_compute. reflexivity.
  - exists doc. split; [exact E|]. apply Hstat. reflexivity.
Defined.

(** The element made before the size test stays in the files section when
    [stat] fails: the path then has two elements. *)
Remark stat_failure_emits_two_elements (self : CodebaseArchiver) (h : Host)
    (file_path : Path) (f : FileData) (msg : string) :
  f_stat f = OSError msg ->
  file_elements self h file_path f
  = [ plain_file_element h file_path f; inaccessible_element file_path msg ].
Proof. intros Hstat. unfold file_elements. now rewrite Hstat. Qed.

(** The claim C5 for an error while reading fails: the file keeps its
    regular element, with its own type and the note of the read handler, and
    no element of the files section has the type [inaccessible]. *)
Lemma C5_read_error_counterexample :
  exists doc,
    archive_codebase default_archiver bare_host
      (PosixPath Rooted ["srv"; "proj"]) (Some unreadable_tree) = Return doc
    /\ not_ignored default_archiver
         (PosixPath Rooted ["srv"; "proj"; "notes.txt"]) = true
    /\ section "files" doc
       = [ Elem "file"
             [ ("name", "notes.txt"); ("path", "/srv/proj/notes.txt");
               ("type", "text"); ("size", "4");
               ("modified", "2024-04-30T09:00:00");
               ("created", "2024-04-30T09:00:00"); ("permissions", "644") ]
             None
             [ text_elem "note" "Content could not be read" ] ]
    /\ ~ (exists e, In e (section "files" doc)
                    /\ get_attr "type" (elem_attrib e) = Some "inaccessible").
Proof.
  eexists. split; [vm_compute; reflexivity|].
  split; [vm_compute; reflexivity|].
  split; [vm_compute; reflexivity|].
  intros (e & Hin & Htype). vm_compute in Hin.
  destruct Hin as [<-|[]]. vm_compute in Htype. discriminate Htype.
Qed.

(** ** The round trip *)

Section RoundTrip.

Lemma join_snoc (x : string) (parts : list string) (name : string) :
  Py.join "/" ((x :: parts) ++ [name])
  = Py.join "/" (x :: parts) +:+ String "/" name.
Proof.
  unfold Py.join. revert x. induction parts as [|y parts IH]; intros x.
  - reflexivity.
  - change (String.concat "/" ((x :: y :: parts) ++ [name]))
      with (x +:+ "/" +:+ String.concat "/" ((y :: parts) ++ [name])).
    rewrite IH.
    change (String.concat "/" (x :: y :: parts))
      with (x +:+ "/" +:+ String.concat "/" (y :: parts)).
    now rewrite !append_assoc.
Qed.

(** A pattern without a slash that is not in the path of a directory is in
    the path of an entry of the directory when it is in the name of the
    entry. *)
Lemma contains_child (pattern : string) (p : Path) (name : string) :
  Py.has_char "/" pattern = false ->
  Py.contains pattern (path_str p) = false ->
  Py.contains pattern (path_str (path_child p name)) = Py.contains pattern name.
Proof.
  intros Hslash Hp. destruct p as [a [|x parts]].
  - destruct a.
    + reflexivity.
    + change (path_str (PosixPath Rooted [])) with "/" in Hp.
      change (path_str (path_child (PosixPath Rooted []) name))
        with ("" +:+ String "/" name).
      change (Py.contains pattern "/")
        with (String.prefix pattern "/" || Py.contains pattern "") in Hp.
      apply orb_false_iff in Hp as [_ Hp].
      rewrite (contains_across "/" pattern "" name Hslash). now rewrite Hp.
    + change (path_str (PosixPath DoubleSlash [])) with "//" in Hp.
      change (path_str (path_child (PosixPath DoubleSlash []) name))
        with ("/" +:+ String "/" name).
      change (Py.contains pattern "//")
        with (String.prefix pattern "//" || Py.contains pattern "/") in Hp.
      apply orb_false_iff in Hp as [_ Hp].
      rewrite (contains_across "/" pattern "/" name Hslash). now rewrite Hp.
  - assert (Hstr : forall parts', path_str (PosixPath a (x :: parts'))
                   = anchor_str a +:+ Py.join "/" (x :: parts'))
      by (intros parts'; now destruct a).
    unfold path_child. cbn [path_anchor path_parts].
    change ((x :: parts) ++ [name]) with (x :: (parts ++ [name])).
    rewrite Hstr in Hp |- *.
    change (x :: (parts ++ [name])) with ((x :: parts) ++ [name]).
    rewrite join_snoc, <- append_assoc.
    rewrite (contains_across "/" pattern _ name Hslash). now rewrite Hp.
Qed.

Lemma should_ignore_loop_ext (patterns : list string) (s1 s2 name : string) :
  (forall pattern, In pattern patterns ->
                   Py.contains pattern s1 = Py.contains pattern s2) ->
  should_ignore_loop patterns s1 name = should_ignore_loop patterns s2 name.
Proof.
  induction patterns as [|pattern rest IH]; intros Hext; [reflexivity|].
  cbn [should_ignore_loop]. rewrite (Hext pattern) by now left.
  rewrite IH; [reflexivity|]. intros p Hp. apply Hext. now right.
Qed.

(** Under the default patterns, and below a root whose path has none of
    them, an entry is judged by its name alone. *)
Lemma not_ignored_default_child (root : Path) (name : string) :
  (forall pattern, In pattern DEFAULT_IGNORE_PATTERNS ->
                   Py.contains pattern (path_str root) = false) ->
  not_ignored default_archiver (path_child root name)
  = not_ignored default_archiver (PosixPath Relative [name]).
Proof.
  intros Hroot. unfold not_ignored, _should_ignore.
  rewrite path_name_child.
  change (path_name (PosixPath Relative [name])) with name.
  change (path_str (PosixPath Relative [name])) with name.
  rewrite (should_ignore_loop_ext _ (path_str (path_child root name)) name);
    [reflexivity|].
  intros pattern Hin. apply contains_child; [|now apply Hroot].
  cbn in Hin. repeat destruct Hin as [<-|Hin]; try reflexivity. contradiction.
Qed.

Lemma detect_type_by_table (h : Host) (p : Path) (name tag : string) :
  path_name p = name ->
  FileTypeDetector.detect_type h (PosixPath Relative [name]) = tag ->
  FileTypeDetector.SPECIAL_FILES !! name = None ->
  FileTypeDetector.by_extension FileTypeDetector.EXTENSION_TABLES
    (Py.lower (path_suffix (PosixPath Relative [name]))) <> None ->
  FileTypeDetector.detect_type h p = tag.
Proof.
  intros Hname <- Hspecial Hext. unfold FileTypeDetector.detect_type, path_suffix.
  rewrite Hname. change (path_name (PosixPath Relative [name])) with name.
  rewrite Hspecial. unfold path_suffix in Hext.
  change (path_name (PosixPath Relative [name])) with name in Hext.
  destruct (FileTypeDetector.by_extension _ _); [reflexivity | contradiction].
Qed.

(** The element of a readable file of the default archiver whose tag is not
    binary, whose size is within the limit and whose content is not blank. *)
Lemma file_elements_readable (h : Host) (p : Path) (tag : string)
    (st : stat_result) (content : string) :
  FileTypeDetector.detect_type h p = tag ->
  existsb (fun bt => Py.contains bt tag) BINARY_TYPES = false ->
  st_size st <= DEFAULT_MAX_FILE_SIZE ->
  Py.truthy (Py.strip (Py.codepoints content)) = true ->
  file_elements default_archiver h p (readable st content)
  = [ content_file_element p tag st (Py.codepoints content) ].
Proof.
  intros Htag Hbin Hsize Hcontent. unfold file_elements, _is_text_file.
  cbn [f_stat f_probe f_read readable include_binary default_archiver __init__
       max_file_size negb andb].
  rewrite Htag, Hbin. apply Z.leb_le in Hsize. rewrite Hsize.
  cbn [andb]. rewrite Hcontent. unfold _get_file_stats.
  cbn [f_stat readable]. reflexivity.
Qed.

End RoundTrip.

Section RoundTripScenario.
Context (h : Host) (root_path : Path).
Hypothesis root_clear :
  forall pattern, In pattern DEFAULT_IGNORE_PATTERNS ->
                  Py.contains pattern (path_str root_path) = false.

Lemma main_py_kept :
  not_ignored default_archiver (path_child root_path "main.py") = true.
Proof. rewrite not_ignored_default_child by assumption. now vm_compute. Qed.

Lemma readme_md_kept :
  not_ignored default_archiver (path_child root_path "README.md") = true.
Proof. rewrite not_ignored_default_child by assumption. now vm_compute. Qed.

Lemma main_py_emitted (st : stat_result) :
  st_size st = 8 ->
  emitted default_archiver h (path_child root_path "main.py", main_py st)
  = [ content_file_element (path_child root_path "main.py") "python" st
        (Py.codepoints "print(1)") ].
Proof.
  intros Hsize. unfold emitted, main_py. cbn [fst snd].
  rewrite main_py_kept. apply file_elements_readable.
  - apply (detect_type_by_table h _ "main.py"); try now vm_compute.
    apply path_name_child.
  - now vm_compute.
  - rewrite Hsize. now vm_compute.
  - now vm_compute.
Qed.

Lemma readme_md_emitted (st : stat_result) :
  st_size st = 2 ->
  emitted default_archiver h (path_child root_path "README.md", readme_md st)
  = [ content_file_element (path_child root_path "README.md") "markdown" st
        (Py.codepoints "hi") ].
Proof.
  intros Hsize. unfold emitted, readme_md. cbn [fst snd].
  rewrite readme_md_kept. apply file_elements_readable.
  - apply (detect_type_by_table h _ "README.md"); try now vm_compute.
    apply path_name_child.
  - now vm_compute.
  - rewrite Hsize. now vm_compute.
  - now vm_compute.
Qed.

End RoundTripScenario.

(** C1. Archiving, with the default configuration, a directory whose path
    has none of the default ignore patterns inside and which holds exactly
    [main.py] with the content [print(1)] and [README.md] with the content
    [hi] gives a document whose files section has exactly two elements, one
    for each file, each with one [content] child whose text is the content of
    the file, and whose statistics carry [total_files] as [2]. *)
Theorem C1_round_trip (h : Host) (root_path : Path) (name : string)
    (entries : list Node) (st1 st2 : stat_result) :
  (forall pattern, In pattern DEFAULT_IGNORE_PATTERNS ->
                   Py.contains pattern (path_str root_path) = false) ->
  st_size st1 = 8 ->
  st_size st2 = 2 ->
  Permutation entries [ main_py st1; readme_md st2 ] ->
  exists doc e1 e2,
    archive_codebase default_archiver h root_path (Some (Dir name entries))
    = Return doc
    /\ Permutation (section "files" doc) [ e1; e2 ]
    /\ elem_tag e1 = "file"
    /\ get_attr "name" (elem_attrib e1) = Some "main.py"
    /\ findall "content" e1
       = [ Elem "content" [] (Some (Py.codepoints "print(1)")) [] ]
    /\ elem_tag e2 = "file"
    /\ get_attr "name" (elem_attrib e2) = Some "README.md"
    /\ findall "content" e2 = [ Elem "content" [] (Some (Py.codepoints "hi")) [] ]
    /\ get_attr "total_files" (statistics doc) = Some "2".
Proof.
  intros Hroot H1 H2 Hperm.
  destruct (archive_codebase_returns default_archiver h
              (default_patterns_modelled DEFAULT_MAX_FILE_SIZE false)
              root_path (Dir name entries) eq_refl)
    as (doc & E & Hsec & Hfiles & _).
  exists doc,
    (content_file_element (path_child root_path "main.py") "python" st1
       (Py.codepoints "print(1)")),
    (content_file_element (path_child root_path "README.md") "markdown" st2
       (Py.codepoints "hi")).
  split; [exact E|].
  assert (Hk1 := main_py_kept root_path Hroot).
  assert (Hk2 := readme_md_kept root_path Hroot).
  assert (He1 := main_py_emitted h root_path Hroot st1 H1).
  assert (He2 := readme_md_emitted h root_path Hroot st2 H2).
  unfold content_file_element.
  cbn [elem_tag elem_attrib get_attr String.eqb Ascii.eqb Bool.eqb].
  rewrite !path_name_child.
  split; [|repeat split; try reflexivity].
  - rewrite Hsec.
    apply Permutation_sym, Permutation_length_2_inv in Hperm as [-> | ->];
      rewrite rglob_dir; cbn [map flat_map rglob app node_name main_py readme_md];
      fold (main_py st1); fold (readme_md st2);
      rewrite He1, He2; cbn [app]; unfold content_file_element;
      rewrite ?path_name_child; [reflexivity | apply perm_swap].
  - rewrite Hfiles.
    apply Permutation_sym, Permutation_length_2_inv in Hperm as [-> | ->];
      cbn [count_below foldr node_name main_py readme_md is_file andb];
      rewrite Hk1, Hk2; reflexivity.
Qed.

Lemma C1_round_trip_witness :
  exists doc e1 e2,
    archive_codebase default_archiver bare_host (PosixPath Rooted ["srv"; "proj"])
      (Some (Dir "proj" [ main_py (plain_stat 8); readme_md (plain_stat 2) ]))
    = Return doc
    /\ Permutation (section "files" doc) [ e1; e2 ]
    /\ elem_tag e1 = "file"
    /\ get_attr "name" (elem_attrib e1) = Some "main.py"
    /\ findall "content" e1
       = [ Elem "content" [] (Some (Py.codepoints "print(1)")) [] ]
    /\ elem_tag e2 = "file"
    /\ get_attr "name" (elem_attrib e2) = Some "README.md"
    /\ findall "content" e2 = [ Elem "content" [] (Some (Py.codepoints "hi")) [] ]
    /\ get_attr "total_files" (statistics doc) = Some "2".
Proof.
  refine (C1_round_trip bare_host (PosixPath Rooted ["srv"; "proj"]) "proj"
            [ main_py (plain_stat 8); readme_md (plain_stat 2) ]
            (plain_stat 8) (plain_stat 2) _ _ _ _).
  - intros pattern Hin. cbn in Hin.
    repeat destruct Hin as [<-|Hin]; try (vm_compute; reflexivity).
    contradiction.
  - reflexivity.
  - reflexivity.
  - apply Permutation_refl.
Defined.

(** The claim C1 for every directory fails on a directory below a directory
    named [venv]: the default pattern [venv] occurs in the path of both
    files, the files section is empty and [total_files] is [0]. *)
Lemma C1_ignored_root_counterexample :
  exists doc,
    archive_codebase default_archiver bare_host
      (PosixPath Rooted ["srv"; "venv"; "proj"])
      (Some (Dir "proj" [ main_py (plain_stat 8); readme_md (plain_stat 2) ]))
    = Return doc
    /\ section "files" doc = []
    /\ get_attr "total_files" (statistics doc) = Some "0".
Proof.
  eexists. split; [vm_compute; reflexivity|].
  split; vm_compute; reflexivity.
Qed.

(** * Further properties *)

(** ** White space at the ends *)

Section Strip.

Lemma lstrip_suffix (t : list Z) :
  exists pre, t = pre ++ Py.lstrip t.
Proof.
  induction t as [|c t [pre IH]]; [now exists []|].
  cbn [Py.lstrip]. destruct (Py.isspace c).
  - exists (c :: pre). cbn [app]. now rewrite <- IH.
  - now exists [].
Qed.

Lemma lstrip_head (t : list Z) :
  Py.lstrip t = []
  \/ exists c u, Py.lstrip t = c :: u /\ Py.isspace c = false.
Proof.
  induction t as [|c t IH]; [now left|].
  cbn [Py.lstrip]. destruct (Py.isspace c) eqn:E; [exact IH|].
  right. now exists c, t.
Qed.

Lemma lstrip_fixed (c : Z) (u : list Z) :
  Py.isspace c = false -> Py.lstrip (c :: u) = c :: u.
Proof. intros E. cbn [Py.lstrip]. now rewrite E. Qed.

(** What [strip] returns lies inside its argument. *)
Lemma strip_infix (t : list Z) :
  exists pre post, t = pre ++ Py.strip t ++ post.
Proof.
  unfold Py.strip. destruct (lstrip_suffix t) as [pre Hpre].
  destruct (lstrip_suffix (rev (Py.lstrip t))) as [post Hpost].
  exists pre, (rev post). rewrite Hpre at 1. f_equal.
  rewrite <- rev_app_distr, <- Hpost. now rewrite rev_involutive.
Qed.

Lemma strip_idempotent (t : list Z) : Py.strip (Py.strip t) = Py.strip t.
Proof.
  unfold Py.strip at 2 3.
  destruct (lstrip_head (rev (Py.lstrip t))) as [E | (c & u & E & Hc)].
  - now rewrite E.
  - rewrite E.
    destruct (lstrip_suffix (rev (Py.lstrip t))) as [pre Hpre].
    rewrite E in Hpre. apply (f_equal (@rev Z)) in Hpre.
    rewrite rev_involutive, rev_app_distr in Hpre.
    destruct (lstrip_head t) as [E0 | (d & w & E0 & Hd)].
    + rewrite E0 in Hpre. destruct (rev (c :: u)) eqn:Er; [|discriminate Hpre].
      apply (f_equal (@rev Z)) in Er. rewrite rev_involutive in Er.
      discriminate Er.
    + rewrite E0 in Hpre.
      destruct (rev (c :: u)) as [|x r] eqn:Er.
      * apply (f_equal (@rev Z)) in Er. rewrite rev_involutive in Er.
        discriminate Er.
      * cbn [app] in Hpre. injection Hpre as -> _.
        unfold Py.strip. rewrite (lstrip_fixed x r Hd), <- Er, rev_involutive.
        now rewrite (lstrip_fixed c u Hc).
Qed.

Lemma codepoints_in_range (s : string) :
  Forall (fun c => 0 <= c < 256) (Py.codepoints s).
Proof.
  unfold Py.codepoints. induction (list_ascii_of_string s) as [|a l IH];
    cbn [map]; constructor; [|exact IH].
  pose proof (N_ascii_bounded a). lia.
Qed.

Lemma of_codepoints_codepoints (s : string) :
  Cli.of_codepoints (Py.codepoints s) = s.
Proof.
  unfold Cli.of_codepoints, Py.codepoints. rewrite map_map.
  rewrite (map_ext _ (fun a => a)).
  - rewrite map_id. apply string_of_list_ascii_of_string.
  - intros a. now rewrite N2Z.id, ascii_N_embedding.
Qed.

Lemma codepoints_of_codepoints (t : list Z) :
  Forall (fun c => 0 <= c < 256) t ->
  Py.codepoints (Cli.of_codepoints t) = t.
Proof.
  intros Ht. unfold Cli.of_codepoints, Py.codepoints.
  rewrite list_ascii_of_string_of_list_ascii, map_map.
  induction Ht as [|c t Hc _ IH]; [reflexivity|].
  cbn [map]. rewrite IH. f_equal.
  rewrite N_ascii_embedding by lia. lia.
Qed.

Lemma of_codepoints_app (t u : list Z) :
  Cli.of_codepoints (t ++ u) = Cli.of_codepoints t +:+ Cli.of_codepoints u.
Proof.
  unfold Cli.of_codepoints. rewrite map_app.
  induction (map (fun c => ascii_of_N (Z.to_N c)) t) as [|a l IH];
    [reflexivity|].
  cbn [app string_of_list_ascii]. now rewrite append_cons, IH.
Qed.

Lemma strip_in_range (s : string) :
  Forall (fun c => 0 <= c < 256) (Py.strip (Py.codepoints s)).
Proof.
  destruct (strip_infix (Py.codepoints s)) as (pre & post & E).
  pose proof (codepoints_in_range s) as H. rewrite E in H.
  apply Forall_app in H as [_ H]. now apply Forall_app in H as [H _].
Qed.

Lemma cli_strip_infix (s : string) :
  exists a b, s = a +:+ Cli.strip s +:+ b.
Proof.
  destruct (strip_infix (Py.codepoints s)) as (pre & post & E).
  exists (Cli.of_codepoints pre), (Cli.of_codepoints post).
  unfold Cli.strip. rewrite <- !of_codepoints_app, <- E.
  symmetry. apply of_codepoints_codepoints.
Qed.

Lemma cli_strip_idempotent (s : string) :
  Cli.strip (Cli.strip s) = Cli.strip s.
Proof.
  unfold Cli.strip.
  rewrite (codepoints_of_codepoints _ (strip_in_range s)).
  now rewrite strip_idempotent.
Qed.

Lemma cli_strip_no_char (c : ascii) (s : string) :
  Py.has_char c s = false -> Py.has_char c (Cli.strip s) = false.
Proof.
  destruct (cli_strip_infix s) as (a & b & E). intros H. rewrite E in H.
  rewrite !has_char_app in H.
  apply orb_false_iff in H as [_ H]. now apply orb_false_iff in H as [H _].
Qed.

Lemma cli_strip_blank (s : string) :
  Forall (fun c => Py.isspace c = true) (Py.codepoints s) ->
  Cli.strip s = "".
Proof.
  intros H. unfold Cli.strip. now rewrite (strip_all_space _ H).
Qed.

End Strip.

(** ** The command line *)

Section CommandLine.

Lemma split_nonempty (sep : ascii) (s : string) : Cli.split sep s <> [].
Proof.
  destruct s as [|c s]; cbn [Cli.split]; [discriminate|].
  destruct (Ascii.eqb c sep); [discriminate|].
  destruct (Cli.split sep s); discriminate.
Qed.

Lemma split_pieces (sep : ascii) (s : string) :
  Forall (fun piece => Py.has_char sep piece = false) (Cli.split sep s).
Proof.
  induction s as [|c s IH]; cbn [Cli.split]; [now repeat constructor|].
  destruct (Ascii.eqb c sep) eqn:E; [now constructor|].
  destruct (Cli.split sep s) as [|piece pieces].
  { constructor; [|constructor]. cbn [Py.has_char]. now rewrite E. }
  apply Forall_cons_1 in IH as [Hp Hps]. constructor; [|exact Hps].
  cbn [Py.has_char]. now rewrite E, Hp.
Qed.

Lemma split_free (sep : ascii) (x : string) :
  Py.has_char sep x = false -> Cli.split sep x = [x].
Proof.
  induction x as [|c x IH]; [reflexivity|]. cbn [Py.has_char Cli.split].
  intros H. apply orb_false_iff in H as [Hc Hx]. now rewrite Hc, (IH Hx).
Qed.

Lemma split_app (sep : ascii) (x rest : string) :
  Py.has_char sep x = false ->
  Cli.split sep (x +:+ String sep rest) = x :: Cli.split sep rest.
Proof.
  induction x as [|c x IH]; intros H.
  - rewrite append_nil_l. cbn [Cli.split]. now rewrite Ascii.eqb_refl.
  - cbn [Py.has_char] in H. apply orb_false_iff in H as [Hc Hx].
    rewrite append_cons. cbn [Cli.split]. now rewrite Hc, (IH Hx).
Qed.

Lemma split_join (sep : ascii) (x : string) (xs : list string) :
  Forall (fun piece => Py.has_char sep piece = false) (x :: xs) ->
  Cli.split sep (String.concat (String sep "") (x :: xs)) = x :: xs.
Proof.
  revert x. induction xs as [|y xs IH]; intros x H.
  - apply split_free. now apply Forall_cons_1 in H as [H _].
  - apply Forall_cons_1 in H as [Hx H].
    change (String.concat (String sep "") (x :: y :: xs))
      with (x +:+ String sep (String.concat (String sep "") (y :: xs))).
    rewrite (split_app sep x _ Hx). f_equal. now apply IH.
Qed.

(** The pieces of a string of separators and characters of one kind are
    made of characters of that kind. *)
Lemma split_kind (sep : ascii) (Q : ascii -> Prop) (s : string) :
  Forall (fun c => c = sep \/ Q c) (list_ascii_of_string s) ->
  Forall (fun piece => Forall Q (list_ascii_of_string piece))
    (Cli.split sep s).
Proof.
  induction s as [|c s IH]; cbn [list_ascii_of_string Cli.split]; intros H.
  - repeat constructor.
  - apply Forall_cons_1 in H as [Hc H]. specialize (IH H).
    destruct (Ascii.eqb_spec c sep) as [->|Hne].
    + constructor; [constructor | exact IH].
    + destruct Hc as [Hc|Hc]; [contradiction|].
      destruct (Cli.split sep s) as [|piece pieces].
      * repeat constructor. exact Hc.
      * apply Forall_cons_1 in IH as [Hp Hps].
        constructor; [|exact Hps]. cbn [list_ascii_of_string]. now constructor.
Qed.

Lemma nonempty_true (s : string) : Py.nonempty s = true <-> s <> "".
Proof. destruct s; cbn; split; congruence. Qed.

Lemma parse_ignore_patterns_clean (patterns_str : string) :
  Forall Cli.clean (Cli.parse_ignore_patterns patterns_str).
Proof.
  unfold Cli.parse_ignore_patterns.
  destruct (Py.nonempty patterns_str); cbn [negb]; [|constructor].
  pose proof (split_pieces "," patterns_str) as Hpieces.
  induction Hpieces as [|piece pieces Hp _ IH]; cbn [List.filter map];
    [constructor|].
  destruct (Py.nonempty (Cli.strip piece)) eqn:E; [|exact IH].
  cbn [map]. constructor; [|exact IH]. repeat split.
  - now apply nonempty_true.
  - now apply cli_strip_no_char.
  - apply cli_strip_idempotent.
Qed.

Lemma clean_kept (patterns : list string) :
  Forall Cli.clean patterns ->
  map Cli.strip
    (List.filter (fun pattern => Py.nonempty (Cli.strip pattern)) patterns)
  = patterns.
Proof.
  induction 1 as [|p ps (Hp & _ & Hs) _ IH]; [reflexivity|].
  cbn [List.filter]. rewrite Hs. apply nonempty_true in Hp. rewrite Hp.
  cbn [map]. now rewrite Hs, IH.
Qed.

End CommandLine.

(** X1. Every pattern [parse_ignore_patterns] returns is non-empty, has no
    comma and has no white space at either end. *)
Theorem X1_parsed_patterns_are_clean (patterns_str : string) :
  Forall (fun pattern =>
            pattern <> ""
            /\ Py.has_char "," pattern = false
            /\ Cli.strip pattern = pattern)
    (Cli.parse_ignore_patterns patterns_str).
Proof. exact (parse_ignore_patterns_clean patterns_str). Qed.

(** X2. Patterns that are non-empty, free of commas and of white space at
    their ends come back from [parse_ignore_patterns] when they are joined
    with commas, in the same order. *)
Theorem X2_parse_join_round_trip (patterns : list string) :
  Forall Cli.clean patterns ->
  Cli.parse_ignore_patterns (Py.join "," patterns) = patterns.
Proof.
  intros Hclean. destruct patterns as [|x xs]; [reflexivity|].
  unfold Cli.parse_ignore_patterns, Py.join.
  assert (Hne : Py.nonempty (String.concat "," (x :: xs)) = true).
  { apply Forall_cons_1 in Hclean as [(Hx & _) _].
    destruct x as [|c x]; [contradiction|]. now destruct xs. }
  rewrite Hne. cbn [negb].
  rewrite split_join
    by (eapply Forall_impl; [exact Hclean | now intros p (_ & Hp & _)]).
  now apply clean_kept.
Qed.

Lemma X2_parse_join_round_trip_witness :
  Cli.parse_ignore_patterns "*.log,temp,x y" = [ "*.log"; "temp"; "x y" ].
Proof.
  refine (X2_parse_join_round_trip [ "*.log"; "temp"; "x y" ] _).
  repeat (apply Forall_cons_2;
          [split; [discriminate | split; reflexivity]|]).
  apply Forall_nil_2.
Defined.

(** X3. The archiver [main] builds never has an empty list of ignore
    patterns and never has the empty pattern, whatever the [--ignore]
    argument. *)
Theorem X3_main_archiver_patterns (ignore : string) (max_size : Z)
    (binary : bool) :
  ignore_patterns (Cli.main_archiver ignore max_size binary) <> []
  /\ Forall (fun pattern => pattern <> "")
       (ignore_patterns (Cli.main_archiver ignore max_size binary)).
Proof.
  unfold Cli.main_archiver, __init__. cbn [ignore_patterns].
  pose proof (parse_ignore_patterns_clean ignore) as Hclean.
  destruct (Cli.parse_ignore_patterns ignore) as [|p ps].
  - split; [discriminate|]. unfold DEFAULT_IGNORE_PATTERNS.
    repeat (apply Forall_cons_2; [discriminate|]). apply Forall_nil_2.
  - split; [discriminate|].
    eapply Forall_impl; [exact Hclean | now intros q (Hq & _)].
Qed.

(** X4. An [--ignore] argument made of commas and white space only gives the
    archiver of the default patterns, as the empty argument does. *)
Theorem X4_blank_ignore_is_default (ignore : string) (max_size : Z)
    (binary : bool) :
  Forall (fun c => c = ","%char
                   \/ Py.isspace (Z.of_N (N_of_ascii c)) = true)
    (list_ascii_of_string ignore) ->
  Cli.main_archiver ignore max_size binary = __init__ None max_size binary.
Proof.
  intros Hblank. unfold Cli.main_archiver.
  assert (Hparse : Cli.parse_ignore_patterns ignore = []).
  { unfold Cli.parse_ignore_patterns.
    destruct (Py.nonempty ignore); cbn [negb]; [|reflexivity].
    pose proof (split_kind "," _ ignore Hblank) as Hpieces.
    induction Hpieces as [|piece pieces Hp _ IH]; [reflexivity|].
    cbn [List.filter]. rewrite cli_strip_blank; [exact IH|].
    unfold Py.codepoints. induction Hp as [|c cs Hc _ IHp]; cbn [map];
      now constructor. }
  now rewrite Hparse.
Qed.

Lemma X4_blank_ignore_is_default_witness :
  Cli.main_archiver " , ,," 4096 true = __init__ None 4096 true.
Proof.
  refine (X4_blank_ignore_is_default " , ,," 4096 true _).
  repeat (apply Forall_cons_2; [first [now left | now right]|]).
  apply Forall_nil_2.
Defined.

(** ** More on the ignore filter *)

Section IgnoreFilterMore.

Lemma join_ends_with_last (sep x : string) (xs : list string) :
  exists a, Py.join sep (x :: xs) = a +:+ List.last (x :: xs) "".
Proof.
  unfold Py.join. revert x. induction xs as [|y xs IH]; intros x.
  - now exists "".
  - destruct (IH y) as [a Ha].
    change (String.concat sep (x :: y :: xs))
      with (x +:+ sep +:+ String.concat sep (y :: xs)).
    change (List.last (x :: y :: xs) "") with (List.last (y :: xs) "").
    exists (x +:+ sep +:+ a). now rewrite Ha, !append_assoc.
Qed.

(** The string of a path ends with the name of the path. *)
Lemma path_str_ends_with_name (p : Path) :
  exists a, path_str p = a +:+ path_name p.
Proof.
  destruct p as [anchor [|x xs]].
  - exists (path_str (PosixPath anchor [])). symmetry. apply append_nil_r.
  - destruct (join_ends_with_last "/" x xs) as [a Ha].
    exists (anchor_str anchor +:+ a). unfold path_name. cbn [path_parts].
    rewrite append_assoc, <- Ha. now destruct anchor.
Qed.

Lemma name_in_path_str (p : Path) :
  Py.contains (path_name p) (path_str p) = true.
Proof.
  destruct (path_str_ends_with_name p) as [a Ha]. apply contains_spec.
  exists a, "". now rewrite append_nil_r.
Qed.

Lemma should_ignore_loop_literal (patterns : list string) (p : Path) :
  Forall (fun pattern => Py.has_char "*" pattern = false) patterns ->
  should_ignore_loop patterns (path_str p) (path_name p)
  = Return (existsb (fun pattern => Py.contains pattern (path_str p)) patterns).
Proof.
  induction 1 as [|pattern rest Hp _ IH]; [reflexivity|].
  cbn [should_ignore_loop existsb].
  destruct (Py.contains pattern (path_str p)) eqn:E; [reflexivity|].
  unfold _match_pattern. rewrite Hp. cbn [mbind result_bind].
  destruct (String.eqb_spec (path_name p) pattern) as [<-|_]; [|exact IH].
  now rewrite name_in_path_str in E.
Qed.

Lemma should_ignore_loop_hit (patterns : list string) (pattern s name : string) :
  Forall (fun pattern => pattern_modelled pattern = true) patterns ->
  In pattern patterns ->
  Py.contains pattern s = true ->
  should_ignore_loop patterns s name = Return true.
Proof.
  induction 1 as [|q rest Hq _ IH]; intros Hin Hc; [contradiction|].
  cbn [should_ignore_loop]. destruct (Py.contains q s) eqn:E; [reflexivity|].
  destruct Hin as [->|Hin]; [congruence|].
  destruct (match_pattern_modelled name q Hq) as [b ->].
  cbn [mbind result_bind]. destruct b; [reflexivity | now apply IH].
Qed.

(** Below a path other than [.], the string of the path goes on. *)
Lemma path_str_descends (p q : Path) :
  p <> PosixPath Relative [] ->
  descends p q ->
  exists b, path_str q = path_str p +:+ b.
Proof.
  intros Hp [ext ->]. induction ext as [|name ext IH] using rev_ind.
  - exists "". rewrite app_nil_r, append_nil_r. now destruct p.
  - destruct IH as [b Hb].
    assert (Hstep : exists c,
               path_str (PosixPath (path_anchor p)
                           (path_parts p ++ ext ++ [name]))
               = path_str (PosixPath (path_anchor p) (path_parts p ++ ext))
                 +:+ c).
    { rewrite app_assoc.
      destruct (path_parts p ++ ext) as [|x xs] eqn:E.
      - apply app_eq_nil in E as [Ep _].
        destruct p as [[] parts]; cbn in Ep; subst parts;
          [contradiction | now exists name | now exists name].
      - change ((x :: xs) ++ [name]) with (x :: (xs ++ [name])).
        assert (Hstr : forall a parts', path_str (PosixPath a (x :: parts'))
                         = anchor_str a +:+ Py.join "/" (x :: parts'))
          by (intros a parts'; now destruct a).
        rewrite !Hstr.
        change (x :: (xs ++ [name])) with ((x :: xs) ++ [name]).
        rewrite join_snoc, <- append_assoc. now exists (String "/" name). }
    destruct Hstep as [c Hc]. exists (b +:+ c).
    now rewrite Hc, Hb, append_assoc.
Qed.

End IgnoreFilterMore.

(** X5. When no configured pattern has a [*], the filter ignores a path
    exactly when one of the patterns occurs in the string of the path: the
    comparison of the name with the pattern adds nothing. *)
Theorem X5_literal_patterns_are_substrings (self : CodebaseArchiver)
    (path : Path) :
  Forall (fun pattern => Py.has_char "*" pattern = false)
    (ignore_patterns self) ->
  _should_ignore self path
  = Return (existsb (fun pattern => Py.contains pattern (path_str path))
              (ignore_patterns self)).
Proof. intros H. unfold _should_ignore. now apply should_ignore_loop_literal. Qed.

Lemma X5_literal_patterns_are_substrings_witness :
  _should_ignore (with_patterns default_archiver [ "build"; ".cache" ])
    (PosixPath Rooted ["srv"; "proj"; "rebuild.sh"])
  = Return true.
Proof.
  refine (X5_literal_patterns_are_substrings
            (with_patterns default_archiver [ "build"; ".cache" ])
            (PosixPath Rooted ["srv"; "proj"; "rebuild.sh"]) _).
  repeat (apply Forall_cons_2; [reflexivity|]). apply Forall_nil_2.
Defined.

(** X6. When a configured pattern occurs in the string of a path other than
    [.], the filter ignores every path below it, under modelled patterns. *)
Theorem X6_substring_hit_is_inherited (self : CodebaseArchiver)
    (pattern : string) (path below : Path) :
  modelled self ->
  In pattern (ignore_patterns self) ->
  Py.contains pattern (path_str path) = true ->
  path <> PosixPath Relative [] ->
  descends path below ->
  _should_ignore self below = Return true.
Proof.
  intros Hm Hin Hc Hp Hd. unfold _should_ignore.
  apply (should_ignore_loop_hit _ pattern); [exact Hm | exact Hin |].
  destruct (path_str_descends path below Hp Hd) as [b ->].
  apply contains_spec in Hc as (a & c & ->). apply contains_spec.
  exists a, (c +:+ b). now rewrite !append_assoc.
Qed.

Lemma X6_substring_hit_is_inherited_witness :
  _should_ignore default_archiver
    (PosixPath Rooted ["srv"; "proj"; ".git"; "objects"; "pack"])
  = Return true.
Proof.
  refine (X6_substring_hit_is_inherited default_archiver ".git"
            (PosixPath Rooted ["srv"; "proj"; ".git"])
            (PosixPath Rooted ["srv"; "proj"; ".git"; "objects"; "pack"])
            _ _ _ _ _).
  - repeat (apply Forall_cons_2; [vm_compute; reflexivity|]). apply Forall_nil_2.
  - cbn. tauto.
  - reflexivity.
  - discriminate.
  - now exists [ "objects"; "pack" ].
Defined.

(** X7. A path the filter ignores stays ignored when patterns are added
    after the configured ones. *)
Theorem X7_more_patterns_ignore_more (self : CodebaseArchiver)
    (patterns more : list string) (path : Path) :
  _should_ignore (with_patterns self patterns) path = Return true ->
  _should_ignore (with_patterns self (patterns ++ more)) path = Return true.
Proof.
  unfold _should_ignore, with_patterns. cbn [ignore_patterns].
  induction patterns as [|pattern rest IH]; [discriminate|].
  cbn [app should_ignore_loop].
  destruct (Py.contains pattern (path_str path)); [reflexivity|].
  destruct (_match_pattern (path_name path) pattern) as [[]|e];
    cbn [mbind result_bind]; [reflexivity | exact IH | discriminate].
Qed.

Lemma X7_more_patterns_ignore_more_witness :
  _should_ignore (with_patterns default_archiver [ "*.bak"; "dist"; "*(" ])
    (PosixPath Rooted ["srv"; "proj"; "notes.bak"])
  = Return true.
Proof.
  refine (X7_more_patterns_ignore_more default_archiver [ "*.bak" ]
            [ "dist"; "*(" ] (PosixPath Rooted ["srv"; "proj"; "notes.bak"]) _).
  reflexivity.
Defined.

(** ** More on the classifier *)

Section ClassifierMore.
Import FileTypeDetector.

Lemma lookup_table_tags (t : table) (k v : string) :
  t !! k = Some v -> v ∈ table_tags t.
Proof.
  intros H. unfold table_tags. apply list_elem_of_fmap.
  exists (k, v). split; [reflexivity|]. now apply elem_of_map_to_list.
Qed.

Lemma by_extension_tags (ts : list table) (suffix v : string) :
  by_extension ts suffix = Some v -> v ∈ flat_map table_tags ts.
Proof.
  induction ts as [|t ts IH]; cbn [by_extension flat_map]; [discriminate|].
  destruct (t !! suffix) eqn:E.
  - intros [= <-]. apply elem_of_app. left. now apply (lookup_table_tags t suffix).
  - intros H. apply elem_of_app. right. now apply IH.
Qed.

Lemma by_mime_tags (m : option string) (v : string) :
  by_mime m = Some v -> v ∈ [ "text"; "image"; "audio"; "video"; "binary" ].
Proof.
  unfold by_mime. destruct m as [m|]; [|discriminate].
  repeat match goal with
         | |- context [if ?b then _ else _] => destruct b
         end; intros [= <-]; set_solver.
Qed.

Lemma rfind_none (c : ascii) (s : string) :
  Py.has_char c s = false -> Py.rfind c s = None.
Proof.
  induction s as [|a s IH]; [reflexivity|]. cbn [Py.has_char Py.rfind].
  intros H. apply orb_false_iff in H as [Ha Hs]. now rewrite (IH Hs), Ha.
Qed.

Lemma path_suffix_by_name (p q : Path) :
  path_name p = path_name q -> path_suffix p = path_suffix q.
Proof. intros H. unfold path_suffix. now rewrite H. Qed.

End ClassifierMore.

(** X8. The tag the classifier returns is one of the tags of its tables or
    of the five MIME categories, or it is [unknown] followed by the
    lower-case extension of the name. *)
Theorem X8_tags_are_documented (h : Host) (file_path : Path) :
  FileTypeDetector.detect_type h file_path ∈ TABLE_AND_MIME_TAGS
  \/ FileTypeDetector.detect_type h file_path
     = "unknown" +:+ Py.lower (path_suffix file_path).
Proof.
  unfold FileTypeDetector.detect_type, TABLE_AND_MIME_TAGS.
  destruct (FileTypeDetector.SPECIAL_FILES !! path_name file_path) eqn:E1.
  { left. apply elem_of_app. left. now apply lookup_table_tags in E1. }
  destruct (FileTypeDetector.by_extension _ _) eqn:E2.
  { left. apply elem_of_app. right. apply elem_of_app. left.
    now apply by_extension_tags in E2. }
  destruct (FileTypeDetector.by_mime _) eqn:E3.
  { left. apply elem_of_app. right. apply elem_of_app. right.
    now apply by_mime_tags in E3. }
  right. now destruct (Py.lower (path_suffix file_path)).
Qed.

(** X9. When the name is a special file name or its extension is in a
    table, the tag depends on the name alone: not on the directory, not on
    the MIME types of the host. *)
Theorem X9_table_tag_by_name_alone (h h' : Host) (p q : Path) :
  path_name p = path_name q ->
  is_Some (FileTypeDetector.SPECIAL_FILES !! path_name p)
  \/ is_Some (FileTypeDetector.by_extension FileTypeDetector.EXTENSION_TABLES
                (Py.lower (path_suffix p))) ->
  FileTypeDetector.detect_type h p = FileTypeDetector.detect_type h' q.
Proof.
  intros Hname Hrec. unfold FileTypeDetector.detect_type.
  rewrite <- (path_suffix_by_name p q Hname), <- Hname.
  destruct (FileTypeDetector.SPECIAL_FILES !! path_name p); [reflexivity|].
  destruct Hrec as [[v Hv]|[v Hv]]; [discriminate|]. now rewrite Hv.
Qed.

Lemma X9_table_tag_by_name_alone_witness :
  FileTypeDetector.detect_type bare_host
    (PosixPath Rooted ["srv"; "proj"; "Main.JAVA"])
  = FileTypeDetector.detect_type
      {| guess_type := fun _ => Some "text/x-java";
         now_isoformat := ""; absolute := path_str |}
      (PosixPath Relative ["Main.JAVA"]).
Proof.
  refine (X9_table_tag_by_name_alone bare_host _
            (PosixPath Rooted ["srv"; "proj"; "Main.JAVA"])
            (PosixPath Relative ["Main.JAVA"]) _ _).
  - reflexivity.
  - right. vm_compute. eauto.
Defined.

(** X10. A name that starts with a dot and has no other dot has no
    extension for the classifier: unless it is a special file name it gets
    the tag of its MIME category, and [unknown] without one.  The entries of
    the configuration table for [.gitignore], [.env] and the like are thus
    never found for files of these names. *)
Theorem X10_dot_files_have_no_extension (h : Host) (file_path : Path)
    (rest : string) :
  path_name file_path = String "." rest ->
  Py.has_char "." rest = false ->
  FileTypeDetector.SPECIAL_FILES !! path_name file_path = None ->
  path_suffix file_path = ""
  /\ FileTypeDetector.detect_type h file_path
     = default "unknown"
         (FileTypeDetector.by_mime (guess_type h (path_str file_path))).
Proof.
  intros Hname Hrest Hspecial.
  assert (Hsuffix : path_suffix file_path = "").
  { unfold path_suffix. rewrite Hname. cbn [Py.rfind].
    now rewrite (rfind_none _ _ Hrest). }
  split; [exact Hsuffix|].
  unfold FileTypeDetector.detect_type. rewrite Hspecial, Hsuffix.
  now destruct (FileTypeDetector.by_mime _).
Qed.

Lemma X10_dot_files_have_no_extension_witness :
  path_suffix (PosixPath Rooted ["srv"; "proj"; ".gitignore"]) = ""
  /\ FileTypeDetector.detect_type bare_host
       (PosixPath Rooted ["srv"; "proj"; ".gitignore"]) = "unknown".
Proof.
  refine (X10_dot_files_have_no_extension bare_host
            (PosixPath Rooted ["srv"; "proj"; ".gitignore"]) "gitignore" _ _ _);
    reflexivity.
Defined.

(** ** More on the sanitizer and the line count *)

Section ContentMore.

Lemma clean_legal (content : list Z) :
  Forall legal_code_point (_clean_xml_content content).
Proof.
  rewrite clean_xml_content_map.
  induction content as [|c content IH]; cbn [map]; constructor; [|exact IH].
  destruct (decide (legal_code_point c)); [assumption|].
  apply replacement_legal.
Qed.

Lemma clean_of_legal (content : list Z) :
  Forall legal_code_point content -> _clean_xml_content content = content.
Proof.
  rewrite clean_xml_content_map.
  induction 1 as [|c content Hc _ IH]; [reflexivity|].
  cbn [map]. rewrite IH. now destruct (decide (legal_code_point c)).
Qed.

(** One step of the count. *)
Lemma count_splitlines_cons (open : bool) (c : Z) (t : list Z) :
  Py.count_splitlines open (c :: t)
  = if Py.is_linebreak c then
      match t with
      | d :: u =>
          if (c =? 13) && (d =? 10)
          then (1 + Py.count_splitlines false u)%N
          else (1 + Py.count_splitlines false t)%N
      | [] => (1 + Py.count_splitlines false t)%N
      end
    else Py.count_splitlines true t.
Proof.
  cbn [Py.count_splitlines]. destruct (Py.is_linebreak c); [|reflexivity].
  destruct (Z.eqb_spec c 13) as [->|Hc].
  - destruct t as [|d u]; [reflexivity|]. cbn [andb].
    destruct (Z.eqb_spec d 10) as [->|Hd]; [reflexivity|].
    destruct d as [|p|p]; try reflexivity.
    repeat (destruct p as [p|p|]; try reflexivity). congruence.
  - destruct t as [|d u]; cbn [andb];
      (destruct c as [|p|p]; try reflexivity;
       repeat (destruct p as [p|p|]; try reflexivity); congruence).
Qed.

(** The two bounds on the number of lines, with the state of the line at
    hand. *)
Lemma count_splitlines_bounds (n : nat) :
  forall (t : list Z) (open : bool),
  (length t <= n)%nat ->
  ((if open then 1 else if Py.truthy t then 1 else 0)
   <= Py.count_splitlines open t
   <= N.of_nat (length t) + (if open then 1 else 0))%N.
Proof.
  induction n as [|n IH]; intros t open Hlen.
  - destruct t; [|cbn in Hlen; lia]. destruct open; cbn; lia.
  - destruct t as [|c t]; [destruct open; cbn; lia|].
    cbn [length] in Hlen. rewrite count_splitlines_cons. cbn [Py.truthy].
    destruct (Py.is_linebreak c).
    + pose proof (IH t false ltac:(lia)) as Hone.
      destruct t as [|d u]; [cbn in Hone |- *; destruct open; lia|].
      pose proof (IH u false ltac:(cbn [length] in Hlen; lia)) as Htwo.
      cbn [length Py.truthy] in Hone, Htwo |- *.
      cbv beta iota in Hone, Htwo.
      destruct ((c =? 13) && (d =? 10)); destruct open;
        destruct (Py.truthy u); lia.
    + pose proof (IH t true ltac:(lia)) as Hone. cbn [length].
      cbv beta iota in Hone. destruct open; lia.
Qed.

End ContentMore.

(** X11. Cleaning content a second time changes nothing, and content is
    left as it is exactly when all its code points are legal. *)
Theorem X11_sanitizer_idempotent (content : list Z) :
  _clean_xml_content (_clean_xml_content content) = _clean_xml_content content
  /\ (_clean_xml_content content = content <-> Forall legal_code_point content).
Proof.
  split; [apply clean_of_legal, clean_legal|]. split.
  - intros <-. apply clean_legal.
  - apply clean_of_legal.
Qed.

(** X12. Cleaning works piece by piece: the cleaned concatenation of two
    contents is the concatenation of the cleaned contents. *)
Theorem X12_sanitizer_concatenation (a b : list Z) :
  _clean_xml_content (a ++ b) = _clean_xml_content a ++ _clean_xml_content b.
Proof. rewrite !clean_xml_content_map. apply map_app. Qed.

(** X13. The line count is zero for empty content only, and for other
    content it is at least one and at most the number of code points. *)
Theorem X13_line_count_bounds (content : list Z) :
  (_count_lines content = 0 <-> content = [])
  /\ (content <> [] ->
      1 <= _count_lines content <= Z.of_nat (length content)).
Proof.
  pose proof (count_splitlines_bounds (length content) content false
                (Nat.le_refl _)) as H.
  unfold _count_lines. destruct content as [|c content].
  - split; [now split|]. now intros [].
  - cbn [Py.truthy] in H |- *. split; [|intros _; lia].
    split; [lia | discriminate].
Qed.

Lemma X13_line_count_bounds_witness :
  1 <= _count_lines (Py.codepoints "print(1)")
    <= Z.of_nat (length (Py.codepoints "print(1)")).
Proof.
  refine (proj2 (X13_line_count_bounds (Py.codepoints "print(1)")) _).
  discriminate.
Defined.

(** ** The permission bits *)

Section Permissions.

Lemma length_append (a b : string) :
  String.length (a +:+ b) = (String.length a + String.length b)%nat.
Proof.
  induction a as [|c a IH]; [reflexivity|].
  rewrite append_cons. cbn [String.length]. now rewrite IH.
Qed.

Lemma drop_append (a b : string) : Py.drop (String.length a) (a +:+ b) = b.
Proof.
  induction a as [|c a IH]; [now destruct b|].
  rewrite append_cons. exact IH.
Qed.

Lemma drop_length (i : nat) (s : string) :
  String.length (Py.drop i s) = (String.length s - i)%nat.
Proof.
  revert s. induction i as [|i IH]; intros s; [cbn; lia|].
  destruct s as [|c s]; [reflexivity|]. cbn [Py.drop String.length]. apply IH.
Qed.

(** The digits are written before what is there, the last digit first. *)
Lemma oct_digits_shape (fuel : nat) :
  forall (n : N) (acc : string),
  exists pre,
    Py.oct_digits fuel n acc
    = pre +:+ String (octal_digit (n mod 8)) acc.
Proof.
  unfold octal_digit.
  induction fuel as [|fuel IH]; intros n acc; cbn [Py.oct_digits].
  - now exists "".
  - destruct (n <? 8)%N; [now exists ""|].
    destruct (IH (n / 8)%N (String (ascii_of_N (48 + n mod 8)) acc))
      as [pre ->].
    exists (pre +:+ String (ascii_of_N (48 + (n / 8) mod 8)) "").
    now rewrite append_assoc.
Qed.

Lemma last3_append (a : string) (x y z : ascii) :
  Py.last3 (a +:+ String x (String y (String z "")))
  = String x (String y (String z "")).
Proof.
  unfold Py.last3. rewrite length_append. cbn [String.length].
  replace (String.length a + 3 - 3)%nat with (String.length a) by lia.
  apply drop_append.
Qed.

Lemma last3_length (s : string) :
  (3 <= String.length s)%nat -> String.length (Py.last3 s) = 3%nat.
Proof. intros H. unfold Py.last3. rewrite drop_length. lia. Qed.

Lemma oct_length (n : N) : (3 <= String.length (Py.oct n))%nat.
Proof.
  unfold Py.oct. destruct (oct_digits_shape (N.to_nat (N.size n)) n "")
    as [pre ->].
  rewrite !length_append. cbn [String.length]. lia.
Qed.

Lemma oct_three_digits (n : N) :
  (64 <= n)%N ->
  exists pre,
    Py.oct n
    = pre +:+ String (octal_digit ((n / 64) mod 8))
                (String (octal_digit ((n / 8) mod 8))
                   (String (octal_digit (n mod 8)) "")).
Proof.
  intros Hn. unfold Py.oct. pose proof oct_digits_shape as Hshape.
  unfold octal_digit in *.
  assert (Hsize : (2 <= N.to_nat (N.size n))%nat).
  { pose proof (N.size_gt n) as Hgt.
    destruct (N.le_gt_cases 2 (N.size n)) as [H|H]; [lia|].
    assert (Hpow : (2 ^ N.size n <= 2 ^ 1)%N) by (apply N.pow_le_mono_r; lia).
    change (2 ^ 1)%N with 2%N in Hpow. lia. }
  destruct (N.to_nat (N.size n)) as [|[|fuel]]; [lia | lia |].
  cbn [Py.oct_digits].
  assert (H8 : (n <? 8)%N = false) by (apply N.ltb_ge; lia).
  assert (H64 : (n / 8 <? 8)%N = false).
  { apply N.ltb_ge. apply N.div_le_lower_bound; lia. }
  rewrite H8, H64.
  destruct (Hshape fuel (n / 8 / 8)%N
              (String (ascii_of_N (48 + (n / 8) mod 8))
                 (String (ascii_of_N (48 + n mod 8)) ""))) as [pre ->].
  exists ("0o" +:+ pre). rewrite N.Div0.div_div. now rewrite append_assoc.
Qed.

End Permissions.

(** X14. The [permissions] entry of the file statistics always has three
    characters, and for a mode of at least [0o100], as every mode with its
    file-type bits is, they are the octal digits of the nine permission bits:
    owner, group, others. *)
Theorem X14_permissions_are_three_octal_digits (f : FileData)
    (st : stat_result) :
  f_stat f = Ok st ->
  (exists perms,
     get_attr "permissions" (_get_file_stats f) = Some perms
     /\ String.length perms = 3%nat)
  /\ ((64 <= st_mode st)%N ->
      get_attr "permissions" (_get_file_stats f)
      = Some (String (octal_digit ((st_mode st / 64) mod 8))
                (String (octal_digit ((st_mode st / 8) mod 8))
                   (String (octal_digit (st_mode st mod 8)) "")))).
Proof.
  intros Hstat. unfold _get_file_stats. rewrite Hstat.
  cbn [get_attr String.eqb Ascii.eqb Bool.eqb]. split.
  - eexists. split; [reflexivity|]. apply last3_length, oct_length.
  - intros Hmode. destruct (oct_three_digits _ Hmode) as [pre ->].
    now rewrite last3_append.
Qed.

Lemma X14_permissions_are_three_octal_digits_witness :
  get_attr "permissions" (_get_file_stats (readable (plain_stat 8) "print(1)"))
  = Some "644".
Proof.
  refine (proj2 (X14_permissions_are_three_octal_digits
                   (readable (plain_stat 8) "print(1)") (plain_stat 8) _) _).
  - reflexivity.
  - cbn. lia.
Defined.

(** ** More on the metadata extractor *)

Section MetadataMore.
Context (self : CodebaseArchiver) (h : Host).

Lemma extract_step_invariant (md md' : Metadata) (item : Path * Node) :
  histogram_invariant md ->
  extract_step self h md item = Return md' ->
  histogram_invariant md'.
Proof.
  intros [Hlang Hcount]. unfold extract_step.
  assert (Hsame : forall m, languages m = languages md ->
                            file_types m = file_types md ->
                            histogram_invariant m).
  { intros m Hl Hf. unfold histogram_invariant. rewrite Hl, Hf.
    split; [exact Hlang | exact Hcount]. }
  assert (Hreturn : forall m : Metadata, Return m = Return md' -> m = md').
  { intros m Hm.
    exact (f_equal (fun r => match r with Return x => x | Raise _ => md end)
             Hm). }
  destruct (_should_ignore self item.1) as [[]|e]; cbn [mbind result_bind];
    [intros Hmd; apply Hreturn in Hmd; subst md'; now apply Hsame
    | | discriminate].
  destruct item.2 as [name f|name entries|name|name];
    [ | intros Hmd; apply Hreturn in Hmd; subst md'; now apply Hsame ..].
  destruct (f_stat f) as [st|msg];
    [|intros Hmd; apply Hreturn in Hmd; subst md'; now apply Hsame].
  set (ft := FileTypeDetector.detect_type h item.1).
  intros Hmd. apply Hreturn in Hmd. subst md'.
  split; cbn [languages file_types total_files].
  - intros tag. destruct (decide (tag = ft)) as [->|Hne].
    + rewrite lookup_insert_eq. destruct (is_language ft) eqn:E.
      * rewrite elem_of_union, elem_of_singleton.
        split; [intros _; split; [reflexivity | eauto] | now right].
      * rewrite Hlang. split; intros [H _]; congruence.
    + rewrite lookup_insert_ne by congruence. rewrite <- Hlang.
      destruct (is_language ft); [|reflexivity].
      rewrite elem_of_union, elem_of_singleton. tauto.
  - intros tag count. destruct (decide (tag = ft)) as [->|Hne].
    + rewrite lookup_insert_eq. intros Hsome.
      assert (count = default 0 (file_types md !! ft) + 1) as ->
        by congruence.
      destruct (file_types md !! ft) as [v|] eqn:E.
      * specialize (Hcount _ _ E). change (1 <= v + 1). lia.
      * change (1 <= 0 + 1). lia.
    + rewrite lookup_insert_ne by congruence. apply Hcount.
Qed.

Lemma for_each_extract_invariant (items : list (Path * Node)) :
  forall md md',
  histogram_invariant md ->
  for_each (extract_step self h) items md = Return md' ->
  histogram_invariant md'.
Proof.
  induction items as [|item items IH]; intros md md' Hinv; cbn [for_each].
  - now intros [= <-].
  - destruct (extract_step self h md item) as [md1|e] eqn:E;
      cbn [mbind result_bind]; [|discriminate].
    apply IH. now apply (extract_step_invariant md md1 item).
Qed.

End MetadataMore.

(** X15. In the metadata the extractor returns, the languages are exactly
    the programming-language tags that have a bucket in the histogram of file
    types, and every bucket of the histogram counts at least one file. *)
Theorem X15_languages_follow_histogram (self : CodebaseArchiver) (h : Host)
    (codebase_path : Path) (root : Node) :
  modelled self ->
  exists md,
    _extract_metadata self h codebase_path root = Return md
    /\ (forall tag,
          tag ∈ languages md
          <-> is_language tag = true /\ is_Some (file_types md !! tag))
    /\ (forall tag count, file_types md !! tag = Some count -> 1 <= count).
Proof.
  intros Hm.
  destruct (extract_metadata_counts self h Hm codebase_path root)
    as (md & E & _).
  exists md. split; [exact E|].
  refine (for_each_extract_invariant self h _ _ md _ E).
  split; cbn [languages file_types].
  - intros tag. rewrite lookup_empty. split.
    + intros H. now apply elem_of_empty in H.
    + intros [_ [v Hv]]. discriminate.
  - intros tag count. rewrite lookup_empty. discriminate.
Qed.

Lemma X15_languages_follow_histogram_witness :
  exists md,
    _extract_metadata default_archiver bare_host
      (PosixPath Rooted ["srv"; "proj"]) sample_tree = Return md
    /\ (forall tag,
          tag ∈ languages md
          <-> is_language tag = true /\ is_Some (file_types md !! tag))
    /\ (forall tag count, file_types md !! tag = Some count -> 1 <= count).
Proof.
  refine (X15_languages_follow_histogram default_archiver bare_host
            (PosixPath Rooted ["srv"; "proj"]) sample_tree _).
  repeat (apply Forall_cons_2; [vm_compute; reflexivity|]). apply Forall_nil_2.
Defined.

(** ** More on the document *)

Section AssemblyMore.
Context (self : CodebaseArchiver) (h : Host).

Lemma get_set_attr_eq (key value : string) (attrib : list (string * string)) :
  get_attr key (set_attr key value attrib) = Some value.
Proof.
  induction attrib as [|[k v] attrib IH]; cbn [set_attr get_attr].
  - now rewrite String.eqb_refl.
  - destruct (String.eqb k key) eqn:E; cbn [get_attr]; now rewrite E.
Qed.

Lemma get_set_attr_ne (key key' value : string)
    (attrib : list (string * string)) :
  key <> key' ->
  get_attr key' (set_attr key value attrib) = get_attr key' attrib.
Proof.
  intros Hne. induction attrib as [|[k v] attrib IH]; cbn [set_attr get_attr].
  - now destruct (String.eqb_spec key key').
  - destruct (String.eqb_spec k key) as [->|Hk]; cbn [get_attr].
    + now destruct (String.eqb_spec key key').
    + now rewrite IH.
Qed.

(** The form of every element a file adds: the three attributes of the
    file and, in the children and the [lines] attribute, one of three
    cases. *)
Lemma file_elements_form (file_path : Path) (f : FileData) (e : Element) :
  In e (file_elements self h file_path f) ->
  elem_tag e = "file"
  /\ elem_text e = None
  /\ get_attr "name" (elem_attrib e) = Some (path_name file_path)
  /\ get_attr "path" (elem_attrib e) = Some (path_str file_path)
  /\ is_Some (get_attr "type" (elem_attrib e))
  /\ ((elem_children e = [] /\ get_attr "lines" (elem_attrib e) = None)
      \/ (exists content,
            f_read f = Ok content
            /\ elem_children e
               = [ Elem "content" [] (Some (_clean_xml_content content)) [] ]
            /\ get_attr "lines" (elem_attrib e)
               = Some (Py.str (_count_lines content)))
      \/ (exists note,
            elem_children e = [ text_elem "note" note ]
            /\ get_attr "lines" (elem_attrib e) = None)).
Proof.
  unfold file_elements, _get_file_stats.
  destruct (f_stat f) as [st|msg].
  - destruct ((st_size st <=? max_file_size self)
              && _is_text_file self h file_path f).
    + destruct (f_read f) as [content|msg].
      * destruct (Py.truthy (Py.strip content)).
        -- intros [<-|[]]. cbn [append set_ elem_tag elem_text elem_attrib
                                elem_children app].
           rewrite !get_set_attr_ne by discriminate. rewrite get_set_attr_eq.
           repeat split; eauto; try (right; left; now exists content).
        -- intros [<-|[]]; repeat split; eauto.
      * intros [<-|[]]; repeat split; eauto; try (right; right; eauto).
    + intros [<-|[]]; repeat split; eauto; try (right; right; eauto).
  - intros [<-|[<-|[]]]; repeat split; eauto; try (right; right; eauto).
Qed.

Lemma file_elements_nonempty (file_path : Path) (f : FileData) :
  file_elements self h file_path f <> [].
Proof.
  unfold file_elements. destruct (f_stat f); [|discriminate].
  destruct (_ && _); [|discriminate].
  destruct (f_read f); [|discriminate].
  destruct (Py.truthy _); discriminate.
Qed.

Lemma file_elements_length (file_path : Path) (f : FileData) :
  length (file_elements self h file_path f)
  = match f_stat f with Ok _ => 1%nat | OSError _ => 2%nat end.
Proof.
  unfold file_elements. destruct (f_stat f); [|reflexivity].
  destruct (_ && _); [|reflexivity].
  destruct (f_read f); [|reflexivity].
  now destruct (Py.truthy _).
Qed.

Lemma in_emitted (item : Path * Node) (e : Element) :
  In e (emitted self h item)
  <-> exists name f,
        item.2 = File name f
        /\ not_ignored self item.1 = true
        /\ In e (file_elements self h item.1 f).
Proof.
  unfold emitted. destruct item.2 as [name f|name entries|name|name].
  - destruct (not_ignored self item.1).
    + split; [intros H; now exists name, f|].
      now intros (name' & f' & [= <- <-] & _ & H).
    + split; [intros [] | now intros (? & ? & _ & ? & _)].
  - split; [intros [] | now intros (? & ? & ? & _)].
  - split; [intros [] | now intros (? & ? & ? & _)].
  - split; [intros [] | now intros (? & ? & ? & _)].
Qed.

Lemma emitted_length (items : list (Path * Node)) :
  Z.of_nat (length (flat_map (emitted self h) items))
  = tally is_file self items + tally stat_fails self items.
Proof.
  induction items as [|item items IH]; [reflexivity|].
  cbn [flat_map]. rewrite length_app, Nat2Z.inj_add, IH.
  unfold tally. cbn [foldr]. unfold emitted, stat_fails, is_file.
  destruct item.2 as [name f|name entries|name|name];
    destruct (not_ignored self item.1); cbn [andb length];
    rewrite ?file_elements_length; try lia.
  destruct (f_stat f); cbn; lia.
Qed.

(** [extract_step] leaves the name, the path and the time stamp alone. *)
Lemma for_each_extract_header (items : list (Path * Node)) :
  forall md md',
  for_each (extract_step self h) items md = Return md' ->
  md_name md' = md_name md /\ md_timestamp md' = md_timestamp md.
Proof.
  induction items as [|item items IH]; intros md md'; cbn [for_each].
  - intros Hmd.
    apply (f_equal (fun r => match r with Return x => x | Raise _ => md end))
      in Hmd. now subst.
  - destruct (extract_step self h md item) as [md1|e] eqn:E;
      cbn [mbind result_bind]; [|discriminate].
    intros H. apply IH in H as [-> ->].
    unfold extract_step in E.
    destruct (_should_ignore self item.1) as [[]|e]; cbn [mbind result_bind] in E;
      [ | | discriminate E].
    + apply (f_equal (fun r => match r with Return x => x | Raise _ => md end))
        in E. now subst.
    + destruct item.2 as [name f|name entries|name|name];
        [destruct (f_stat f)| | |];
        apply (f_equal (fun r => match r with Return x => x | Raise _ => md end))
          in E; now subst.
Qed.

End AssemblyMore.

Section DocumentMore.
Context (self : CodebaseArchiver) (h : Host).
Hypothesis patterns_modelled : modelled self.

(** The document of a directory, piece by piece. *)
Lemma archive_codebase_shape (codebase_path : Path) (root : Node) :
  is_dir root = true ->
  exists md t,
    _extract_metadata self h codebase_path root = Return md
    /\ _build_structure_tree self h codebase_path codebase_path root = Return t
    /\ archive_codebase self h codebase_path (Some root)
       = Return
           (Elem "codebase"
              [ ("name", path_name codebase_path);
                ("version", "1.0");
                ("timestamp", now_isoformat h) ]
              None
              [ metadata_element md;
                Elem "structure" [] None [ t ];
                Elem "files" [] None
                  (flat_map (emitted self h) (rglob codebase_path root)) ]).
Proof.
  intros Hdir. unfold archive_codebase. rewrite Hdir. cbn [negb].
  destruct (extract_metadata_counts self h patterns_modelled codebase_path root)
    as (md & E & _).
  destruct (build_structure_tree_ordered self h codebase_path
              patterns_modelled root codebase_path
              (descends_refl codebase_path)) as (t & Et & _).
  exists md, t. split; [exact E|]. split; [exact Et|].
  rewrite E, Et. cbn [mbind result_bind].
  rewrite (for_each_files_step self h patterns_modelled).
  cbn [mbind result_bind app].
  unfold _extract_metadata in E.
  apply for_each_extract_header in E as [-> ->]. reflexivity.
Qed.

(** The files section holds what the files of the walk that are not ignored
    add, and nothing else. *)
Lemma in_section_files (codebase_path : Path) (root : Node) :
  is_dir root = true ->
  exists doc,
    archive_codebase self h codebase_path (Some root) = Return doc
    /\ forall e,
         In e (section "files" doc)
         <-> exists p name f,
               In (p, File name f) (rglob codebase_path root)
               /\ not_ignored self p = true
               /\ In e (file_elements self h p f).
Proof.
  intros Hdir.
  destruct (archive_codebase_returns self h patterns_modelled codebase_path
              root Hdir) as (doc & E & Hsec & _).
  exists doc. split; [exact E|]. intros e. rewrite Hsec, in_flat_map. split.
  - intros ([p n] & Hin & He). apply in_emitted in He as (name & f & Hn & Hni & He).
    cbn [fst snd] in *. subst n. now exists p, name, f.
  - intros (p & name & f & Hin & Hni & He). exists (p, File name f).
    split; [exact Hin|]. apply in_emitted. now exists name, f.
Qed.

End DocumentMore.

(** X16. The files section has one element for each file the metadata
    counts, and one more for each counted file on which [stat] fails. *)
Theorem X16_files_section_size (self : CodebaseArchiver) (h : Host)
    (codebase_path : Path) (root : Node) :
  modelled self ->
  is_dir root = true ->
  exists doc md,
    archive_codebase self h codebase_path (Some root) = Return doc
    /\ _extract_metadata self h codebase_path root = Return md
    /\ Z.of_nat (length (section "files" doc))
       = total_files md + count_below stat_fails self codebase_path root.
Proof.
  intros Hm Hdir.
  destruct (archive_codebase_returns self h Hm codebase_path root Hdir)
    as (doc & E & Hsec & _).
  destruct (extract_metadata_counts self h Hm codebase_path root)
    as (md & Emd & Hfiles & _).
  exists doc, md. split; [exact E|]. split; [exact Emd|].
  now rewrite Hsec, emitted_length, !tally_rglob, Hfiles.
Qed.

Lemma X16_files_section_size_witness :
  exists doc md,
    archive_codebase default_archiver bare_host
      (PosixPath Rooted ["srv"; "proj"]) (Some sample_tree) = Return doc
    /\ _extract_metadata default_archiver bare_host
         (PosixPath Rooted ["srv"; "proj"]) sample_tree = Return md
    /\ Z.of_nat (length (section "files" doc)) = total_files md + 1.
Proof.
  refine (X16_files_section_size default_archiver bare_host
            (PosixPath Rooted ["srv"; "proj"]) sample_tree _ _).
  - repeat (apply Forall_cons_2; [vm_compute; reflexivity|]). apply Forall_nil_2.
  - reflexivity.
Defined.

Section Skeleton.
Context (self : CodebaseArchiver) (h : Host).






End Skeleton.



(** ** The elements of the files section *)

Section Blank.

Lemma lstrip_nil (t : list Z) :
  Py.lstrip t = [] -> Forall (fun c => Py.isspace c = true) t.
Proof.
  induction t as [|c t IH]; [intros _; apply Forall_nil_2|].
  cbn [Py.lstrip]. destruct (Py.isspace c) eqn:E; [|discriminate].
  intros H. apply Forall_cons_2; [exact E | exact (IH H)].
Qed.

Lemma rev_nil (A : Type) (l : list A) : rev l = [] -> l = [].
Proof.
  intros H. rewrite <- (rev_involutive l), H. reflexivity.
Qed.

(** [strip] leaves nothing only of a text of white space. *)
Lemma strip_nil (t : list Z) :
  Py.strip t = [] -> Forall (fun c => Py.isspace c = true) t.
Proof.
  unfold Py.strip. intros H. apply rev_nil, lstrip_nil in H.
  apply lstrip_nil.
  destruct (lstrip_head t) as [E | (c & u & E & Hc)]; [exact E|].
  rewrite E in H. cbn [rev] in H.
  apply List.Forall_app in H as [_ H]. inversion H as [|? ? Hs _]; subst.
  congruence.
Qed.

Lemma strip_truthy (t : list Z) :
  ~ Forall (fun c => Py.isspace c = true) t ->
  Py.truthy (Py.strip t) = true.
Proof.
  intros H. destruct (Py.strip t) eqn:E; [|reflexivity].
  destruct H. now apply strip_nil.
Qed.

End Blank.

Section FilesSection.
Context (self : CodebaseArchiver) (h : Host).

Lemma file_elements_skipped (file_path : Path) (f : FileData)
    (st : stat_result) :
  f_stat f = Ok st ->
  (st_size st <=? max_file_size self) && _is_text_file self h file_path f
  = false ->
  file_elements self h file_path f
  = [ append
        (text_elem "note"
           (if max_file_size self <? st_size st
            then "File too large (" +:+ Py.str (st_size st) +:+ " bytes)"
            else "Binary file - content skipped"))
        (plain_file_element h file_path f) ].
Proof.
  intros Hst Hskip. unfold file_elements. rewrite Hst, Hskip. reflexivity.
Qed.

Lemma file_elements_content (file_path : Path) (f : FileData)
    (st : stat_result) (content : list Z) :
  f_stat f = Ok st ->
  st_size st <= max_file_size self ->
  _is_text_file self h file_path f = true ->
  f_read f = Ok content ->
  ~ Forall (fun c => Py.isspace c = true) content ->
  file_elements self h file_path f
  = [ content_file_element file_path
        (FileTypeDetector.detect_type h file_path) st content ].
Proof.
  intros Hst Hsize Htext Hread Hblank. unfold file_elements.
  apply Z.leb_le in Hsize.
  rewrite Hst, Hsize, Htext, Hread, (strip_truthy content Hblank).
  unfold _get_file_stats. rewrite Hst. reflexivity.
Qed.

End FilesSection.

(** X18. Every element of the files section is a [file] element with the
    name and the path of a regular file of the walk that is not ignored, and
    every such file has an element with its path there. *)
Theorem X18_files_section_lists_the_files (self : CodebaseArchiver)
    (h : Host) (codebase_path : Path) (root : Node) :
  modelled self ->
  is_dir root = true ->
  exists doc,
    archive_codebase self h codebase_path (Some root) = Return doc
    /\ (forall e,
          In e (section "files" doc) ->
          elem_tag e = "file"
          /\ exists p name f,
               In (p, File name f) (rglob codebase_path root)
               /\ not_ignored self p = true
               /\ get_attr "name" (elem_attrib e) = Some (path_name p)
               /\ get_attr "path" (elem_attrib e) = Some (path_str p))
    /\ (forall p name f,
          In (p, File name f) (rglob codebase_path root) ->
          not_ignored self p = true ->
          exists e,
            In e (section "files" doc)
            /\ get_attr "path" (elem_attrib e) = Some (path_str p)).
Proof.
  intros Hm Hdir.
  destruct (in_section_files self h Hm codebase_path root Hdir)
    as (doc & E & Hsec).
  exists doc. split; [exact E|]. split.
  - intros e He. apply Hsec in He as (p & name & f & Hin & Hni & He).
    destruct (file_elements_form self h p f e He)
      as (Htag & _ & Hname & Hpath & _).
    split; [exact Htag|]. now exists p, name, f.
  - intros p name f Hin Hni.
    destruct (file_elements self h p f) as [|e es] eqn:Ees.
    + now destruct (file_elements_nonempty self h p f).
    + exists e. split.
      * apply Hsec. exists p, name, f. rewrite Ees.
        split; [exact Hin|]. split; [exact Hni|]. now left.
      * apply (file_elements_form self h p f e). rewrite Ees. now left.
Qed.

Lemma X18_files_section_lists_the_files_witness :
  exists doc,
    archive_codebase default_archiver bare_host
      (PosixPath Rooted ["srv"; "proj"]) (Some sample_tree) = Return doc
    /\ (forall e,
          In e (section "files" doc) ->
          elem_tag e = "file"
          /\ exists p name f,
               In (p, File name f)
                 (rglob (PosixPath Rooted ["srv"; "proj"]) sample_tree)
               /\ not_ignored default_archiver p = true
               /\ get_attr "name" (elem_attrib e) = Some (path_name p)
               /\ get_attr "path" (elem_attrib e) = Some (path_str p))
    /\ (forall p name f,
          In (p, File name f)
            (rglob (PosixPath Rooted ["srv"; "proj"]) sample_tree) ->
          not_ignored default_archiver p = true ->
          exists e,
            In e (section "files" doc)
            /\ get_attr "path" (elem_attrib e) = Some (path_str p)).
Proof.
  refine (X18_files_section_lists_the_files default_archiver bare_host
            (PosixPath Rooted ["srv"; "proj"]) sample_tree _ _).
  - repeat (apply Forall_cons_2; [vm_compute; reflexivity|]). apply Forall_nil_2.
  - reflexivity.
Defined.

(** X19. An element of the files section has no child, or one [content]
    child, or one [note] child, and it carries the attribute [lines] exactly
    when it has the [content] child. *)
Theorem X19_content_or_note (self : CodebaseArchiver) (h : Host)
    (codebase_path : Path) (root : Node) :
  modelled self ->
  is_dir root = true ->
  exists doc,
    archive_codebase self h codebase_path (Some root) = Return doc
    /\ forall e,
         In e (section "files" doc) ->
         (elem_children e = []
          \/ (exists text, elem_children e = [ Elem "content" [] (Some text) [] ])
          \/ (exists note, elem_children e = [ text_elem "note" note ]))
         /\ (is_Some (get_attr "lines" (elem_attrib e))
             <-> findall "content" e <> []).
Proof.
  intros Hm Hdir.
  destruct (in_section_files self h Hm codebase_path root Hdir)
    as (doc & E & Hsec).
  exists doc. split; [exact E|].
  intros e He. apply Hsec in He as (p & name & f & _ & _ & He).
  destruct (file_elements_form self h p f e He)
    as (_ & _ & _ & _ & _ & Hform).
  unfold findall.
  destruct Hform as [[Hc Hl] | [(content & _ & Hc & Hl) | (note & Hc & Hl)]];
    rewrite Hc, Hl; cbn [List.filter elem_tag text_elem String.eqb].
  - split; [now left|]. split; [intros [? ?]; discriminate | congruence].
  - split; [right; left; eauto|]. split; [discriminate | eauto].
  - split; [right; right; eauto|].
    split; [intros [? ?]; discriminate | ].
    vm_compute. congruence.
Qed.

Lemma X19_content_or_note_witness :
  exists doc,
    archive_codebase default_archiver bare_host
      (PosixPath Rooted ["srv"; "proj"]) (Some sample_tree) = Return doc
    /\ forall e,
         In e (section "files" doc) ->
         (elem_children e = []
          \/ (exists text, elem_children e = [ Elem "content" [] (Some text) [] ])
          \/ (exists note, elem_children e = [ text_elem "note" note ]))
         /\ (is_Some (get_attr "lines" (elem_attrib e))
             <-> findall "content" e <> []).
Proof.
  refine (X19_content_or_note default_archiver bare_host
            (PosixPath Rooted ["srv"; "proj"]) sample_tree _ _).
  - repeat (apply Forall_cons_2; [vm_compute; reflexivity|]). apply Forall_nil_2.
  - reflexivity.
Defined.

(** X20. Every [content] child in the files section holds legal code
    points only, whatever the files hold. *)
Theorem X20_document_content_is_legal (self : CodebaseArchiver) (h : Host)
    (codebase_path : Path) (root : Node) :
  modelled self ->
  is_dir root = true ->
  exists doc,
    archive_codebase self h codebase_path (Some root) = Return doc
    /\ forall e c,
         In e (section "files" doc) ->
         In c (findall "content" e) ->
         exists text, elem_text c = Some text /\ Forall legal_code_point text.
Proof.
  intros Hm Hdir.
  destruct (in_section_files self h Hm codebase_path root Hdir)
    as (doc & E & Hsec).
  exists doc. split; [exact E|].
  intros e c He Hc. apply Hsec in He as (p & name & f & _ & _ & He).
  destruct (file_elements_form self h p f e He)
    as (_ & _ & _ & _ & _ & Hform).
  unfold findall in Hc.
  destruct Hform as [[Hch _] | [(content & _ & Hch & _) | (note & Hch & _)]];
    rewrite Hch in Hc; cbn [List.filter elem_tag text_elem String.eqb] in Hc.
  - destruct Hc.
  - destruct Hc as [<- | []]. exists (_clean_xml_content content).
    split; [reflexivity | apply clean_legal].
  - vm_compute in Hc. destruct Hc.
Qed.

Lemma X20_document_content_is_legal_witness :
  exists doc,
    archive_codebase default_archiver bare_host
      (PosixPath Rooted ["srv"; "proj"]) (Some sample_tree) = Return doc
    /\ forall e c,
         In e (section "files" doc) ->
         In c (findall "content" e) ->
         exists text, elem_text c = Some text /\ Forall legal_code_point text.
Proof.
  refine (X20_document_content_is_legal default_archiver bare_host
            (PosixPath Rooted ["srv"; "proj"]) sample_tree _ _).
  - repeat (apply Forall_cons_2; [vm_compute; reflexivity|]). apply Forall_nil_2.
  - reflexivity.
Defined.

(** X21. A file larger than the size limit gets the regular element with
    the note [File too large (N bytes)] and nothing else, whatever its type
    and whether or not it can be read. *)
Theorem X21_oversized_files_get_a_note (self : CodebaseArchiver) (h : Host)
    (codebase_path : Path) (root : Node)
    (file_path : Path) (name : string) (f : FileData) (st : stat_result) :
  modelled self ->
  is_dir root = true ->
  In (file_path, File name f) (rglob codebase_path root) ->
  not_ignored self file_path = true ->
  f_stat f = Ok st ->
  max_file_size self < st_size st ->
  exists doc e,
    archive_codebase self h codebase_path (Some root) = Return doc
    /\ e = append
             (text_elem "note"
                ("File too large (" +:+ Py.str (st_size st) +:+ " bytes)"))
             (plain_file_element h file_path f)
    /\ file_elements self h file_path f = [e]
    /\ In e (section "files" doc).
Proof.
  intros Hm Hdir Hin Hni Hst Hsize.
  destruct (in_section_files self h Hm codebase_path root Hdir)
    as (doc & E & Hsec).
  assert (file_elements self h file_path f
          = [ append
                (text_elem "note"
                   ("File too large (" +:+ Py.str (st_size st) +:+ " bytes)"))
                (plain_file_element h file_path f) ]) as Hfile.
  { rewrite (file_elements_skipped self h file_path f st Hst).
    - apply Z.ltb_lt in Hsize. now rewrite Hsize.
    - apply andb_false_iff. left. apply Z.leb_gt. exact Hsize. }
  eexists doc, _. split; [exact E|]. split; [reflexivity|].
  split; [exact Hfile|].
  apply Hsec. exists file_path, name, f. rewrite Hfile.
  split; [exact Hin|]. split; [exact Hni|]. now left.
Qed.

Lemma X21_oversized_files_get_a_note_witness :
  exists doc e,
    archive_codebase small_archiver bare_host
      (PosixPath Rooted ["srv"; "proj"]) (Some big_tree) = Return doc
    /\ e = append
             (text_elem "note" ("File too large (" +:+ Py.str 11 +:+ " bytes)"))
             (plain_file_element bare_host
                (PosixPath Rooted ["srv"; "proj"; "big.txt"])
                (readable (plain_stat 11) "0123456789A"))
    /\ file_elements small_archiver bare_host
         (PosixPath Rooted ["srv"; "proj"; "big.txt"])
         (readable (plain_stat 11) "0123456789A") = [e]
    /\ In e (section "files" doc).
Proof.
  refine (X21_oversized_files_get_a_note small_archiver bare_host
            (PosixPath Rooted ["srv"; "proj"]) big_tree
            (PosixPath Rooted ["srv"; "proj"; "big.txt"]) "big.txt"
            (readable (plain_stat 11) "0123456789A") (plain_stat 11)
            _ _ _ _ _ _).
  - repeat (apply Forall_cons_2; [vm_compute; reflexivity|]). apply Forall_nil_2.
  - reflexivity.
  - left. reflexivity.
  - vm_compute. reflexivity.
  - reflexivity.
  - vm_compute. reflexivity.
Defined.

(** X22. A file within the size limit that the text check rejects, because
    of its type or because the 1KB probe fails, gets the regular element
    with the note [Binary file - content skipped]. *)
Theorem X22_rejected_files_get_a_note (self : CodebaseArchiver) (h : Host)
    (codebase_path : Path) (root : Node)
    (file_path : Path) (name : string) (f : FileData) (st : stat_result) :
  modelled self ->
  is_dir root = true ->
  In (file_path, File name f) (rglob codebase_path root) ->
  not_ignored self file_path = true ->
  f_stat f = Ok st ->
  st_size st <= max_file_size self ->
  _is_text_file self h file_path f = false ->
  exists doc e,
    archive_codebase self h codebase_path (Some root) = Return doc
    /\ e = append (text_elem "note" "Binary file - content skipped")
             (plain_file_element h file_path f)
    /\ file_elements self h file_path f = [e]
    /\ In e (section "files" doc).
Proof.
  intros Hm Hdir Hin Hni Hst Hsize Htext.
  destruct (in_section_files self h Hm codebase_path root Hdir)
    as (doc & E & Hsec).
  assert (file_elements self h file_path f
          = [ append (text_elem "note" "Binary file - content skipped")
                (plain_file_element h file_path f) ]) as Hfile.
  { rewrite (file_elements_skipped self h file_path f st Hst).
    - assert ((max_file_size self <? st_size st) = false) as ->
        by (apply Z.ltb_ge; exact Hsize).
      reflexivity.
    - rewrite Htext. apply andb_false_r. }
  eexists doc, _. split; [exact E|]. split; [reflexivity|].
  split; [exact Hfile|].
  apply Hsec. exists file_path, name, f. rewrite Hfile.
  split; [exact Hin|]. split; [exact Hni|]. now left.
Qed.

Lemma X22_rejected_files_get_a_note_witness :
  exists doc e,
    archive_codebase default_archiver bare_host
      (PosixPath Rooted ["srv"; "proj"]) (Some probe_tree) = Return doc
    /\ e = append (text_elem "note" "Binary file - content skipped")
             (plain_file_element bare_host
                (PosixPath Rooted ["srv"; "proj"; "odd.txt"])
                {| f_stat := Ok (plain_stat 4);
                   f_probe := OSError "[Errno 5] Input/output error";
                   f_read := OSError "[Errno 5] Input/output error" |})
    /\ file_elements default_archiver bare_host
         (PosixPath Rooted ["srv"; "proj"; "odd.txt"])
         {| f_stat := Ok (plain_stat 4);
            f_probe := OSError "[Errno 5] Input/output error";
            f_read := OSError "[Errno 5] Input/output error" |} = [e]
    /\ In e (section "files" doc).
Proof.
  refine (X22_rejected_files_get_a_note default_archiver bare_host
            (PosixPath Rooted ["srv"; "proj"]) probe_tree
            (PosixPath Rooted ["srv"; "proj"; "odd.txt"]) "odd.txt"
            {| f_stat := Ok (plain_stat 4);
               f_probe := OSError "[Errno 5] Input/output error";
               f_read := OSError "[Errno 5] Input/output error" |}
            (plain_stat 4) _ _ _ _ _ _ _).
  - repeat (apply Forall_cons_2; [vm_compute; reflexivity|]). apply Forall_nil_2.
  - reflexivity.
  - left. reflexivity.
  - vm_compute. reflexivity.
  - reflexivity.
  - vm_compute. discriminate.
  - vm_compute. reflexivity.
Defined.

(** X23. A file within the size limit that passes the text check and whose
    content is read and is not white space only gets one element: its
    attributes, the number of its lines, and one [content] child with the
    sanitised content. *)
Theorem X23_content_is_included (self : CodebaseArchiver) (h : Host)
    (codebase_path : Path) (root : Node)
    (file_path : Path) (name : string) (f : FileData)
    (st : stat_result) (content : list Z) :
  modelled self ->
  is_dir root = true ->
  In (file_path, File name f) (rglob codebase_path root) ->
  not_ignored self file_path = true ->
  f_stat f = Ok st ->
  st_size st <= max_file_size self ->
  _is_text_file self h file_path f = true ->
  f_read f = Ok content ->
  ~ Forall (fun c => Py.isspace c = true) content ->
  exists doc e,
    archive_codebase self h codebase_path (Some root) = Return doc
    /\ e = content_file_element file_path
             (FileTypeDetector.detect_type h file_path) st content
    /\ file_elements self h file_path f = [e]
    /\ In e (section "files" doc).
Proof.
  intros Hm Hdir Hin Hni Hst Hsize Htext Hread Hblank.
  destruct (in_section_files self h Hm codebase_path root Hdir)
    as (doc & E & Hsec).
  pose proof (file_elements_content self h file_path f st content
                Hst Hsize Htext Hread Hblank) as Hfile.
  eexists doc, _. split; [exact E|]. split; [reflexivity|].
  split; [exact Hfile|].
  apply Hsec. exists file_path, name, f. rewrite Hfile.
  split; [exact Hin|]. split; [exact Hni|]. now left.
Qed.

Lemma X23_content_is_included_witness :
  exists doc e,
    archive_codebase default_archiver bare_host
      (PosixPath Rooted ["srv"; "proj"]) (Some sample_tree) = Return doc
    /\ e = content_file_element (PosixPath Rooted ["srv"; "proj"; "a.py"])
             (FileTypeDetector.detect_type bare_host
                (PosixPath Rooted ["srv"; "proj"; "a.py"]))
             (plain_stat 5) (Py.codepoints "x = 1")
    /\ file_elements default_archiver bare_host
         (PosixPath Rooted ["srv"; "proj"; "a.py"])
         (readable (plain_stat 5) "x = 1") = [e]
    /\ In e (section "files" doc).
Proof.
  refine (X23_content_is_included default_archiver bare_host
            (PosixPath Rooted ["srv"; "proj"]) sample_tree
            (PosixPath Rooted ["srv"; "proj"; "a.py"]) "a.py"
            (readable (plain_stat 5) "x = 1") (plain_stat 5)
            (Py.codepoints "x = 1") _ _ _ _ _ _ _ _ _).
  - repeat (apply Forall_cons_2; [vm_compute; reflexivity|]). apply Forall_nil_2.
  - reflexivity.
  - left. reflexivity.
  - vm_compute. reflexivity.
  - reflexivity.
  - vm_compute. discriminate.
  - vm_compute. reflexivity.
  - reflexivity.
  - intros H. inversion H as [|? ? Hx _]. vm_compute in Hx. discriminate.
Defined.

(** X24. With binary inclusion enabled the type of a file plays no part:
    a file within the size limit on which the 1KB probe succeeds and whose
    content is read and is not white space only gets its [content] child,
    also when its type is one of the binary types. *)
Theorem X24_include_binary_skips_the_type_test (self : CodebaseArchiver)
    (h : Host) (codebase_path : Path) (root : Node)
    (file_path : Path) (name : string) (f : FileData)
    (st : stat_result) (content : list Z) :
  include_binary self = true ->
  modelled self ->
  is_dir root = true ->
  In (file_path, File name f) (rglob codebase_path root) ->
  not_ignored self file_path = true ->
  f_stat f = Ok st ->
  st_size st <= max_file_size self ->
  f_probe f = Ok tt ->
  f_read f = Ok content ->
  ~ Forall (fun c => Py.isspace c = true) content ->
  exists doc,
    archive_codebase self h codebase_path (Some root) = Return doc
    /\ In (content_file_element file_path
             (FileTypeDetector.detect_type h file_path) st content)
         (section "files" doc).
Proof.
  intros Hbin Hm Hdir Hin Hni Hst Hsize Hprobe Hread Hblank.
  destruct (in_section_files self h Hm codebase_path root Hdir)
    as (doc & E & Hsec).
  exists doc. split; [exact E|].
  apply Hsec. exists file_path, name, f.
  split; [exact Hin|]. split; [exact Hni|].
  rewrite (file_elements_content self h file_path f st content);
    [now left | exact Hst | exact Hsize | | exact Hread | exact Hblank].
  unfold _is_text_file. rewrite Hbin, Hprobe. reflexivity.
Qed.

Lemma X24_include_binary_skips_the_type_test_witness :
  In "image" BINARY_TYPES
  /\ exists doc,
       archive_codebase binary_archiver bare_host
         (PosixPath Rooted ["srv"; "proj"]) (Some picture_tree) = Return doc
       /\ In (content_file_element
                (PosixPath Rooted ["srv"; "proj"; "logo.png"])
                "image" (plain_stat 3) (Py.codepoints "PNG"))
            (section "files" doc).
Proof.
  split; [vm_compute; tauto|].
  refine (X24_include_binary_skips_the_type_test binary_archiver bare_host
            (PosixPath Rooted ["srv"; "proj"]) picture_tree
            (PosixPath Rooted ["srv"; "proj"; "logo.png"]) "logo.png"
            (readable (plain_stat 3) "PNG") (plain_stat 3)
            (Py.codepoints "PNG") _ _ _ _ _ _ _ _ _ _).
  - reflexivity.
  - repeat (apply Forall_cons_2; [vm_compute; reflexivity|]). apply Forall_nil_2.
  - reflexivity.
  - left. reflexivity.
  - vm_compute. reflexivity.
  - reflexivity.
  - vm_compute. discriminate.
  - reflexivity.
  - reflexivity.
  - intros H. inversion H as [|? ? Hx _]. vm_compute in Hx. discriminate.
Defined.

(** ** The entries of the structure tree *)

Section StructureMore.

Lemma insert_sorted_Permutation (A K : Type) (key : A -> K)
    (lt : K -> K -> bool) (x : A) (ys : list A) :
  Permutation (insert_sorted key lt x ys) (x :: ys).
Proof.
  induction ys as [|y ys IH]; [reflexivity|].
  cbn [insert_sorted]. destruct (lt (key y) (key x)); [|reflexivity].
  rewrite IH. apply perm_swap.
Qed.

(** Sorting keeps the elements and their multiplicity. *)
Lemma sorted_Permutation (A K : Type) (key : A -> K) (lt : K -> K -> bool)
    (xs : list A) :
  Permutation (sorted key lt xs) xs.
Proof.
  induction xs as [|x xs IH]; [reflexivity|].
  unfold sorted in *. cbn [foldr].
  rewrite insert_sorted_Permutation. now apply perm_skip.
Qed.




End StructureMore.



(** ** The sum of the histogram *)

Section HistogramTotal.
Context (self : CodebaseArchiver) (h : Host).

Lemma histogram_total_bump (file_types : gmap string Z) (tag : string) :
  histogram_total (<[ tag := default 0 (file_types !! tag) + 1 ]> file_types)
  = histogram_total file_types + 1.
Proof.
  unfold histogram_total.
  destruct (file_types !! tag) as [count|] eqn:E;
    unfold default; cbn [from_option id].
  - rewrite <- insert_delete_eq.
    rewrite map_fold_insert_L;
      [|intros; lia | apply lookup_delete_eq].
    rewrite (map_fold_delete_L _ 0 tag count file_types);
      [lia | intros; lia | exact E].
  - rewrite map_fold_insert_L; [lia | intros; lia | exact E].
Qed.

Lemma extract_step_total (md md' : Metadata) (item : Path * Node) :
  extract_step self h md item = Return md' ->
  total_files md' - histogram_total (file_types md')
  = total_files md - histogram_total (file_types md)
    + (if not_ignored self item.1 && stat_fails item.2 then 1 else 0).
Proof.
  unfold extract_step, not_ignored.
  assert (Hreturn : forall m : Metadata, Return m = Return md' -> m = md').
  { intros m Hm.
    exact (f_equal (fun r => match r with Return x => x | Raise _ => md end)
             Hm). }
  destruct (_should_ignore self item.1) as [[]|e]; cbn [mbind result_bind andb];
    [intros Hmd; apply Hreturn in Hmd; subst md'; lia | | discriminate].
  destruct item.2 as [name f|name entries|name|name]; cbn [stat_fails];
    [ | intros Hmd; apply Hreturn in Hmd; subst md';
        cbn [total_files file_types]; lia ..].
  destruct (f_stat f) as [st|msg];
    intros Hmd; apply Hreturn in Hmd; subst md'; cbn [total_files file_types];
    [|lia].
  rewrite histogram_total_bump. lia.
Qed.

Lemma for_each_extract_total (items : list (Path * Node)) :
  forall md md',
  for_each (extract_step self h) items md = Return md' ->
  total_files md' - histogram_total (file_types md')
  = total_files md - histogram_total (file_types md)
    + tally stat_fails self items.
Proof.
  induction items as [|item items IH]; intros md md'; cbn [for_each tally foldr].
  - intros Hmd.
    assert (md = md') as ->
      by exact (f_equal (fun r => match r with Return x => x | Raise _ => md end)
                  Hmd).
    lia.
  - destruct (extract_step self h md item) as [md1|e] eqn:E;
      cbn [mbind result_bind]; [|discriminate].
    intros Hmd. apply IH in Hmd. apply extract_step_total in E.
    unfold tally in Hmd. lia.
Qed.

End HistogramTotal.

(** X26. The counts of the histogram of file types add up to the number of
    counted files less those on which [stat] fails. *)
Theorem X26_histogram_adds_up (self : CodebaseArchiver) (h : Host)
    (codebase_path : Path) (root : Node) :
  modelled self ->
  exists md,
    _extract_metadata self h codebase_path root = Return md
    /\ histogram_total (file_types md)
       = total_files md - count_below stat_fails self codebase_path root.
Proof.
  intros Hm.
  destruct (extract_metadata_counts self h Hm codebase_path root)
    as (md & E & _).
  exists md. split; [exact E|].
  unfold _extract_metadata in E. apply for_each_extract_total in E.
  cbn [total_files file_types] in E. rewrite tally_rglob in E.
  change (histogram_total ∅) with 0 in E. lia.
Qed.

Lemma X26_histogram_adds_up_witness :
  exists md,
    _extract_metadata default_archiver bare_host
      (PosixPath Rooted ["srv"; "proj"]) sample_tree = Return md
    /\ histogram_total (file_types md) = total_files md - 1.
Proof.
  refine (X26_histogram_adds_up default_archiver bare_host
            (PosixPath Rooted ["srv"; "proj"]) sample_tree _).
  repeat (apply Forall_cons_2; [vm_compute; reflexivity|]). apply Forall_nil_2.
Defined.

(** ** The listings of the metadata section *)

Section MetadataListings.

Lemma types_of_metadata_element (md : Metadata) :
  section "file_types" (metadata_element md)
  = map (fun item : string * Z =>
           Elem "type" [ ("name", item.1); ("count", Py.str item.2) ] None [])
      (sorted_items (map_to_list (file_types md))).
Proof.
  unfold metadata_element.
  destruct (decide (file_types md = ∅)) as [Hnone|_].
  - rewrite Hnone, map_to_list_empty.
    destruct (decide (languages md = ∅)); reflexivity.
  - destruct (decide (languages md = ∅)); unfold section, findall;
      cbn [app elem_children List.filter elem_tag text_elem String.eqb
           Ascii.eqb Bool.eqb flat_map]; now rewrite app_nil_r.
Qed.

Lemma languages_of_metadata_element (md : Metadata) :
  section "languages" (metadata_element md)
  = map (text_elem "language") (sorted_strings (elements (languages md))).
Proof.
  unfold metadata_element.
  destruct (decide (languages md = ∅)) as [Hnone|_].
  - rewrite Hnone, elements_empty.
    destruct (decide (file_types md = ∅)); reflexivity.
  - destruct (decide (file_types md = ∅)); unfold section, findall;
      cbn [app elem_children List.filter elem_tag text_elem String.eqb
           Ascii.eqb Bool.eqb flat_map]; now rewrite app_nil_r.
Qed.

Lemma metadata_of_document (self : CodebaseArchiver) (h : Host)
    (codebase_path : Path) (root : Node) :
  modelled self ->
  is_dir root = true ->
  exists doc md,
    archive_codebase self h codebase_path (Some root) = Return doc
    /\ _extract_metadata self h codebase_path root = Return md
    /\ findall "metadata" doc = [ metadata_element md ].
Proof.
  intros Hm Hdir.
  destruct (archive_codebase_shape self h Hm codebase_path root Hdir)
    as (md & t & Emd & _ & E).
  eexists _, md. split; [exact E|]. split; [exact Emd|]. reflexivity.
Qed.

End MetadataListings.

(** X27. The metadata section of the document lists every bucket of the
    histogram of file types once, with its count, in ascending order of the
    type name. *)
Theorem X27_types_are_listed_in_order (self : CodebaseArchiver) (h : Host)
    (codebase_path : Path) (root : Node) :
  modelled self ->
  is_dir root = true ->
  exists doc md,
    archive_codebase self h codebase_path (Some root) = Return doc
    /\ _extract_metadata self h codebase_path root = Return md
    /\ Permutation
         (map (fun e => (get_attr "name" (elem_attrib e),
                         get_attr "count" (elem_attrib e)))
            (metadata_types doc))
         (map (fun item : string * Z => (Some item.1, Some (Py.str item.2)))
            (map_to_list (file_types md)))
    /\ StronglySorted (not_after String.ltb)
         (map (fun e => default "" (get_attr "name" (elem_attrib e)))
            (metadata_types doc)).
Proof.
  intros Hm Hdir.
  destruct (metadata_of_document self h codebase_path root Hm Hdir)
    as (doc & md & E & Emd & Hmeta).
  exists doc, md. split; [exact E|]. split; [exact Emd|].
  unfold metadata_types. rewrite Hmeta. cbn [flat_map].
  rewrite app_nil_r, types_of_metadata_element, !map_map.
  cbn [elem_attrib get_attr String.eqb Ascii.eqb Bool.eqb].
  split.
  - apply (Permutation_map
             (fun item : string * Z => (Some item.1, Some (Py.str item.2)))).
    apply sorted_Permutation.
  - apply (sorted_sorted fst String.ltb string_ltb_asym string_le_trans).
Qed.

Lemma X27_types_are_listed_in_order_witness :
  exists doc md,
    archive_codebase default_archiver bare_host
      (PosixPath Rooted ["srv"; "proj"]) (Some sample_tree) = Return doc
    /\ _extract_metadata default_archiver bare_host
         (PosixPath Rooted ["srv"; "proj"]) sample_tree = Return md
    /\ Permutation
         (map (fun e => (get_attr "name" (elem_attrib e),
                         get_attr "count" (elem_attrib e)))
            (metadata_types doc))
         (map (fun item : string * Z => (Some item.1, Some (Py.str item.2)))
            (map_to_list (file_types md)))
    /\ StronglySorted (not_after String.ltb)
         (map (fun e => default "" (get_attr "name" (elem_attrib e)))
            (metadata_types doc)).
Proof.
  refine (X27_types_are_listed_in_order default_archiver bare_host
            (PosixPath Rooted ["srv"; "proj"]) sample_tree _ _).
  - repeat (apply Forall_cons_2; [vm_compute; reflexivity|]). apply Forall_nil_2.
  - reflexivity.
Defined.

(** X28. The metadata section of the document lists every language of the
    metadata once, in ascending order. *)
Theorem X28_languages_are_listed_in_order (self : CodebaseArchiver)
    (h : Host) (codebase_path : Path) (root : Node) :
  modelled self ->
  is_dir root = true ->
  exists doc md names,
    archive_codebase self h codebase_path (Some root) = Return doc
    /\ _extract_metadata self h codebase_path root = Return md
    /\ metadata_languages doc = map (text_elem "language") names
    /\ Permutation names (elements (languages md))
    /\ StronglySorted (not_after String.ltb) names.
Proof.
  intros Hm Hdir.
  destruct (metadata_of_document self h codebase_path root Hm Hdir)
    as (doc & md & E & Emd & Hmeta).
  exists doc, md, (sorted_strings (elements (languages md))).
  split; [exact E|]. split; [exact Emd|].
  unfold metadata_languages. rewrite Hmeta. cbn [flat_map].
  rewrite app_nil_r, languages_of_metadata_element.
  split; [reflexivity|]. split.
  - apply sorted_Permutation.
  - rewrite <- (map_id (sorted_strings (elements (languages md)))).
    apply (sorted_sorted id String.ltb string_ltb_asym string_le_trans).
Qed.

Lemma X28_languages_are_listed_in_order_witness :
  exists doc md names,
    archive_codebase default_archiver bare_host
      (PosixPath Rooted ["srv"; "proj"]) (Some sample_tree) = Return doc
    /\ _extract_metadata default_archiver bare_host
         (PosixPath Rooted ["srv"; "proj"]) sample_tree = Return md
    /\ metadata_languages doc = map (text_elem "language") names
    /\ Permutation names (elements (languages md))
    /\ StronglySorted (not_after String.ltb) names.
Proof.
  refine (X28_languages_are_listed_in_order default_archiver bare_host
            (PosixPath Rooted ["srv"; "proj"]) sample_tree _ _).
  - repeat (apply Forall_cons_2; [vm_compute; reflexivity|]). apply Forall_nil_2.
  - reflexivity.
Defined.


(** ** The counts on a tree that does not change *)


